(** * TD_DOCKER_2025: the container audit scripts and the readiness endpoint

  A shallow embedding of the PowerShell audit runners
  ([tests/test-security.ps1], [tests/test-security-caps.ps1],
  [tests/test-multistage.ps1], [tests/test-environment.ps1],
  [tests/test-orchestration.ps1]), of the vulnerability scan
  ([tests/test-security-scan.ps1]), of the suite aggregator
  ([run-all-tests.ps1]) and of the REST API: the [/ready] handler
  ([api/src/controllers/health.controller.js] with the service and the
  repository behind it), the two read endpoints of the items
  ([api/src/controllers/item.controller.js] down to the repository, with
  the error middleware and the logger) and the configuration of the
  database ([api/src/config/database.js]).

  Conventions of the embedding:
  - script-scope mutable hashtables ([$Script:TestResults],
    [$Script:TestSuite]) are threaded explicitly through a state monad;
  - what a script learns from [docker], from the file system or from the
    database pool is an argument of the embedded function (the facts the
    command returned), and the command itself is not modelled;
  - [Write-Host] output is left out, except in the capabilities audit where
    the printed line is the only place the verdict is reported;
  - the [Details] hashtable of a check result is diagnostic only (no
    scoring code reads it) and is left out of the result record;
  - PowerShell compares and matches texts without regard to case
    ([-eq], [-contains], [-match]); the names the scripts handle are ASCII,
    and characters are those below U+0100;
  - Int32 counters are [Z] (no run reaches 2^31 checks), and [double]
    values, as the numbers of JavaScript, are binary64 floats computed
    by the kernel's primitives;
  - a regular expression is a matcher written for it, which scans the
    text from left to right as the .NET engine does; what the two
    searches of the Dockerfile checks find is then proved for a text
    given by its lines, and the statements speak of the lines;
  - an [async] function of the API is a function from the log written so
    far to a promise that is fulfilled or rejected and the log after it. *)

From Stdlib Require Import ZArith List String Ascii Bool Lia.
From Stdlib Require Import Floats.PrimFloat Floats.SpecFloat Floats.FloatOps.
From Stdlib Require Import Floats.FloatAxioms.
From Stdlib Require Import Numbers.Cyclic.Int63.Uint63.
From Stdlib Require Import Numbers.DecimalString.
From stdpp Require Import base strings gmap.

Import ListNotations.
Local Open Scope string_scope.
Local Open Scope Z_scope.

(* ================================================================== *)
(** ** PowerShell primitives *)
(* ================================================================== *)

Module PS.

(** Letters are compared without case by [-eq], [-contains], [-match]
    and their negations.  Container, folder, image and capability names
    are ASCII, so folding ['A'..'Z'] is the whole story. *)
Definition is_upper (c : ascii) : bool :=
  let n := nat_of_ascii c in (65 <=? n)%nat && (n <=? 90)%nat.

Definition to_lower (c : ascii) : ascii :=
  if is_upper c then ascii_of_nat (nat_of_ascii c + 32) else c.

Definition char_ieq (a b : ascii) : bool :=
  Ascii.eqb (to_lower a) (to_lower b).

(** [\s] of a .NET regex, on characters below U+0100. *)
Definition is_space (c : ascii) : bool :=
  let n := nat_of_ascii c in
  ((9 <=? n)%nat && (n <=? 13)%nat) || (n =? 32)%nat || (n =? 133)%nat || (n =? 160)%nat.

(** [$a -eq $b] on two strings. *)
Fixpoint ieq (a b : string) : bool :=
  match a, b with
  | EmptyString, EmptyString => true
  | String x a', String y b' => char_ieq x y && ieq a' b'
  | _, _ => false
  end.

(** Does [s] start with [p], letters compared without case
    (a regex anchored by [^] whose body is a literal). *)
Fixpoint istarts (p s : string) : bool :=
  match p, s with
  | EmptyString, _ => true
  | String x p', String y s' => char_ieq x y && istarts p' s'
  | String _ _, EmptyString => false
  end.

(** [$s -match 'lit']: an unanchored regex whose body is the literal
    [p] matches iff [p] occurs somewhere in [s]. *)
Fixpoint imatch (s p : string) : bool :=
  istarts p s ||
  match s with
  | EmptyString => false
  | String _ s' => imatch s' p
  end.

(** [$s -match '(p1|p2|...)']: an alternation of literals. *)
Definition imatch_any (s : string) (ps : list string) : bool :=
  existsb (imatch s) ps.

(** A value read from JSON that is either [null] or an array of
    strings ([HostConfig.CapAdd], [CapDrop], [SecurityOpt], ...). *)
Definition strings := option (list string).

Definition items (v : strings) : list string :=
  match v with None => [] | Some l => l end.

(** Conversion to [bool] in a condition: [$null] and the empty array
    are false, an array of one element converts as that element (a
    string is true iff it is not empty), a longer array is true. *)
Definition truthy_string (s : string) : bool :=
  match s with EmptyString => false | _ => true end.

Definition truthy (v : strings) : bool :=
  match v with
  | None | Some [] => false
  | Some [x] => truthy_string x
  | Some (_ :: _ :: _) => true
  end.

(** [$v -contains $x] and [$v -notcontains $x]. *)
Definition contains (v : list string) (x : string) : bool :=
  existsb (fun e => ieq e x) v.

Definition notcontains (v : list string) (x : string) : bool :=
  negb (contains v x).

(** [$v.Count]; [$null.Count] is 0. *)
Definition Count (v : strings) : Z := Z.of_nat (length (items v)).

(** [$v -join $sep]. *)
Fixpoint join (sep : string) (l : list string) : string :=
  match l with
  | [] => ""
  | [x] => x
  | x :: l' => x +:+ sep +:+ join sep l'
  end.

(** An integer inside a double-quoted string. *)
Definition show (z : Z) : string := NilZero.string_of_int (Z.to_int z).

(** What is left in a variable that was assigned the output of a
    pipeline: nothing, the one object itself, or an array of the
    objects.  [Count] of the variable is 0 for nothing and the length for
    an array; when the one object is a hashtable, [.Count] is the
    hashtable's own property, the number of its keys. *)
Definition pipeline_Count {A} (keys : A -> Z) (out : list A) : Z :=
  match out with
  | [] => 0
  | [h] => keys h
  | _ :: _ :: _ => Z.of_nat (length out)
  end.

End PS.

(* ================================================================== *)
(** ** Doubles *)
(* ================================================================== *)

Module Double.

Definition of_Z (z : Z) : float := PrimFloat.of_uint63 (Uint63.of_Z z).

(** 2^52: adding and subtracting it rounds a double in [0, 2^52) to the
    nearest integer, ties to even, which is [Math.Round(double)]. *)
Definition two52 : float := of_Z 4503599627370496.

Definition RoundInt (x : float) : float :=
  PrimFloat.sub (PrimFloat.add x two52) two52.

Definition power10 (digits : nat) : float := of_Z (10 ^ Z.of_nat digits).

(** [[math]::Round(x, digits)]: scale by a power of ten, round to the
    nearest integer (ties to even), scale back. *)
Definition Round (x : float) (digits : nat) : float :=
  PrimFloat.div (RoundInt (PrimFloat.mul x (power10 digits))) (power10 digits).

(** [($a / $b) * 100] on two Int32 values.  PowerShell divides two
    integers exactly when the quotient is an integer and as doubles
    otherwise; the double quotient of two integers is that same integer
    when it is one, so one double division covers both cases. *)
Definition ratio100 (a b : Z) : float :=
  PrimFloat.mul (PrimFloat.div (of_Z a) (of_Z b)) (of_Z 100).

Definition geb (x y : float) : bool := PrimFloat.leb y x.

(** The double nearest to an integer of any size, ties to even; beyond
    the range of the doubles it is an infinity. *)
Definition of_integer (z : Z) : float :=
  SF2Prim (binary_normalize prec emax z 0 false).

(** The integer a double holds when it holds one (the quotient of its
    mantissa otherwise); no integer for [NaN] and the infinities. *)
Definition to_Z (x : float) : option Z :=
  match Prim2SF x with
  | S754_zero _ => Some 0
  | S754_finite s m e =>
    let v := if 0 <=? e then Z.pos m * 2 ^ e else Z.pos m / 2 ^ (- e) in
    Some (if s then - v else v)
  | S754_infinity _ | S754_nan => None
  end.

(** [$x] inside a double-quoted string, for a double that
    [[math]::Round(_, 2)] returned: the shortest decimal that reads back
    as the double, which is the figure with its two decimals, written
    without trailing zeros ([612.35], [612.3], [612]). *)
Definition show_hundredths (x : float) : string :=
  match to_Z (RoundInt (PrimFloat.mul x (power10 2))) with
  | Some k =>
    let sign := if k <? 0 then "-" else "" in
    let whole := PS.show (Z.abs k / 100) in
    let cents := Z.abs k mod 100 in
    if cents =? 0 then sign +:+ whole
    else if cents mod 10 =? 0 then sign +:+ whole +:+ "." +:+ PS.show (cents / 10)
    else sign +:+ whole +:+ "." +:+ (if cents <? 10 then "0" else "") +:+ PS.show cents
  | None => ""
  end.

End Double.

(* ================================================================== *)
(** ** The report accumulator shared by the category runners *)
(* ================================================================== *)

(** [test-security.ps1], [test-multistage.ps1], [test-environment.ps1],
    [test-orchestration.ps1] and [test-api.ps1] each start from the same
    [$Script:TestResults] hashtable and carry the same [Add-TestResult]
    and the same final report; they are embedded once. *)

Module Result.

(** The hashtable [Add-TestResult] appends to [Steps]. *)
Record t := mk { Test : string; Status : string; Passed : bool; Reason : string }.

End Result.

Module TestResults.

Record t := mk {
  Category : string;
  TotalTests : Z;
  Passed : Z;
  Failed : Z;
  Steps : list Result.t }.

(** [$Script:TestResults = @{ Category = ...; TotalTests = 0; Passed = 0;
    Failed = 0; Steps = @() }] *)
Definition init (category : string) : t := mk category 0 0 0 [].

End TestResults.

(** Computations over the script-scope accumulator. *)
Definition Runner (A : Type) : Type := TestResults.t -> A * TestResults.t.

Definition ret {A} (a : A) : Runner A := fun st => (a, st).

Definition bind {A B} (m : Runner A) (k : A -> Runner B) : Runner B :=
  fun st => let (a, st') := m st in k a st'.

Notation "x <- m ;; k" := (bind m (fun x => k))
  (at level 100, m at next level, right associativity).

(** [... | Out-Null]: the returned value is dropped. *)
Definition Out_Null {A} (m : Runner A) : Runner unit :=
  fun st => (tt, snd (m st)).

(** [foreach ($x in $xs) { body $x | Out-Null }] *)
Fixpoint foreach {A B} (xs : list A) (body : A -> Runner B) : Runner unit :=
  match xs with
  | [] => ret tt
  | x :: xs' => _ <- body x ;; foreach xs' body
  end.

(** [Add-TestResult -Test -Passed -Reason]: the counters are bumped, the
    result is appended to [Steps] and [$Passed] is returned. *)
Definition Add_TestResult (Test : string) (Passed : bool) (Reason : string)
  : Runner bool :=
  fun st =>
    let TotalTests := TestResults.TotalTests st + 1 in
    let '(Passed', Failed', status) :=
      if Passed
      then (TestResults.Passed st + 1, TestResults.Failed st, "OK")
      else (TestResults.Passed st, TestResults.Failed st + 1, "FAIL") in
    let result := Result.mk Test status Passed Reason in
    (Passed,
     TestResults.mk (TestResults.Category st) TotalTests Passed' Failed'
                    (TestResults.Steps st ++ [result])%list).

(** [$Script:TestResults.Steps.Count] *)
Definition Steps_Count (st : TestResults.t) : Z :=
  Z.of_nat (length (TestResults.Steps st)).

(** [$totalPercentage = if ($Script:TestResults.Steps.Count -gt 0) {
      [math]::Round(($Script:TestResults.Passed /
                     $Script:TestResults.Steps.Count) * 100, 1)
    } else { 0 }] *)
Definition totalPercentage (st : TestResults.t) : float :=
  if 0 <? Steps_Count st
  then Double.Round (Double.ratio100 (TestResults.Passed st) (Steps_Count st)) 1
  else Double.of_Z 0.

(** [if ($totalPercentage -ge 70) { exit 0 } else { exit 1 }] *)
Definition exit_of_percentage (p : float) : Z :=
  if Double.geb p (Double.of_Z 70) then 0 else 1.

(** How a runner script ends: the exit status it hands to its caller and
    the report it printed, if it got as far as printing one. *)
Record Exit := mkExit { exit_code : Z; report : option TestResults.t }.

(** The final report of every runner:
    [Total Tests], [Passed], [Failed], [Success Rate], then the exit. *)
Definition final_report (st : TestResults.t) : Exit :=
  mkExit (exit_of_percentage (totalPercentage st)) (Some st).

(** The prints a guard does before [exit 1]: no report. *)
Definition hard_failure : Exit := mkExit 1 None.

(* ================================================================== *)
(** ** What the container engine reports *)
(* ================================================================== *)

Module Docker.

(** The fields of [HostConfig] the audits read from [docker inspect]. *)
Record HostConfig := mkHostConfig {
  CapDrop : PS.strings;
  CapAdd : PS.strings;
  SecurityOpt : PS.strings;
  Privileged : bool;
  UsernsMode : string;
  Memory : Z;
  CpuQuota : Z;
  CpuPeriod : Z;
  NanoCpus : Z;
  ReadonlyRootfs : bool }.

(** [docker inspect $Container 2>$null | ConvertFrom-Json]: the pipeline
    raises (no engine, malformed output), yields nothing (no such
    container), or yields the inspected object. *)
Inductive Inspect :=
| InspectThrew
| InspectNothing
| Inspected (hc : HostConfig).

(** [docker exec $Container ... 2>$null | ...]: raises, or yields the
    selected output line, if any. *)
Inductive Exec :=
| ExecThrew (message : string)
| ExecOut (line : option string).

(** What one run observes of one container: the inspection, the second
    line of [ps -o user,pid] and, when [grep CapEff /proc/1/status] prints
    its line, the hexadecimal mask the line holds after [CapEff:] and a
    tabulation. *)
Record Container := mkContainer {
  inspect : Inspect;
  ps_user_pid : Exec;
  CapEff : option string }.

End Docker.

(* ================================================================== *)
(** ** tests/test-security.ps1 *)
(* ================================================================== *)

Module Security.

Import Docker.

(** [($line -split '\s+')[0]]: the text before the first blank. *)
Fixpoint first_field (s : string) : string :=
  match s with
  | EmptyString => EmptyString
  | String c s' => if PS.is_space c then EmptyString else String c (first_field s')
  end.

(** [$s -split ':'] *)
Fixpoint split_colon (s : string) : list string :=
  match s with
  | EmptyString => [EmptyString]
  | String c s' =>
    if Ascii.eqb c ":"%char then EmptyString :: split_colon s'
    else match split_colon s' with
         | [] => [String c EmptyString]
         | f :: fs => String c f :: fs
         end
  end.

Fixpoint trim_start (s : string) : string :=
  match s with
  | EmptyString => EmptyString
  | String c s' => if PS.is_space c then trim_start s' else s
  end.

Fixpoint trim_end (s : string) : string :=
  match s with
  | EmptyString => EmptyString
  | String c s' =>
    match trim_end s' with
    | EmptyString => if PS.is_space c then EmptyString else String c EmptyString
    | t => String c t
    end
  end.

(** [$s.Trim()] *)
Definition Trim (s : string) : string := trim_end (trim_start s).

(** [function Test-NonRootUser] *)
Definition Test_NonRootUser (Container : string) (c : Docker.Container)
  : Runner bool :=
  match ps_user_pid c with
  | ExecThrew message =>
    Add_TestResult ("Non-root user: " +:+ Container) false
                   ("Inspection failed: " +:+ message)
  | ExecOut psOutput =>
    match psOutput with
    | Some line =>
      if PS.truthy_string line then
        let user := first_field line in
        let isRoot := PS.ieq user "root" || PS.ieq user "0" in
        Add_TestResult ("Non-root user: " +:+ Container) (negb isRoot)
                       (if isRoot then "Running as root (UID 0)" else "")
      else
        Add_TestResult ("Non-root user: " +:+ Container) false
                       "Cannot determine process user"
    | None =>
      Add_TestResult ("Non-root user: " +:+ Container) false
                     "Cannot determine process user"
    end
  end.

(** [$expectedCaps]: the capabilities a container type may add. *)
Definition expectedCaps : gmap string (list string) :=
  {[ "db" := ["CAP_CHOWN"; "CAP_DAC_OVERRIDE"; "CAP_FOWNER"; "CAP_SETGID"; "CAP_SETUID"];
     "postgres" := ["CAP_CHOWN"; "CAP_DAC_OVERRIDE"; "CAP_FOWNER"; "CAP_SETGID"; "CAP_SETUID"];
     "api" := [];
     "frontend" := [];
     "nginx" := [];
     "node" := [] ]}.

(** The keys of [$expectedCaps] as the literal lists them.  A [@{}]
    literal is a [System.Collections.Hashtable]: [.Keys] enumerates these
    six in an order the hash codes decide, not in this one, so
    [Test_Capabilities] takes the enumeration as an argument. *)
Definition expectedCaps_literal : list string :=
  ["db"; "postgres"; "api"; "frontend"; "nginx"; "node"].

(** [foreach ($type in $expectedCaps.Keys) {
      if ($Container -match $type) { $containerType = $type; break } }] *)
Definition containerType_of (Keys : list string) (Container : string) : string :=
  match find (fun type => PS.imatch Container type) Keys with
  | Some type => type
  | None => ""
  end.

(** [if ($cap -notmatch '^CAP_') { "CAP_$cap" } else { $cap }] *)
Definition normalizedCap (cap : string) : string :=
  if negb (PS.istarts "CAP_" cap) then "CAP_" +:+ cap else cap.

(** The loop that collects [$unexpectedCaps]. *)
Definition unexpectedCaps_of (expected : list string) (capAdd : PS.strings)
  : list string :=
  if PS.truthy capAdd
  then List.filter (fun cap => PS.notcontains expected (normalizedCap cap)) (PS.items capAdd)
  else [].

(** The line of [/proc/1/status] that holds the mask [hex]. *)
Definition CapEff_line (hex : string) : string :=
  "CapEff:" +:+ String (ascii_of_nat 9) hex.

(** [$capsHex]: ["unknown"] when the probe printed nothing, else
    [($capsEffective -split ':')[1].Trim()], which raises (a method call
    on [$null]) when the line holds no colon. *)
Definition capsHex_of (capsEffective : option string) : option string :=
  match capsEffective with
  | Some line =>
    if PS.truthy_string line then
      match split_colon line with
      | _ :: field :: _ => Some (Trim field)
      | _ => None
      end
    else Some "unknown"
  | None => Some "unknown"
  end.

(** [function Test-Capabilities] *)
Definition Test_Capabilities (Keys : list string) (Container : string)
  (c : Docker.Container) : Runner bool :=
  match inspect c with
  | InspectThrew =>
    Add_TestResult ("Capabilities: " +:+ Container) false "Inspection failed"
  | InspectNothing =>
    Add_TestResult ("Capabilities: " +:+ Container) false "Container not found"
  | Inspected hc =>
    let capDrop := CapDrop hc in
    let capAdd := CapAdd hc in
    let hasDropAll := PS.contains (PS.items capDrop) "ALL" in
    let capAddCount := if PS.truthy capAdd then PS.Count capAdd else 0 in
    let capsEffective := option_map CapEff_line (CapEff c) in
    match capsHex_of capsEffective with
    | None =>
      Add_TestResult ("Capabilities: " +:+ Container) false "Inspection failed"
    | Some capsHex =>
      let containerType := containerType_of Keys Container in
      let expected :=
        if PS.truthy_string containerType
        then default [] (expectedCaps !! containerType)
        else [] in
      let unexpectedCaps := unexpectedCaps_of expected capAdd in
      let passed := hasDropAll && (Z.of_nat (length unexpectedCaps) =? 0) in
      let reason :=
        if negb hasDropAll then "Missing cap_drop: ALL"
        else if 0 <? Z.of_nat (length unexpectedCaps)
        then "Unexpected capabilities: " +:+ PS.join ", " unexpectedCaps
        else if 0 <? capAddCount
        then "Info: " +:+ PS.show capAddCount +:+ " justified capabilities added"
        else "" in
      Add_TestResult ("Capabilities: " +:+ Container) passed reason
    end
  end.

(** [function Test-SecurityOptions] *)
Definition Test_SecurityOptions (Container : string) (c : Docker.Container)
  : Runner bool :=
  match inspect c with
  | InspectThrew =>
    Add_TestResult ("Security options: " +:+ Container) false "Inspection failed"
  | InspectNothing =>
    Add_TestResult ("Security options: " +:+ Container) false "Container not found"
  | Inspected hc =>
    let securityOpt := SecurityOpt hc in
    let hasNoNewPrivileges :=
      if PS.truthy securityOpt
      then PS.contains (PS.items securityOpt) "no-new-privileges:true"
           || PS.contains (PS.items securityOpt) "no-new-privileges"
      else false in
    Add_TestResult ("Security options: " +:+ Container) hasNoNewPrivileges
                   (if negb hasNoNewPrivileges then "Missing no-new-privileges" else "")
  end.

(** [function Test-ResourceLimits] *)
Definition Test_ResourceLimits (Container : string) (c : Docker.Container)
  : Runner bool :=
  match inspect c with
  | InspectThrew =>
    Add_TestResult ("Resource limits: " +:+ Container) false "Inspection failed"
  | InspectNothing =>
    Add_TestResult ("Resource limits: " +:+ Container) false "Container not found"
  | Inspected hc =>
    let hasMemoryLimit := 0 <? Memory hc in
    let hasCpuLimit :=
      ((0 <? CpuQuota hc) && (0 <? CpuPeriod hc)) || (0 <? NanoCpus hc) in
    let passed := hasMemoryLimit && hasCpuLimit in
    let reasons :=
      List.app (if negb hasMemoryLimit then ["No memory limit"] else [])
               (if negb hasCpuLimit then ["No CPU limit"] else []) in
    Add_TestResult ("Resource limits: " +:+ Container) passed (PS.join ", " reasons)
  end.

(** [$writableAllowed] *)
Definition writableAllowed : list string :=
  ["db"; "postgres"; "mysql"; "mongo"; "redis"; "api"; "nginx"; "frontend"].

(** [function Test-ReadOnlyRootFS] *)
Definition Test_ReadOnlyRootFS (Container : string) (c : Docker.Container)
  : Runner bool :=
  match inspect c with
  | InspectThrew =>
    Add_TestResult ("Read-only rootfs: " +:+ Container) false "Inspection failed"
  | InspectNothing =>
    Add_TestResult ("Read-only rootfs: " +:+ Container) false "Container not found"
  | Inspected hc =>
    let readonlyRootfs := ReadonlyRootfs hc in
    let isAllowedWritable := PS.imatch_any Container writableAllowed in
    let passed := readonlyRootfs || isAllowedWritable in
    let reason :=
      if negb readonlyRootfs && negb isAllowedWritable
      then "Filesystem writable without justification"
      else if negb readonlyRootfs
      then "Writable (justified for this service type)"
      else "" in
    Add_TestResult ("Read-only rootfs: " +:+ Container) passed reason
  end.

(** [function Get-ContainerList]: the names [docker ps] printed, and
    nothing when it printed none (an empty array returned by a function
    reaches the caller as [$null]). *)
Definition Get_ContainerList (running : PS.strings) : PS.strings :=
  if PS.truthy running then running else None.

(** What one invocation of the script sees: its [-Containers] argument,
    the output of [docker ps], what the engine reports of each name and
    the order in which [$expectedCaps.Keys] enumerates. *)
Record World := mkWorld {
  Containers : PS.strings;
  running : PS.strings;
  docker : string -> Docker.Container;
  Keys : list string }.

(** Steps 1 to 5 of the main execution. *)
Definition steps (w : World) (containerList : list string) : Runner unit :=
  _ <- foreach containerList (fun container =>
         Out_Null (Test_NonRootUser container (docker w container))) ;;
  _ <- foreach containerList (fun container =>
         Out_Null (Test_Capabilities (Keys w) container (docker w container))) ;;
  _ <- foreach containerList (fun container =>
         Out_Null (Test_SecurityOptions container (docker w container))) ;;
  _ <- foreach containerList (fun container =>
         Out_Null (Test_ResourceLimits container (docker w container))) ;;
  foreach containerList (fun container =>
         Out_Null (Test_ReadOnlyRootFS container (docker w container))).

(** The main execution: resolve the containers, refuse to run on none,
    run the five steps, print the final report and exit. *)
Definition main (w : World) : Exit :=
  let containerList :=
    if PS.truthy (Containers w) then Containers w
    else Get_ContainerList (running w) in
  if negb (PS.truthy containerList) || (PS.Count containerList =? 0)
  then hard_failure
  else final_report (snd (steps w (PS.items containerList)
                                (TestResults.init "SECURITY"))).

End Security.

(* ================================================================== *)
(** ** tests/test-security-caps.ps1 *)
(* ================================================================== *)

Module SecurityCaps.

Import Docker.

(** [Write-Host ... -ForegroundColor]: the colour carries the verdict of
    a line (green: good, yellow: warning, red: risk).  The icon that
    opens a line and its indentation are not part of the text kept here. *)
Inductive Color := Green | Yellow | Red | Gray.

Definition Line : Type := Color * string.

(** The running [$Score] of one service (it is bumped by [1] or by
    [0.5]) and the lines printed so far. *)
Record Audit := mkAudit { Score : float; Out : list Line }.

Definition add_score (inc : float) (lines : list Line) (a : Audit) : Audit :=
  mkAudit (PrimFloat.add (Score a) inc) (List.app (Out a) lines).

Definition full : float := Double.of_Z 1.
Definition half : float := 0.5%float.
Definition none : float := Double.of_Z 0.

(** [1/6] Dropped capabilities. *)
Definition check_CapDrop (hc : HostConfig) (a : Audit) : Audit :=
  let CapDrop := CapDrop hc in
  if PS.truthy CapDrop && PS.contains (PS.items CapDrop) "ALL" then
    add_score full [(Green, "CapDrop: ALL (all capabilities dropped)")] a
  else if PS.truthy CapDrop && (0 <? PS.Count CapDrop) then
    add_score half
      [(Yellow, "CapDrop: " +:+ PS.join ", " (PS.items CapDrop));
       (Yellow, "Recommendation: Use 'ALL' to drop all capabilities")] a
  else
    add_score none
      [(Red, "No capabilities dropped (HIGH RISK!)");
       (Red, "Container has Docker's 14 default capabilities")] a.

(** [$RequiredCaps] *)
Definition RequiredCaps : gmap string (list string) :=
  {[ "nginx" := ["CAP_CHOWN"; "CAP_SETGID"; "CAP_SETUID"];
     "frontend" := ["CAP_CHOWN"; "CAP_SETGID"; "CAP_SETUID"];
     "postgres" := ["CAP_CHOWN"; "CAP_DAC_OVERRIDE"; "CAP_FOWNER"; "CAP_SETGID"; "CAP_SETUID"];
     "db" := ["CAP_CHOWN"; "CAP_DAC_OVERRIDE"; "CAP_FOWNER"; "CAP_SETGID"; "CAP_SETUID"];
     "node" := [];
     "api" := [] ]}.

(** The inner loop over [$RequiredCaps.Keys]: it looks for some key that
    matches the service and lists the capability, so the order of the
    keys does not matter. *)
Definition Justified (ServiceName cap : string) : bool :=
  existsb (fun kv : string * list string =>
             PS.imatch ServiceName (fst kv) && PS.contains (snd kv) cap)
          (map_to_list RequiredCaps).

(** [2/6] Added capabilities. *)
Definition check_CapAdd (ServiceName : string) (hc : HostConfig) (a : Audit)
  : Audit :=
  let CapAdd := CapAdd hc in
  if negb (PS.truthy CapAdd) || (PS.Count CapAdd =? 0) then
    add_score full
      [(Green, "No capabilities added (principle of least privilege)")] a
  else
    let verdicts :=
      map (fun cap =>
             if Justified ServiceName cap
             then (Green, cap +:+ " : justified for " +:+ ServiceName)
             else (Yellow, cap +:+ " : not justified, needs verification"))
          (PS.items CapAdd) in
    let allJustified := forallb (Justified ServiceName) (PS.items CapAdd) in
    add_score (if allJustified then full else half)
      ((Yellow, "Added capabilities: " +:+ PS.join ", " (PS.items CapAdd))
         :: verdicts) a.

(** [3/6] Security options. *)
Definition check_SecurityOpt (hc : HostConfig) (a : Audit) : Audit :=
  let SecurityOpt := SecurityOpt hc in
  if PS.truthy SecurityOpt
     && PS.contains (PS.items SecurityOpt) "no-new-privileges:true" then
    add_score full
      [(Green, "no-new-privileges: enabled");
       (Gray, "Container cannot acquire new privileges")] a
  else
    add_score none
      [(Red, "no-new-privileges: not enabled (RISK!)");
       (Red, "A process could elevate privileges (setuid, sudo, etc.)")] a.

(** [4/6] Privileged mode. *)
Definition check_Privileged (hc : HostConfig) (a : Audit) : Audit :=
  if Privileged hc then
    add_score none
      [(Red, "Privileged mode ENABLED (CRITICAL!)");
       (Red, "Container has full kernel access (equivalent to root on host)")] a
  else
    add_score full [(Green, "Privileged mode disabled")] a.

(** [5/6] User namespace. *)
Definition check_UsernsMode (hc : HostConfig) (a : Audit) : Audit :=
  let UsernsMode := UsernsMode hc in
  if PS.ieq UsernsMode "host" then
    add_score none [(Yellow, "User namespace: host (shares host namespace)")] a
  else if PS.truthy_string UsernsMode then
    add_score full [(Green, "User namespace: " +:+ UsernsMode +:+ " (isolated)")] a
  else
    add_score half [(Gray, "User namespace: default")] a.

(** [6/6] Resource limits (the printed figures are left out). *)
Definition check_Limits (hc : HostConfig) (a : Audit) : Audit :=
  let hasMemory := 0 <? Memory hc in
  let hasCpu := (0 <? CpuQuota hc) && (0 <? CpuPeriod hc) in
  let lines :=
    [ if hasMemory then (Green, "Memory limit") else (Yellow, "No memory limit");
      if hasCpu then (Green, "CPU limit") else (Yellow, "No CPU limit") ] in
  if hasMemory || hasCpu then add_score full lines a
  else add_score none
         (List.app lines [(Yellow, "Recommendation: Add resource limits")]) a.

(** The hashtable [Test-ContainerCapabilities] returns; [maxScore] and
    [percentage] are absent when the service could not be inspected. *)
Record ServiceScore := mkServiceScore {
  service : string;
  score : float;
  maxScore : option Z;
  percentage : option float }.

Definition MaxScore : Z := 6.

(** What [docker compose ps -q $ServiceName] and [docker inspect] yield
    for a service. *)
Inductive Lookup :=
| NoContainer
| NoInspect
| Found (hc : HostConfig).

(** [function Test-ContainerCapabilities] (accents of the two error
    messages dropped). *)
Definition Test_ContainerCapabilities (ServiceName : string) (l : Lookup)
  : ServiceScore * list Line :=
  match l with
  | NoContainer =>
    (mkServiceScore ServiceName none None None,
     [(Red, "ERREUR: Service " +:+ ServiceName +:+ " non trouve")])
  | NoInspect =>
    (mkServiceScore ServiceName none None None,
     [(Red, "ERREUR: Impossible d'inspecter le conteneur")])
  | Found hc =>
    let a := mkAudit none [] in
    let a := check_CapDrop hc a in
    let a := check_CapAdd ServiceName hc a in
    let a := check_SecurityOpt hc a in
    let a := check_Privileged hc a in
    let a := check_UsernsMode hc a in
    let a := check_Limits hc a in
    let Percentage :=
      Double.Round (PrimFloat.mul (PrimFloat.div (Score a) (Double.of_Z MaxScore))
                                  (Double.of_Z 100)) 0 in
    (mkServiceScore ServiceName (Score a) (Some MaxScore) (Some Percentage), Out a)
  end.

(** The figures of the line [Score total: $TotalScore/$TotalMaxScore
    ($GlobalPercentage%)] of the global report. *)
Record Global := mkGlobal {
  TotalScore : float;
  TotalMaxScore : Z;
  GlobalPercentage : float }.

(** The service tests and the global report: the three services are
    audited in turn and the scores are summed ([$null], the [maxScore] of
    a service that could not be inspected, adds nothing). *)
Definition global_report (compose : string -> Lookup) : Global :=
  let Results :=
    map (fun ServiceName => fst (Test_ContainerCapabilities ServiceName (compose ServiceName)))
        ["api"; "frontend"; "db"] in
  let TotalScore :=
    fold_left (fun acc r => PrimFloat.add acc (score r)) Results none in
  let TotalMaxScore :=
    fold_left (fun acc r => acc + default 0 (maxScore r)) Results 0 in
  let GlobalPercentage :=
    if 0 <? TotalMaxScore
    then Double.Round (PrimFloat.mul (PrimFloat.div TotalScore (Double.of_Z TotalMaxScore))
                                     (Double.of_Z 100)) 0
    else none in
  mkGlobal TotalScore TotalMaxScore GlobalPercentage.

(** The exit status follows the global percentage. *)
Definition main (compose : string -> Lookup) : Z :=
  let GlobalPercentage := GlobalPercentage (global_report compose) in
  if Double.geb GlobalPercentage (Double.of_Z 80) then 0
  else if Double.geb GlobalPercentage (Double.of_Z 60) then 1
  else 2.

End SecurityCaps.

(* ================================================================== *)
(** ** tests/test-multistage.ps1 *)
(* ================================================================== *)

Module MultiStage.

(** *** The two regular expressions over the Dockerfile text

    [(?mi)^\s*FROM\s+] and [(?mi)^\s*FROM\s+([^\s\r\n]+)] are read from
    left to right without choice: [\s*] and [\s+] take every blank there
    is (a shorter run would leave a blank where [F], or a non-blank, is
    required), so the matcher below never backtracks. *)

(** Length of the longest run of blanks at the head of [s]. *)
Fixpoint blanks (s : string) : nat :=
  match s with
  | EmptyString => O
  | String c s' => if PS.is_space c then S (blanks s') else O
  end.

(** Length of the longest run of non-blanks at the head of [s]. *)
Fixpoint nonblanks (s : string) : nat :=
  match s with
  | EmptyString => O
  | String c s' => if PS.is_space c then O else S (nonblanks s')
  end.

Fixpoint drop (n : nat) (s : string) : string :=
  match n, s with
  | S n', String _ s' => drop n' s'
  | _, _ => s
  end.

Fixpoint take (n : nat) (s : string) : string :=
  match n, s with
  | S n', String c s' => String c (take n' s')
  | _, _ => EmptyString
  end.

(** [\s*KEYWORD\s+] at the head of [s], for a keyword of letters read
    without case: the length of the match. *)
Definition match_keyword (keyword : string) (s : string) : option nat :=
  let n1 := blanks s in
  let s1 := drop n1 s in
  if PS.istarts keyword s1 then
    let n2 := blanks (drop (String.length keyword) s1) in
    if (0 <? n2)%nat then Some (n1 + String.length keyword + n2)%nat else None
  else None.

(** [\s*FROM\s+] at the head of [s]: the length of the match. *)
Definition match_FROM (s : string) : option nat := match_keyword "FROM" s.

(** [\s*FROM\s+([^\s\r\n]+)] at the head of [s]: the length of the match
    and the text of group 1. *)
Definition match_FROM_image (s : string) : option (nat * string) :=
  match match_FROM s with
  | Some n =>
    let n3 := nonblanks (drop n s) in
    if (0 <? n3)%nat then Some ((n + n3)%nat, take n3 (drop n s)) else None
  | None => None
  end.

Definition newline : ascii := ascii_of_nat 10.

(** [[regex]::Matches($content, '(?m)^...')]: the pattern is tried at
    each position from left to right, [^] lets it start only at the
    beginning of the text or after a line feed, and after a match the
    search goes on from the end of the match.  [skip] counts the
    characters of the last match still to pass and [bol] tells whether
    the previous character was a line feed.  Both patterns need five
    characters at least, so nothing matches at the end of the text. *)
Fixpoint Matches {A} (pattern : string -> option (nat * A))
  (skip : nat) (bol : bool) (s : string) : list A :=
  match s with
  | EmptyString => []
  | String c s' =>
    let bol' := Ascii.eqb c newline in
    match skip with
    | S k => Matches pattern k bol' s'
    | O =>
      if bol then
        match pattern s with
        | Some (len, a) => a :: Matches pattern (len - 1) bol' s'
        | None => Matches pattern O bol' s'
        end
      else Matches pattern O bol' s'
    end
  end.

(** [[regex]::Matches($content, '(?mi)^\s*KEYWORD\s+').Count] *)
Definition count_keyword (keyword : string) (content : string) : Z :=
  Z.of_nat (length (Matches (fun s => option_map (fun n => (n, tt)) (match_keyword keyword s))
                            O true content)).

(** [[regex]::Matches($content, '(?mi)^\s*FROM\s+').Count] *)
Definition stageCount_of (content : string) : Z := count_keyword "FROM" content.

(** Group 1 of each match of [(?mi)^\s*FROM\s+([^\s\r\n]+)], in order. *)
Definition fromStatements_of (content : string) : list string :=
  Matches match_FROM_image O true content.

(** *** The Dockerfile checks *)

(** What the file system reports of a Dockerfile path: [Split-Path
    -Leaf], [Split-Path (Split-Path -Parent) -Leaf] (which raises when the
    path has no parent part), [Test-Path] and [Get-Content -Raw] (the
    empty text when the file is empty). *)
Record Dockerfile := mkDockerfile {
  Leaf : string;
  parentFolder : option string;
  present : bool;
  content : string }.

(** The folder names for which a single stage is accepted:
    ['(db|database|postgres|mysql|mongo|redis)']. *)
Definition databaseLike : list string :=
  ["db"; "database"; "postgres"; "mysql"; "mongo"; "redis"].

(** [function Test-MultiStageDetection] *)
Definition Test_MultiStageDetection (d : Dockerfile) : Runner bool :=
  if negb (present d) then
    Add_TestResult ("Multi-stage: " +:+ Leaf d) false "File not found"
  else
    let stageCount := stageCount_of (content d) in
    let isMultiStage := 2 <=? stageCount in
    match parentFolder d with
    | None =>
      Add_TestResult ("Multi-stage: " +:+ Leaf d) false
        "Parse error: Cannot bind argument to parameter 'Path' because it is an empty string."
    | Some parentFolder =>
      let multiStageOptional := PS.imatch_any parentFolder databaseLike in
      let passed := isMultiStage || multiStageOptional in
      let reason :=
        if negb isMultiStage && multiStageOptional
        then "Single-stage (optional for " +:+ parentFolder +:+ " - database image)"
        else if negb isMultiStage
        then "Only " +:+ PS.show stageCount +:+ " stage(s) found"
        else "" in
      Add_TestResult ("Multi-stage: " +:+ Leaf d) passed reason
    end.

(** [function Test-AlpineBaseImage] *)
Definition Test_AlpineBaseImage (d : Dockerfile) : Runner bool :=
  if negb (present d) then
    Add_TestResult ("Alpine image: " +:+ Leaf d) false "File not found"
  else
    let fromStatements := fromStatements_of (content d) in
    match last fromStatements with
    | None =>
      Add_TestResult ("Alpine image: " +:+ Leaf d) false "No FROM statement found"
    | Some finalFrom =>
      let isAlpine := PS.imatch finalFrom "alpine" in
      Add_TestResult ("Alpine image: " +:+ Leaf d) isAlpine
        (if negb isAlpine then "Base: " +:+ finalFrom +:+ " (not Alpine)" else "")
    end.

(** *** The image checks *)

(** [docker inspect $Image | ConvertFrom-Json] reduced to [.Size], and
    [docker history $Image --format "{{.CreatedBy}}"]. *)
Inductive Inspect :=
| InspectThrew
| InspectNothing
| Inspected (Size : Z).

Inductive History :=
| HistoryThrew
| HistoryOut (lines : PS.strings).

Record Image := mkImage { inspect : Inspect; history : History }.

(** [1MB] *)
Definition MB : Z := 1048576.

(** [function Test-ImageSize] *)
Definition Test_ImageSize (Image : string) (i : MultiStage.Image) : Runner bool :=
  match inspect i with
  | InspectThrew =>
    Add_TestResult ("Image size: " +:+ Image) false "Inspection failed"
  | InspectNothing =>
    Add_TestResult ("Image size: " +:+ Image) false "Image not found"
  | Inspected sizeBytes =>
    let sizeMB :=
      Double.Round (PrimFloat.div (Double.of_Z sizeBytes) (Double.of_Z MB)) 2 in
    let isOptimal := PrimFloat.leb sizeMB (Double.of_Z 500) in
    Add_TestResult ("Image size: " +:+ Image) isOptimal
      (if negb isOptimal
       then Double.show_hundredths sizeMB +:+ " MB (exceeds 500 MB)"
       else "")
  end.

(** The image names that get the higher layer ceiling. *)
Definition officialBases : list string :=
  ["postgres"; "mysql"; "mongo"; "redis"; "nginx"; "node"; "alpine"; "mariadb";
   "phpmyadmin"; "apache"; "td_docker_2025-db"; "td_docker_2025-frontend"].

(** [function Test-LayerCount] *)
Definition Test_LayerCount (Image : string) (i : MultiStage.Image) : Runner bool :=
  match history i with
  | HistoryThrew =>
    Add_TestResult ("Layer count: " +:+ Image) false "History retrieval failed"
  | HistoryOut history =>
    if negb (PS.truthy history) then
      Add_TestResult ("Layer count: " +:+ Image) false "Cannot retrieve history"
    else
      let layerCount := PS.Count history in
      let threshold := if PS.imatch_any Image officialBases then 30 else 20 in
      let isOptimal := layerCount <=? threshold in
      Add_TestResult ("Layer count: " +:+ Image) isOptimal
        (if negb isOptimal
         then PS.show layerCount +:+ " layers (exceeds " +:+ PS.show threshold +:+ ")"
         else "")
  end.

(** *** Main execution *)

(** What one invocation sees: its [-Dockerfiles] and [-Images]
    arguments, the paths [Get-ChildItem -Recurse -Filter Dockerfile]
    finds, the names [docker images] prints, and the facts behind each
    path and image name. *)
Record World := mkWorld {
  Dockerfiles : PS.strings;
  Images : PS.strings;
  found : PS.strings;
  allImages : PS.strings;
  file : string -> Dockerfile;
  image : string -> MultiStage.Image }.

(** [function Get-DockerfileList]; [$found.FullName] of no file is
    [$null]. *)
Definition Get_DockerfileList (w : World) : PS.strings :=
  if PS.truthy (Dockerfiles w) then Dockerfiles w
  else match found w with
       | None | Some [] => None
       | Some l => Some l
       end.

(** [^nginx:.*-alpine] *)
Definition is_nginx_alpine (s : string) : bool :=
  PS.istarts "nginx:" s && PS.imatch (drop 6 s) "-alpine".

(** [function Get-ImageList] *)
Definition Get_ImageList (w : World) : PS.strings :=
  if PS.truthy (Images w) then Images w
  else
    let allImages :=
      List.filter (fun i => negb (PS.istarts "<none>:" i)) (PS.items (allImages w)) in
    let projectImages :=
      List.filter (fun i => PS.imatch i "td_docker_2025"
                       || PS.imatch i "lenderdiam/td_docker_2025"
                       || PS.istarts "node:22-alpine" i
                       || PS.istarts "postgres:15-alpine" i
                       || is_nginx_alpine i) allImages in
    if PS.truthy (Some projectImages) then Some projectImages
    else match List.filter (fun i => PS.imatch i "td_docker_2025") allImages with
         | [] => None
         | l => Some l
         end.

Definition steps (w : World) (dockerfileList imageList : PS.strings)
  : Runner unit :=
  _ <- foreach (PS.items dockerfileList) (fun dockerfile =>
         Out_Null (Test_MultiStageDetection (file w dockerfile))) ;;
  _ <- foreach (PS.items dockerfileList) (fun dockerfile =>
         Out_Null (Test_AlpineBaseImage (file w dockerfile))) ;;
  _ <- (if PS.truthy imageList && (0 <? PS.Count imageList)
        then foreach (PS.items imageList) (fun image_ =>
               Out_Null (Test_ImageSize image_ (image w image_)))
        else ret tt) ;;
  if PS.truthy imageList && (0 <? PS.Count imageList)
  then foreach (PS.items imageList) (fun image_ =>
         Out_Null (Test_LayerCount image_ (image w image_)))
  else ret tt.

Definition main (w : World) : Exit :=
  let dockerfileList := Get_DockerfileList w in
  let imageList := Get_ImageList w in
  if negb (PS.truthy dockerfileList) || (PS.Count dockerfileList =? 0)
  then hard_failure
  else final_report (snd (steps w dockerfileList imageList
                                (TestResults.init "MULTI-STAGE BUILD"))).

End MultiStage.

(* ================================================================== *)
(** ** tests/test-environment.ps1 *)
(* ================================================================== *)

Module Environment.

(** [docker inspect $Container | ConvertFrom-Json] reduced to
    [.Config.Env]. *)
Inductive Inspect :=
| InspectThrew
| InspectNothing
| Inspected (Env : PS.strings).

(** The environment file: its path (the [-EnvFile] argument, or [.env]
    beside the [tests] folder), what [Test-Path] says of it, and the lines
    of its text that the scan of [Test-EnvFileSecrets] flags (a key named
    like a secret whose value looks like a production secret), trimmed. *)
Record EnvFile := mkEnvFile {
  env_path : string;
  env_present : bool;
  hardcoded : list string }.

(** What one invocation sees: its [-Dockerfiles] and [-Containers]
    arguments, the Dockerfiles found, the output of [docker ps], the facts
    behind each Dockerfile path, the matches of [$Script:SecretPatterns]
    in the text of each, the environment file and the inspection of each
    container. *)
Record World := mkWorld {
  Dockerfiles : PS.strings;
  Containers : PS.strings;
  found : PS.strings;
  running : PS.strings;
  file : string -> MultiStage.Dockerfile;
  secrets : string -> list string;
  envFile : EnvFile;
  container : string -> Inspect }.

(** [function Test-DockerfileSecrets] *)
Definition Test_DockerfileSecrets (d : MultiStage.Dockerfile)
  (secretsFound : list string) : Runner bool :=
  if negb (MultiStage.present d) then
    Add_TestResult ("No secrets in Dockerfile: " +:+ MultiStage.Leaf d) false
                   "File not found"
  else
    let noSecrets := Z.of_nat (length secretsFound) =? 0 in
    Add_TestResult ("No secrets in Dockerfile: " +:+ MultiStage.Leaf d) noSecrets
      (if negb noSecrets
       then PS.show (Z.of_nat (length secretsFound)) +:+ " secret(s) detected"
       else "").

(** [function Test-EnvFileExists] *)
Definition Test_EnvFileExists (e : EnvFile) : Runner bool :=
  Add_TestResult "Environment file exists" (env_present e)
    (if negb (env_present e) then "File not found: " +:+ env_path e else "").

(** [function Test-EnvFileSecrets] *)
Definition Test_EnvFileSecrets (e : EnvFile) : Runner bool :=
  if negb (env_present e) then
    Add_TestResult "Environment file security" false "File not found"
  else
    let secure := Z.of_nat (length (hardcoded e)) =? 0 in
    Add_TestResult "Environment file security" secure
      (if negb secure
       then PS.show (Z.of_nat (length (hardcoded e))) +:+ " hardcoded value(s)"
       else "").

(** [function Test-ContainerEnvironment] *)
Definition Test_ContainerEnvironment (Container : string) (i : Inspect)
  : Runner bool :=
  match i with
  | InspectThrew =>
    Add_TestResult ("Environment variables: " +:+ Container) false "Inspection failed"
  | InspectNothing =>
    Add_TestResult ("Environment variables: " +:+ Container) false "Container not found"
  | Inspected envVars =>
    let envCount := if PS.truthy envVars then PS.Count envVars else 0 in
    let hasEnv := 0 <? envCount in
    Add_TestResult ("Environment variables: " +:+ Container) hasEnv
      (if negb hasEnv then "No environment variables" else "")
  end.

(** The folder names for which no [ENV] or [ARG] is required:
    ['(db|database|frontend|nginx)']. *)
Definition envOptionalFolders : list string := ["db"; "database"; "frontend"; "nginx"].

(** [function Test-DockerfileEnvUsage] *)
Definition Test_DockerfileEnvUsage (d : MultiStage.Dockerfile) : Runner bool :=
  if negb (MultiStage.present d) then
    Add_TestResult ("ENV usage: " +:+ MultiStage.Leaf d) false "File not found"
  else
    match MultiStage.parentFolder d with
    | None => Add_TestResult ("ENV usage: " +:+ MultiStage.Leaf d) false "Parse error"
    | Some parentFolder =>
      let envCount := MultiStage.count_keyword "ENV" (MultiStage.content d) in
      let argCount := MultiStage.count_keyword "ARG" (MultiStage.content d) in
      let usesEnv := 0 <? envCount + argCount in
      let envOptional := PS.imatch_any parentFolder envOptionalFolders in
      let passed := usesEnv || envOptional in
      let reason :=
        if negb usesEnv && envOptional
        then "No ENV/ARG (optional for " +:+ parentFolder +:+ " - uses docker-compose env)"
        else if negb usesEnv then "No ENV/ARG statements"
        else "" in
      Add_TestResult ("ENV usage: " +:+ MultiStage.Leaf d) passed reason
    end.

(** [function Get-DockerfileList] *)
Definition Get_DockerfileList (w : World) : PS.strings :=
  if PS.truthy (Dockerfiles w) then Dockerfiles w
  else match found w with
       | None | Some [] => None
       | Some l => Some l
       end.

(** [function Get-ContainerList]: here the output of [docker ps] is
    returned as it is. *)
Definition Get_ContainerList (w : World) : PS.strings :=
  if PS.truthy (Containers w) then Containers w
  else match running w with
       | None | Some [] => None
       | Some l => Some l
       end.

Definition steps (w : World) (dockerfileList containerList : PS.strings)
  : Runner unit :=
  _ <- foreach (PS.items dockerfileList) (fun dockerfile =>
         Out_Null (Test_DockerfileSecrets (file w dockerfile) (secrets w dockerfile))) ;;
  _ <- Out_Null (Test_EnvFileExists (envFile w)) ;;
  _ <- (if env_present (envFile w)
        then Out_Null (Test_EnvFileSecrets (envFile w))
        else ret tt) ;;
  _ <- foreach (PS.items dockerfileList) (fun dockerfile =>
         Out_Null (Test_DockerfileEnvUsage (file w dockerfile))) ;;
  if PS.truthy containerList && (0 <? PS.Count containerList)
  then foreach (PS.items containerList) (fun container_ =>
         Out_Null (Test_ContainerEnvironment container_ (container w container_)))
  else ret tt.

(** The main execution: there is no guard on the lists; the steps run
    over whatever was resolved and the final report follows. *)
Definition main (w : World) : Exit :=
  final_report (snd (steps w (Get_DockerfileList w) (Get_ContainerList w)
                           (TestResults.init "ENVIRONMENT CONFIGURATION"))).

End Environment.

(* ================================================================== *)
(** ** tests/test-orchestration.ps1 *)
(* ================================================================== *)

Module Orchestration.

(** What the searches of the checks find in the text of the compose
    file: a top-level [networks:] and [volumes:] line, the number of
    [healthcheck:] and [depends_on:] keys, the number of keys in the
    [services:] section (if the section is found) and the policies of the
    [restart:] keys. *)
Record ComposeFile := mkComposeFile {
  hasNetworks : bool;
  hasVolumes : bool;
  healthCheckCount : Z;
  dependsOnCount : Z;
  serviceCount : option Z;
  restartPolicies : list string }.

(** What one invocation sees: whether [-ComposeFile] was given and is
    there, whether the default [docker-compose.yml] is there, and the
    compose file that was resolved. *)
Record World := mkWorld {
  ComposeFile_given : bool;
  default_present : bool;
  compose : ComposeFile }.

(** [function Get-ComposeFilePath]: does it return a path? *)
Definition Get_ComposeFilePath (w : World) : bool :=
  ComposeFile_given w || default_present w.

(** [function Test-ComposeFileExists], on a path that was just found. *)
Definition Test_ComposeFileExists : Runner bool :=
  Add_TestResult "Compose file exists" true "".

(** [function Test-ServiceCount] *)
Definition Test_ServiceCount (f : ComposeFile) : Runner bool :=
  match serviceCount f with
  | Some serviceCount =>
    let hasServices := 0 <? serviceCount in
    Add_TestResult "Services defined" hasServices
      (if negb hasServices then "No services found" else "")
  | None => Add_TestResult "Services defined" false "Cannot parse services section"
  end.

(** [$validPolicies] *)
Definition validPolicies : list string := ["always"; "unless-stopped"; "on-failure"; "no"].

(** [function Test-RestartPolicies] *)
Definition Test_RestartPolicies (f : ComposeFile) : Runner bool :=
  let restartCount := Z.of_nat (length (restartPolicies f)) in
  let invalidCount :=
    Z.of_nat (length (List.filter (fun policy => PS.notcontains validPolicies policy)
                                  (restartPolicies f))) in
  let hasRestartPolicies := 0 <? restartCount in
  let passed := hasRestartPolicies || (restartCount =? 0) in
  if negb hasRestartPolicies then
    Add_TestResult "Restart policies" passed
      "No restart policies (optional for dev, recommended for production)"
  else if 0 <? invalidCount then
    Add_TestResult "Restart policies" false (PS.show invalidCount +:+ " invalid policies")
  else Add_TestResult "Restart policies" passed "".

(** [function Test-NetworksDefined] *)
Definition Test_NetworksDefined (f : ComposeFile) : Runner bool :=
  Add_TestResult "Networks defined" (hasNetworks f)
    (if negb (hasNetworks f) then "No networks section" else "").

(** [function Test-VolumesDefined] *)
Definition Test_VolumesDefined (f : ComposeFile) : Runner bool :=
  Add_TestResult "Volumes defined" (hasVolumes f)
    (if negb (hasVolumes f) then "No volumes section" else "").

(** [function Test-HealthChecks] *)
Definition Test_HealthChecks (f : ComposeFile) : Runner bool :=
  let hasHealthChecks := 0 <? healthCheckCount f in
  Add_TestResult "Health checks defined" hasHealthChecks
    (if negb hasHealthChecks then "No health checks found" else "").

(** [function Test-DependsOn] *)
Definition Test_DependsOn (f : ComposeFile) : Runner bool :=
  let hasDependsOn := 0 <? dependsOnCount f in
  Add_TestResult "Service dependencies defined" hasDependsOn
    (if negb hasDependsOn then "No depends_on found" else "").

Definition steps (f : ComposeFile) : Runner unit :=
  _ <- Out_Null Test_ComposeFileExists ;;
  _ <- Out_Null (Test_ServiceCount f) ;;
  _ <- Out_Null (Test_RestartPolicies f) ;;
  _ <- Out_Null (Test_NetworksDefined f) ;;
  _ <- Out_Null (Test_VolumesDefined f) ;;
  _ <- Out_Null (Test_HealthChecks f) ;;
  Out_Null (Test_DependsOn f).

(** The main execution: no compose file, no run. *)
Definition main (w : World) : Exit :=
  if negb (Get_ComposeFilePath w) then hard_failure
  else final_report (snd (steps (compose w) (TestResults.init "ORCHESTRATION"))).

End Orchestration.

(* ================================================================== *)
(** ** run-all-tests.ps1 *)
(* ================================================================== *)

Module Suite.

Record TestFile := mkTestFile { Name : string; File : string; Path : string }.

(** [$Script:TestFiles]: the test files to execute, in order. *)
Definition TestFiles : list TestFile :=
  [ mkTestFile "Non-Root Users" "test-nonroot-users.ps1" "tests";
    mkTestFile "Security Capabilities" "test-security-caps.ps1" "tests";
    mkTestFile "Security Audit" "test-security.ps1" "tests";
    mkTestFile "Security Scan (Trivy)" "test-security-scan.ps1" "tests";
    mkTestFile "API Functional Tests" "test-api.ps1" "tests";
    mkTestFile "Environment Configuration" "test-environment.ps1" "tests";
    mkTestFile "Multi-Stage Builds" "test-multistage.ps1" "tests";
    mkTestFile "Docker Compose Orchestration" "test-orchestration.ps1" "tests" ].

(** What happens when the aggregator turns to a test file: [Test-Path]
    fails, or [& $testFile] ends with [$LASTEXITCODE], or it raises. *)
Inductive Run :=
| FileMissing
| Exited (exitCode : Z)
| Threw (message : string).

(** The hashtable appended to [$Script:TestSuite.Results]. *)
Record Result := mkResult {
  rName : string;
  Passed : bool;
  Status : string;
  ExitCode : Z }.

(** [.Count] of one such hashtable: its four keys. *)
Definition Hashtable_Count (r : Result) : Z := 4.

(** The [foreach ($testConfig in $Script:TestFiles)] loop, with its
    [continue] (file not found) and its two [break]s (a failure or an
    error under [-StopOnFailure]). *)
Fixpoint run_tests (StopOnFailure : bool) (world : TestFile -> Run)
  (files : list TestFile) (Results : list Result) : list Result :=
  match files with
  | [] => Results
  | testConfig :: rest =>
    match world testConfig with
    | FileMissing =>
      run_tests StopOnFailure world rest
        (Results ++ [mkResult (Name testConfig) false "FILE NOT FOUND" (-1)])%list
    | Exited exitCode =>
      if exitCode =? 0 then
        run_tests StopOnFailure world rest
          (Results ++ [mkResult (Name testConfig) true "PASSED" exitCode])%list
      else
        let Results :=
          (Results ++ [mkResult (Name testConfig) false
                         ("FAILED (Exit: " +:+ PS.show exitCode +:+ ")") exitCode])%list in
        if StopOnFailure then Results
        else run_tests StopOnFailure world rest Results
    | Threw _ =>
      let Results :=
        (Results ++ [mkResult (Name testConfig) false "ERROR" (-1)])%list in
      if StopOnFailure then Results
      else run_tests StopOnFailure world rest Results
    end
  end.

(** [$passedTests = ($Script:TestSuite.Results |
                    Where-Object { $_.Passed }).Count] *)
Definition passedTests_of (Results : list Result) : Z :=
  PS.pipeline_Count Hashtable_Count (List.filter (fun r => Passed r) Results).

(** The global score [Write-TestSummary] prints. *)
Definition percentage_of (Results : list Result) : float :=
  let totalTests := Z.of_nat (length Results) in
  let passedTests := passedTests_of Results in
  if passedTests =? totalTests then Double.of_Z 100
  else Double.Round (Double.ratio100 passedTests totalTests) 1.

(** [$failedCount = ($Script:TestSuite.Results |
                    Where-Object { -not $_.Passed }).Count] and the exit. *)
Definition exit_of (Results : list Result) : Z :=
  let failedCount :=
    PS.pipeline_Count Hashtable_Count (List.filter (fun r => negb (Passed r)) Results) in
  if failedCount =? 0 then 0 else 1.

(** One invocation: the results recorded, the global score printed and
    the exit status. *)
Record Summary := mkSummary {
  Results : list Result;
  percentage : float;
  exit_code : Z }.

Definition main (StopOnFailure : bool) (world : TestFile -> Run) : Summary :=
  let Results := run_tests StopOnFailure world TestFiles [] in
  mkSummary Results (percentage_of Results) (exit_of Results).

End Suite.

(* ================================================================== *)
(** ** api/src: the readiness endpoint *)
(* ================================================================== *)

Module Api.

(** An [async] function either fulfils with a value or rejects with an
    error, and may have written to the logger on the way. *)
Inductive Settled (A : Type) :=
| Fulfilled (a : A)
| Rejected (error : string).
Arguments Fulfilled {A} a.
Arguments Rejected {A} error.

Definition Async (A : Type) : Type := list string -> Settled A * list string.

Definition resolve {A} (a : A) : Async A := fun log => (Fulfilled a, log).

(** [await m; k] *)
Definition await {A B} (m : Async A) (k : A -> Async B) : Async B :=
  fun log =>
    match m log with
    | (Fulfilled a, log') => k a log'
    | (Rejected e, log') => (Rejected e, log')
    end.

(** [try { m } catch (error) { handler }] *)
Definition try_catch {A} (m : Async A) (handler : string -> Async A) : Async A :=
  fun log =>
    match m log with
    | (Fulfilled a, log') => (Fulfilled a, log')
    | (Rejected e, log') => handler e log'
    end.

Definition logger_error (line : string) : Async unit :=
  fun log => (Fulfilled tt, (log ++ [line])%list).

Inductive JsValue :=
| JBool (b : bool)
| JString (s : string).

(** The database pool and the clock, as one request sees them:
    [pool.query('SELECT 1')] settles one way or the other, and
    [new Date().toISOString()] yields a text. *)
Record World := mkWorld { query : Settled unit; now : string }.

(** [ItemRepository.healthCheck] *)
Definition healthCheck (w : World) : Async bool :=
  try_catch
    (await (fun log => (query w, log)) (fun _ => resolve true))
    (fun error =>
       await (logger_error ("Database health check failed: " +:+ error))
             (fun _ => resolve false)).

(** [ItemService.checkDatabaseHealth] *)
Definition checkDatabaseHealth (w : World) : Async (gmap string JsValue) :=
  await (healthCheck w) (fun isHealthy =>
    resolve ({[ "database" := JString (if isHealthy then "healthy" else "unhealthy");
                "timestamp" := JString (now w) ]} : gmap string JsValue)).

(** [a === 'text'] *)
Definition strict_eq_string (v : option JsValue) (text : string) : bool :=
  match v with
  | Some (JString s) => String.eqb s text
  | _ => false
  end.

(** What the handler did with the request: it sent a response, or it
    passed an error to [next]. *)
Inductive Handled :=
| Sent (status : Z) (body : gmap string JsValue)
| Next (error : string).

(** [HealthController.ready]: [{ ready: isReady, ...health }] is the
    object [health] with the key [ready] added (the spread comes last,
    so a key of [health] would win over [ready]). *)
Definition ready (w : World) : Handled * list string :=
  let handler : Async Handled :=
    try_catch
      (await (checkDatabaseHealth w) (fun health =>
         let isReady := strict_eq_string (health !! "database") "healthy" in
         resolve (Sent (if isReady then 200 else 503)
                       (health ∪ {[ "ready" := JBool isReady ]}))))
      (fun error => resolve (Next error)) in
  match handler [] with
  | (Fulfilled h, log) => (h, log)
  | (Rejected e, log) => (Next e, log)
  end.

End Api.

(* ================================================================== *)
(** ** The step summary shared by the category runners *)
(* ================================================================== *)

(** [function Show-StepResult], the same in [test-security.ps1],
    [test-multistage.ps1], [test-environment.ps1], [test-orchestration.ps1]
    and [test-api.ps1]: after each step of a runner it prints the share of
    the step's checks that passed and lists the failures.  It reads the
    accumulator and leaves it as it is. *)

Module StepReport.

(** [.Count] of one result hashtable: its five keys [Test], [Status],
    [Passed], [Reason] and [Details]. *)
Definition Hashtable_Count (r : Result.t) : Z := 5.

(** [$list | Select-Object -Last $n] *)
Definition Select_Last {A} (n : nat) (l : list A) : list A :=
  skipn (length l - n) l.

(** What the function prints: the line [$percentage% ($stepPassed/$stepTotal)]
    with its colour, then the failures. *)
Record Printed := mkPrinted {
  color : SecurityCaps.Color;
  percentage : float;
  stepPassed : Z;
  stepTotal : Z;
  failures : list Result.t }.

(** [Show-StepResult -StartCount $StartCount]; nothing is printed for a
    step without checks. *)
Definition Show_StepResult (StartCount : Z) (st : TestResults.t) : option Printed :=
  let currentCount := Steps_Count st in
  let stepTotal := currentCount - StartCount in
  if stepTotal =? 0 then None
  else
    let stepTests := Select_Last (Z.to_nat stepTotal) (TestResults.Steps st) in
    let stepPassed :=
      PS.pipeline_Count Hashtable_Count (List.filter (fun r => Result.Passed r) stepTests) in
    let percentage := Double.Round (Double.ratio100 stepPassed stepTotal) 1 in
    let color :=
      if PrimFloat.eqb percentage (Double.of_Z 100) then SecurityCaps.Green
      else if Double.geb percentage (Double.of_Z 70) then SecurityCaps.Yellow
      else SecurityCaps.Red in
    let failures := List.filter (fun r => negb (Result.Passed r)) stepTests in
    Some (mkPrinted color percentage stepPassed stepTotal failures).

(** One step of a runner: [$stepStart = $Script:TestResults.Steps.Count],
    the checks of the step, then [Show-StepResult -StartCount $stepStart]. *)
Definition step (checks : Runner unit) : Runner (option Printed) :=
  fun st =>
    let stepStart := Steps_Count st in
    let st' := snd (checks st) in
    (Show_StepResult stepStart st', st').

End StepReport.

(* ================================================================== *)
(** ** tests/test-environment.ps1: the scans for secrets *)
(* ================================================================== *)

Module SecretScan.

(** The two quotes, single and double. *)
Definition is_quote (c : ascii) : bool :=
  Ascii.eqb c (ascii_of_nat 39) || Ascii.eqb c (ascii_of_nat 34).

(** Length of the longest run of characters other than quotes at the
    head of [s]. *)
Fixpoint nonquotes (s : string) : nat :=
  match s with
  | EmptyString => O
  | String c s' => if is_quote c then O else S (nonquotes s')
  end.

(** [word] at the head of [s], letters read without case: the length of
    the match. *)
Definition match_word (word : string) (s : string) : option nat :=
  if PS.istarts word s then Some (String.length word) else None.

(** [a[_-]?b] at the head of [s]: the separator is taken when it is
    there and [b] follows it, and left out otherwise. *)
Definition match_compound (a b : string) (s : string) : option nat :=
  if PS.istarts a s then
    let s1 := MultiStage.drop (String.length a) s in
    let separated :=
      match s1 with
      | String c s2 =>
        (Ascii.eqb c "_"%char || Ascii.eqb c "-"%char) && PS.istarts b s2
      | EmptyString => false
      end in
    if separated then Some (String.length a + 1 + String.length b)%nat
    else if PS.istarts b s1 then Some (String.length a + String.length b)%nat
    else None
  else None.

(** The tail of each pattern at the head of [s]: blanks, [=], blanks, a
    quote, one or more characters other than quotes, a quote; the length
    of the match.  The blanks are all taken ([=], then a quote, must
    follow them), and the value runs up to the next quote, which must be
    there. *)
Definition match_quoted_value (s : string) : option nat :=
  let n1 := MultiStage.blanks s in
  match MultiStage.drop n1 s with
  | String c s2 =>
    if Ascii.eqb c "="%char then
      let n2 := MultiStage.blanks s2 in
      match MultiStage.drop n2 s2 with
      | String q s3 =>
        if is_quote q then
          let n3 := nonquotes s3 in
          if (0 <? n3)%nat then
            match MultiStage.drop n3 s3 with
            | String _ _ => Some (n1 + 1 + n2 + 1 + n3 + 1)%nat
            | EmptyString => None
            end
          else None
        else None
      | EmptyString => None
      end
    else None
  | EmptyString => None
  end.

(** One of [$Script:SecretPatterns] at the head of [s]: the length of
    the match and its text ([$match.Groups[0].Value]). *)
Definition secret_pattern (key : string -> option nat) (s : string)
  : option (nat * string) :=
  match key s with
  | Some n =>
    match match_quoted_value (MultiStage.drop n s) with
    | Some m => Some ((n + m)%nat, MultiStage.take (n + m) s)
    | None => None
    end
  | None => None
  end.

(** [$Script:SecretPatterns]:
    [password], [secret], [api[_-]?key], [token] and [private[_-]?key],
    each followed by the quoted assignment. *)
Definition SecretPatterns : list (string -> option (nat * string)) :=
  [ secret_pattern (match_word "password");
    secret_pattern (match_word "secret");
    secret_pattern (match_compound "api" "key");
    secret_pattern (match_word "token");
    secret_pattern (match_compound "private" "key") ].

(** [[regex]::Matches($content, $pattern, 'IgnoreCase')]: the pattern is
    tried at each position from left to right, and after a match the
    search goes on from the end of the match.  [skip] counts the
    characters of the last match still to pass. *)
Fixpoint Matches {A} (pattern : string -> option (nat * A))
  (skip : nat) (s : string) : list A :=
  match s with
  | EmptyString => []
  | String _ s' =>
    match skip with
    | S k => Matches pattern k s'
    | O =>
      match pattern s with
      | Some (len, a) => a :: Matches pattern (len - 1) s'
      | None => Matches pattern O s'
      end
    end
  end.

(** [$secretsFound] of [Test-DockerfileSecrets]: the matches of each
    pattern in turn. *)
Definition secretsFound_of (content : string) : list string :=
  concat (map (fun pattern => Matches pattern O content) SecretPatterns).

(** *** The environment file *)

(** [$content -split] at each line feed: the lines of the text (a
    carriage return before the line feed stays at the end of its line). *)
Fixpoint split_lines (s : string) : list string :=
  match s with
  | EmptyString => [EmptyString]
  | String c s' =>
    if Ascii.eqb c MultiStage.newline then EmptyString :: split_lines s'
    else match split_lines s' with
         | [] => [String c EmptyString]
         | line :: lines => String c line :: lines
         end
  end.

(** [$line -match '^\s*#'] and [$line -match '^\s*$'] *)
Definition comment_line (line : string) : bool :=
  match MultiStage.drop (MultiStage.blanks line) line with
  | String c _ => Ascii.eqb c "#"%char
  | EmptyString => false
  end.

Definition blank_line (line : string) : bool :=
  match MultiStage.drop (MultiStage.blanks line) line with
  | EmptyString => true
  | String _ _ => false
  end.

(** Length of the longest run of characters that are neither blanks nor
    quotes at the head of [s]. *)
Fixpoint value_chars (s : string) : nat :=
  match s with
  | EmptyString => O
  | String c s' => if PS.is_space c || is_quote c then O else S (value_chars s')
  end.

(** What follows the key word in the pattern of [Test-EnvFileSecrets],
    at the head of [s]: blanks, [=], blanks, a quote or none, then the
    value, one or more characters that are neither blanks nor quotes
    (group 2), whatever comes next.  The value is as long as it can be. *)
Definition match_value (s : string) : option string :=
  match MultiStage.drop (MultiStage.blanks s) s with
  | String c s2 =>
    if Ascii.eqb c "="%char then
      let s3 := MultiStage.drop (MultiStage.blanks s2) s2 in
      let s4 := match s3 with
                | String q r => if is_quote q then r else s3
                | EmptyString => s3
                end in
      let n := value_chars s4 in
      if (0 <? n)%nat then Some (MultiStage.take n s4) else None
    else None
  | EmptyString => None
  end.

(** [(password|secret|key|token)] followed by the value, at the head of
    [s]: the alternatives are tried in order. *)
Definition match_assignment (s : string) : option string :=
  let try word :=
    if PS.istarts word s then match_value (MultiStage.drop (String.length word) s)
    else None in
  match try "password", try "secret", try "key", try "token" with
  | Some v, _, _, _ => Some v
  | None, Some v, _, _ => Some v
  | None, None, Some v, _ => Some v
  | None, None, None, r => r
  end.

(** [$matches[2]] after [$line -match ...]: the pattern is tried at each
    position of the line from left to right, and the first match is
    kept. *)
Fixpoint value_of (line : string) : option string :=
  match match_assignment line with
  | Some v => Some v
  | None =>
    match line with
    | EmptyString => None
    | String _ line' => value_of line'
    end
  end.

Definition is_alnum (c : ascii) : bool :=
  let n := nat_of_ascii c in
  ((48 <=? n)%nat && (n <=? 57)%nat)
  || ((65 <=? n)%nat && (n <=? 90)%nat)
  || ((97 <=? n)%nat && (n <=? 122)%nat).

(** [[A-Za-z0-9+/]] *)
Definition is_base64 (c : ascii) : bool :=
  is_alnum c || Ascii.eqb c "+"%char || Ascii.eqb c "/"%char.

Fixpoint all_of (f : ascii -> bool) (s : string) : bool :=
  match s with
  | EmptyString => true
  | String c s' => f c && all_of f s'
  end.

Fixpoint run_of (f : ascii -> bool) (s : string) : nat :=
  match s with
  | EmptyString => O
  | String c s' => if f c then S (run_of f s') else O
  end.

(** The value looks like a production secret: it matches
    [^[A-Za-z0-9+/]{32,}$] or [^sk-[A-Za-z0-9]{20,}] (the value holds no
    blank, so [$] is its end). *)
Definition looks_like_production (value : string) : bool :=
  (all_of is_base64 value && (32 <=? String.length value)%nat)
  || (PS.istarts "sk-" value && (20 <=? run_of is_alnum (MultiStage.drop 3 value))%nat).

(** Is the line added to [$hardcodedSecrets]? *)
Definition hardcoded_line (line : string) : bool :=
  if comment_line line then false
  else if blank_line line then false
  else match value_of line with
       | Some value => looks_like_production value
       | None => false
       end.

(** [$hardcodedSecrets] of [Test-EnvFileSecrets]. *)
Definition hardcodedSecrets_of (content : string) : list string :=
  map Security.Trim (List.filter hardcoded_line (split_lines content)).

End SecretScan.

(* ================================================================== *)
(** ** api/src: the item routes, the errors and the error handler *)
(* ================================================================== *)

(** [utils/errors.js], [utils/logger.js], [models/item.model.js],
    [repositories/item.repository.js], [services/item.service.js],
    [controllers/item.controller.js] and [middlewares/error.middleware.js].
    The request logger that runs before the routes only writes to the
    log and is left out; so are the stack trace in the log and the
    layout of a log line. *)

Module Items.

(** *** utils/errors.js *)

(** An instance of [AppError] or of one of its subclasses. *)
Record AppError := mkAppError {
  name : string;
  message : string;
  statusCode : Z;
  isOperational : bool }.

(** [new ValidationError(message)] *)
Definition ValidationError (message : string) : AppError :=
  mkAppError "ValidationError" message 400 true.

(** [new NotFoundError(resource)], [resource] defaulting to
    ['Resource']. *)
Definition NotFoundError (resource : option string) : AppError :=
  mkAppError "NotFoundError" (default "Resource" resource +:+ " not found") 404 true.

(** [new DatabaseError(message)], [message] defaulting to
    ['Database operation failed']. *)
Definition DatabaseError (message : option string) : AppError :=
  mkAppError "DatabaseError" (default "Database operation failed" message) 500 true.

(** What a handler may be given as an error: an [AppError], or another
    error (of the driver, of the runtime) with its message. *)
Inductive Thrown :=
| App (e : AppError)
| Other (message : string).

Definition message_of (err : Thrown) : string :=
  match err with
  | App e => message e
  | Other message => message
  end.

(** *** Values sent and logged *)

#[warnings="-register-all"]
Inductive Json :=
| JNull
| JBool (b : bool)
| JNumber (z : Z)
| JString (s : string)
| JArray (items : list Json)
| JObject (fields : list (string * Json)).

(** *** utils/logger.js *)

(** [process.env] *)
Definition Env : Type := gmap string string.

(** [process.env[key] || fallback]: an unset variable and an empty one
    both give the fallback. *)
Definition env_or (env : Env) (key fallback : string) : string :=
  match env !! key with
  | Some EmptyString | None => fallback
  | Some value => value
  end.

(** [process.env[key] === 'text'] *)
Definition env_is (env : Env) (key text : string) : bool :=
  match env !! key with
  | Some value => String.eqb value text
  | None => false
  end.

Definition is_lower (c : ascii) : bool :=
  let n := nat_of_ascii c in (97 <=? n)%nat && (n <=? 122)%nat.

(** [text.toUpperCase()], on ASCII text. *)
Fixpoint toUpperCase (s : string) : string :=
  match s with
  | EmptyString => EmptyString
  | String c s' =>
    String (if is_lower c then ascii_of_nat (nat_of_ascii c - 32) else c)
           (toUpperCase s')
  end.

(** [LOG_LEVELS] *)
Definition ERROR : Z := 0.
Definition WARN : Z := 1.
Definition INFO : Z := 2.
Definition DEBUG : Z := 3.

Definition LOG_LEVELS : gmap string Z :=
  {[ "ERROR" := ERROR; "WARN" := WARN; "INFO" := INFO; "DEBUG" := DEBUG ]}.

(** [this.level], as the constructor of [Logger] sets it. *)
Definition Logger_level (env : Env) : Z :=
  let levelName := toUpperCase (env_or env "LOG_LEVEL" "info") in
  match LOG_LEVELS !! levelName with
  | Some level => level
  | None => INFO
  end.

(** [_shouldLog(level)] *)
Definition shouldLog (env : Env) (level : Z) : bool := level <=? Logger_level env.

(** A line written to the console: its level, its message and the
    entries of [meta]. *)
Record LogLine := mkLogLine {
  level : Z;
  text : string;
  meta : list (string * Json) }.

(** *** Asynchronous code *)

Inductive Settled (A : Type) :=
| Fulfilled (a : A)
| Rejected (err : Thrown).
Arguments Fulfilled {A} a.
Arguments Rejected {A} err.

(** An [async] function settles one way or the other and may have
    written to the log on the way. *)
Definition Async (A : Type) : Type := list LogLine -> Settled A * list LogLine.

Definition resolve {A} (a : A) : Async A := fun log => (Fulfilled a, log).

(** [throw err] *)
Definition throw {A} (err : Thrown) : Async A := fun log => (Rejected err, log).

(** [await m; k] *)
Definition await {A B} (m : Async A) (k : A -> Async B) : Async B :=
  fun log =>
    match m log with
    | (Fulfilled a, log') => k a log'
    | (Rejected err, log') => (Rejected err, log')
    end.

(** [try { m } catch (error) { handler }] *)
Definition try_catch {A} (m : Async A) (handler : Thrown -> Async A) : Async A :=
  fun log =>
    match m log with
    | (Fulfilled a, log') => (Fulfilled a, log')
    | (Rejected err, log') => handler err log'
    end.

(** [logger.error], [logger.debug], ...: the line is written when its
    level is enabled. *)
Definition write (env : Env) (level : Z) (text : string)
  (meta : list (string * Json)) (log : list LogLine) : list LogLine :=
  if shouldLog env level then (log ++ [mkLogLine level text meta])%list else log.

Definition logger (env : Env) (level : Z) (text : string)
  (meta : list (string * Json)) : Async unit :=
  fun log => (Fulfilled tt, write env level text meta log).

(** *** The database rows and the item model *)

(** A row of [items] as the driver hands it over: the value of each of
    the four selected columns. *)
Record Row := mkRow { id : Json; title : Json; body : Json; created_at : Json }.

(** An [Item]: [created_at] has become [createdAt]. *)
Record Item := mkItem {
  item_id : Json;
  item_title : Json;
  item_body : Json;
  createdAt : Json }.

(** [Item.fromDatabase] and [Item.fromDatabaseArray] *)
Definition fromDatabase (row : Row) : Item :=
  mkItem (id row) (title row) (body row) (created_at row).

Definition fromDatabaseArray (rows : list Row) : list Item := map fromDatabase rows.

(** [Item.prototype.toJSON] *)
Definition toJSON (item : Item) : Json :=
  JObject [ ("id", item_id item); ("title", item_title item);
            ("body", item_body item); ("createdAt", createdAt item) ].

(** *** What one request sees *)

(** [parseInt(text, 10)]: leading blanks are skipped, a sign is read,
    then the digits up to the first other character.  The result is a
    JavaScript number, that is a double: [NaN] when no digit is read, else
    the double nearest to the integer the digits write (beyond 2^53 not
    every integer is a double, and beyond the range of the doubles the
    result is [Infinity]); a minus sign in front of zeros gives [-0]. *)
Definition is_js_space (c : ascii) : bool :=
  let n := nat_of_ascii c in
  ((9 <=? n)%nat && (n <=? 13)%nat) || (n =? 32)%nat || (n =? 160)%nat.

Definition is_digit (c : ascii) : bool :=
  let n := nat_of_ascii c in (48 <=? n)%nat && (n <=? 57)%nat.

Fixpoint skip_blanks (s : string) : string :=
  match s with
  | String c s' => if is_js_space c then skip_blanks s' else s
  | EmptyString => EmptyString
  end.

Fixpoint digits_value (acc : Z) (s : string) : Z :=
  match s with
  | String c s' =>
    if is_digit c then digits_value (10 * acc + (Z.of_nat (nat_of_ascii c) - 48)) s'
    else acc
  | EmptyString => acc
  end.

Definition parseInt (text : string) : float :=
  let s := skip_blanks text in
  let '(negative, s) :=
    match s with
    | String c r =>
      if Ascii.eqb c "-"%char then (true, r)
      else if Ascii.eqb c "+"%char then (false, r)
      else (false, s)
    | EmptyString => (false, s)
    end in
  match s with
  | String c _ =>
    if is_digit c then
      let number := Double.of_integer (digits_value 0 s) in
      if negative then PrimFloat.opp number else number
    else PrimFloat.nan
  | EmptyString => PrimFloat.nan
  end.

(** The environment of the process and the database pool as one request
    sees them: how [SELECT ... ORDER BY id] settles, and how
    [SELECT ... WHERE id = $1] settles for each parameter. *)
Record World := mkWorld {
  env : Env;
  select_all : Settled (list Row);
  select_by_id : float -> Settled (list Row) }.

Record Request := mkRequest { method : string; path : string }.

Record Response := mkResponse { status : Z; sent : Json }.

(** [JSON.stringify] of a parsed id: [NaN] and the infinities are
    written [null]. *)
Definition id_json (id : float) : Json :=
  match Double.to_Z id with Some z => JNumber z | None => JNull end.

(** *** repositories/item.repository.js *)

(** [ItemRepository.findAll] *)
Definition findAll (w : World) : Async (list Row) :=
  try_catch
    (await (fun log => (select_all w, log)) (fun rows =>
     await (logger (env w) DEBUG
                   ("Found " +:+ PS.show (Z.of_nat (length rows)) +:+ " items") [])
           (fun _ => resolve rows)))
    (fun error =>
       await (logger (env w) ERROR "Failed to fetch items from database"
                     [("error", JString (message_of error))])
             (fun _ => throw (App (DatabaseError (Some "Failed to retrieve items"))))).

(** [ItemRepository.findById]: [result.rows[0] || null] *)
Definition findById (w : World) (id : float) : Async (option Row) :=
  try_catch
    (await (fun log => (select_by_id w id, log)) (fun rows => resolve (head rows)))
    (fun error =>
       await (logger (env w) ERROR "Failed to fetch item by ID"
                     [("id", id_json id); ("error", JString (message_of error))])
             (fun _ => throw (App (DatabaseError (Some "Failed to retrieve item"))))).

(** *** services/item.service.js *)

(** [ItemService.getAllItems] *)
Definition getAllItems (w : World) : Async (list Item) :=
  await (findAll w) (fun rows => resolve (fromDatabaseArray rows)).

(** [ItemService.getItemById] *)
Definition getItemById (w : World) (id : float) : Async Item :=
  await (findById w id) (fun row =>
    match row with
    | None => throw (App (NotFoundError (Some "Item")))
    | Some row => resolve (fromDatabase row)
    end).

(** *** middlewares/error.middleware.js *)

(** The body of an error response. *)
Definition error_body (message : string) (statusCode : Z) : Json :=
  JObject [ ("success", JBool false);
            ("error", JObject [ ("message", JString message);
                                ("statusCode", JNumber statusCode) ]) ].

(** [errorHandler(err, req, res, next)]: the error is logged, then an
    operational [AppError] is answered with its own status and message,
    and any other error with status 500 and, in production, a fixed
    message. *)
Definition errorHandler (w : World) (req : Request) (err : Thrown)
  (log : list LogLine) : Response * list LogLine :=
  let log :=
    write (env w) ERROR "Error occurred"
          [ ("message", JString (message_of err));
            ("path", JString (path req));
            ("method", JString (method req)) ] log in
  let unexpected :=
    mkResponse 500
      (error_body (if env_is (env w) "NODE_ENV" "production"
                   then "Internal server error"
                   else message_of err) 500) in
  match err with
  | App e =>
    if isOperational e
    then (mkResponse (statusCode e) (error_body (message e) (statusCode e)), log)
    else (unexpected, log)
  | Other _ => (unexpected, log)
  end.

(** [notFoundHandler(req, res)] *)
Definition notFoundHandler (req : Request) : Response :=
  mkResponse 404
    (error_body ("Route " +:+ method req +:+ " " +:+ path req +:+ " not found") 404).

(** *** controllers/item.controller.js, with the error handler behind *)

(** A controller method, [try { ...; res.json(...) } catch (error) {
    next(error) }], with the error handler that [next(error)] reaches:
    the response sent and the log written. *)
Definition handle (w : World) (req : Request) (controller : Async Response)
  : Response * list LogLine :=
  match controller [] with
  | (Fulfilled response, log) => (response, log)
  | (Rejected error, log) => errorHandler w req error log
  end.

(** [ItemController.getAll], [GET /items] *)
Definition getAll (w : World) (req : Request) : Response * list LogLine :=
  handle w req
    (await (getAllItems w) (fun items =>
       resolve (mkResponse 200 (JArray (map toJSON items))))).

(** [ItemController.getById], [GET /items/:id]; [id_param] is
    [req.params.id]. *)
Definition getById (w : World) (req : Request) (id_param : string)
  : Response * list LogLine :=
  handle w req
    (let id := parseInt id_param in
     await (getItemById w id) (fun item =>
       resolve (mkResponse 200 (toJSON item)))).

(** *** config/database.js *)

(** [getEnv(key, defaultValue = null)]: the value of the variable, or the
    default when the variable is unset or empty; without a default it
    throws. *)
Definition getEnv (env : Env) (key : string) (defaultValue : option string)
  : Settled string :=
  match env !! key, defaultValue with
  | Some (String c value), _ => Fulfilled (String c value)
  | _, Some fallback => Fulfilled fallback
  | _, None =>
    Rejected (Other ("Missing required environment variable: " +:+ key))
  end.

(** [getEnvInt(key, defaultValue)]: a JavaScript number. *)
Definition getEnvInt (env : Env) (key : string) (defaultValue : Z) : float :=
  match env !! key with
  | Some (String c value) => parseInt (String c value)
  | _ => Double.of_Z defaultValue
  end.

(** [dbConfig], the argument of [new Pool]. *)
Record DbConfig := mkDbConfig {
  host : string;
  port : float;
  user : string;
  password : string;
  database : string;
  max : float;
  idleTimeoutMillis : float;
  connectionTimeoutMillis : float }.

(** The object literal is evaluated field by field, in order; the first
    [getEnv] that throws ends the loading of the module. *)
Definition dbConfig (env : Env) : Settled DbConfig :=
  match getEnv env "DB_HOST" (Some "localhost") with
  | Rejected err => Rejected err
  | Fulfilled host =>
    let port := getEnvInt env "DB_PORT" 5432 in
    match getEnv env "DB_USER" None with
    | Rejected err => Rejected err
    | Fulfilled user =>
      match getEnv env "DB_PASSWORD" None with
      | Rejected err => Rejected err
      | Fulfilled password =>
        match getEnv env "DB_NAME" None with
        | Rejected err => Rejected err
        | Fulfilled database =>
          Fulfilled
            (mkDbConfig host port user password database
               (getEnvInt env "DB_POOL_MAX" 10)
               (getEnvInt env "DB_POOL_IDLE_TIMEOUT" 30000)
               (getEnvInt env "DB_POOL_CONNECTION_TIMEOUT" 2000))
        end
      end
    end
  end.

End Items.

(* ================================================================== *)
(** ** tests/test-security-scan.ps1 *)
(* ================================================================== *)

Module SecurityScan.

(** What [docker run ... aquasec/trivy image --format json $ImageTag |
    ConvertFrom-Json] gives for an image: the pipeline raises, or it
    yields the report, of which the severity of each vulnerability of
    each entry of [Results] is kept. *)
Inductive Scan :=
| ScanThrew (message : string)
| Scanned (Results : list (list string)).

(** The hashtable [Invoke-TrivyScan] returns, in its two shapes. *)
Inductive ScanResult :=
| ScanSucceeded (ImageTag : string) (Critical High Total : Z)
| ScanFailed (ImageTag : string) (Error : string).

Definition Success (r : ScanResult) : bool :=
  match r with ScanSucceeded _ _ _ _ => true | ScanFailed _ _ => false end.

Definition Critical (r : ScanResult) : Z :=
  match r with ScanSucceeded _ critical _ _ => critical | ScanFailed _ _ => 0 end.

Definition High (r : ScanResult) : Z :=
  match r with ScanSucceeded _ _ high _ => high | ScanFailed _ _ => 0 end.

(** The two counters of [Invoke-TrivyScan]. *)
Definition count_severity (severity : string) (Results : list (list string)) : Z :=
  Z.of_nat (length (List.filter (fun s => PS.ieq s severity) (concat Results))).

(** [function Invoke-TrivyScan] *)
Definition Invoke_TrivyScan (ImageTag : string) (scan : Scan) : ScanResult :=
  match scan with
  | ScanThrew message => ScanFailed ImageTag message
  | Scanned Results =>
    let criticalCount := count_severity "CRITICAL" Results in
    let highCount := count_severity "HIGH" Results in
    ScanSucceeded ImageTag criticalCount highCount (criticalCount + highCount)
  end.

(** The images scanned when [-ImageTags] is not given. *)
Definition defaultImageTags : list string :=
  [ "lenderdiam/td-docker-api:latest";
    "lenderdiam/td-docker-db:latest";
    "lenderdiam/td-docker-frontend:latest" ].

(** How the script ends: with an exit status, or under [-ReturnObject]
    with the hashtable it returns. *)
Inductive Outcome :=
| Exit (code : Z)
| Unavailable
| Returned (Results : list ScanResult) (TotalCritical TotalHigh : Z).

(** [$totalCritical] and [$totalHigh]: the sums over the scans that
    succeeded. *)
Definition total (field : ScanResult -> Z) (results : list ScanResult) : Z :=
  fold_left (fun acc r => acc + field r) (List.filter Success results) 0.

(** The main logic: [trivy] tells whether [Test-TrivyAvailable]
    succeeds, [scan] what the scan of each image gives. *)
Definition main (ImageTags : PS.strings) (ReturnObject : bool) (trivy : bool)
  (scan : string -> Scan) : Outcome :=
  let ImageTags :=
    if negb (PS.truthy ImageTags) then defaultImageTags else PS.items ImageTags in
  if negb trivy then
    if ReturnObject then Unavailable else Exit 1
  else
    let results :=
      map (fun imageTag => Invoke_TrivyScan imageTag (scan imageTag)) ImageTags in
    if ReturnObject then Returned results (total Critical results) (total High results)
    else if 0 <? total Critical results then Exit 1 else Exit 0.

End SecurityScan.

(* ================================================================== *)
(** ** Notions the statements are written with *)
(* ================================================================== *)

(** [s] with its letters folded to lower case. *)
Fixpoint lower (s : string) : string :=
  match s with
  | EmptyString => EmptyString
  | String c s' => String (PS.to_lower c) (lower s')
  end.

(** [p] occurs in [s], letters compared without case. *)
Definition occurs (p s : string) : Prop :=
  exists pre post : string, lower s = pre +:+ lower p +:+ post.

(** The list holds the name [x], letters compared without case. *)
Definition holds (l : list string) (x : string) : Prop :=
  exists e : string, In e l /\ lower e = lower x.

(** Every name of the list is a non-empty text, as the names the engine
    reports are. *)
Definition named (l : list string) : Prop := Forall (fun e => e <> EmptyString) l.

(** The accumulators that calls of [Add-TestResult] can produce from the
    initial [$Script:TestResults]. *)
Inductive reachable (category : string) : TestResults.t -> Prop :=
| reach_init : reachable category (TestResults.init category)
| reach_add st Test Passed Reason :
    reachable category st ->
    reachable category (snd (Add_TestResult Test Passed Reason st)).

(** A recorded outcome is a pass or a fail, and its status says which. *)
Definition pass_or_fail (r : Result.t) : Prop :=
  (Result.Passed r = true /\ Result.Status r = "OK")
  \/ (Result.Passed r = false /\ Result.Status r = "FAIL").

Definition passes (steps : list Result.t) : Z :=
  Z.of_nat (length (List.filter (fun r => Result.Passed r) steps)).

Definition fails (steps : list Result.t) : Z :=
  Z.of_nat (length (List.filter (fun r => negb (Result.Passed r)) steps)).

(** The invariant of the accumulator. *)
Record accumulator_ok (st : TestResults.t) : Prop := {
  total_is_sum : TestResults.TotalTests st = TestResults.Passed st + TestResults.Failed st;
  total_is_count : TestResults.TotalTests st = Steps_Count st;
  passed_is_passes : TestResults.Passed st = passes (TestResults.Steps st);
  failed_is_fails : TestResults.Failed st = fails (TestResults.Steps st);
  outcomes_binary : Forall pass_or_fail (TestResults.Steps st) }.

(** A runner computation touches the accumulator through
    [Add-TestResult] only. *)
Definition adds_only {A} (m : Runner A) : Prop :=
  forall category st, reachable category st -> reachable category (snd (m st)).

(** The result a check appends: the accumulator after the check is the
    one before with this result added. *)
Definition records (m : Runner bool) (st : TestResults.t) (r : Result.t) : Prop :=
  fst (m st) = Result.Passed r
  /\ TestResults.Steps (snd (m st)) = (TestResults.Steps st ++ [r])%list.

(** [k] tenths is a closest one-decimal value to [100 * p / t]: it is
    off by at most half a tenth, [|k/10 - 100p/t| <= 1/20]. *)
Definition nearest_tenths (p t k : Z) : Prop := Z.abs (2 * k * t - 2000 * p) <= t.

(** The double that [Math.Round(_, 1)] returns for [k] tenths. *)
Definition tenths (k : Z) : float := PrimFloat.div (Double.of_Z k) (Double.of_Z 10).

(** Decides, on machine integers, that the double score of [p] passed
    out of [t] is the double of a closest one-decimal value: it tries the
    two candidates around [1000 p / t], and compares the doubles bit for
    bit. *)
Definition score_is_nearest (p t : int) : bool :=
  let r := Double.Round (PrimFloat.mul (PrimFloat.div (PrimFloat.of_uint63 p)
                                                       (PrimFloat.of_uint63 t))
                                       (Double.of_Z 100)) 1 in
  let near (k : int) :=
    (2 * k * t <=? 2000 * p + t)%uint63 && (2000 * p <=? 2 * k * t + t)%uint63
    && PrimFloat.Leibniz.eqb r (PrimFloat.div (PrimFloat.of_uint63 k) (Double.of_Z 10)) in
  let k := (1000 * p / t)%uint63 in
  near k || near (k + 1)%uint63.

(** [score_is_nearest] on [fuel] numbers of passed checks from [p] on,
    and on every report of [t], [t + 1], ... checks, [fuel] sizes in all
    ([n] is [t - 1] as a natural number). *)
Fixpoint scores_nearest (fuel : nat) (p t : int) : bool :=
  match fuel with
  | O => true
  | S fuel' => score_is_nearest p t && scores_nearest fuel' (p + 1)%uint63 t
  end.

Fixpoint reports_nearest (fuel : nat) (n : nat) (t : int) : bool :=
  match fuel with
  | O => true
  | S fuel' => scores_nearest (S n) 0%uint63 t && reports_nearest fuel' (S n) (t + 1)%uint63
  end.

(** [0; 1; ...; n-1] as integers. *)
Definition upto (n : nat) : list Z := map Z.of_nat (seq 0 n).

(** A runner computation adds exactly [n] results to the report. *)
Definition adds {A} (n : nat) (m : Runner A) : Prop :=
  forall st, length (TestResults.Steps (snd (m st)))
             = (length (TestResults.Steps st) + n)%nat.

(** The entry the aggregator records for a test file. *)
Definition result_of (world : Suite.TestFile -> Suite.Run) (f : Suite.TestFile)
  : Suite.Result :=
  match world f with
  | Suite.FileMissing => Suite.mkResult (Suite.Name f) false "FILE NOT FOUND" (-1)
  | Suite.Exited exitCode =>
    if exitCode =? 0 then Suite.mkResult (Suite.Name f) true "PASSED" exitCode
    else Suite.mkResult (Suite.Name f) false
           ("FAILED (Exit: " +:+ PS.show exitCode +:+ ")") exitCode
  | Suite.Threw _ => Suite.mkResult (Suite.Name f) false "ERROR" (-1)
  end.

(** A category failure other than a missing file: the script ran and
    exited with a non-zero status, or raised. *)
Definition failed_run (r : Suite.Run) : bool :=
  match r with
  | Suite.FileMissing => false
  | Suite.Exited exitCode => negb (exitCode =? 0)
  | Suite.Threw _ => true
  end.

(** The category's script ran and exited with status 0. *)
Definition exited_0 (r : Suite.Run) : bool :=
  match r with
  | Suite.Exited exitCode => exitCode =? 0
  | _ => false
  end.

(** *** Notions for the further properties *)

(** The audit of the capabilities of a service, before its first step. *)
Definition fresh : SecurityCaps.Audit := SecurityCaps.mkAudit SecurityCaps.none [].

(** Every call of the check [T] appends one result, named [prefix]
    followed by the target. *)
Definition names_its_result (prefix : string) (T : string -> Runner bool) : Prop :=
  forall target st, exists r,
    TestResults.Steps (snd (T target st)) = (TestResults.Steps st ++ [r])%list
    /\ Result.Test r = prefix +:+ target.

(** The names under which the results of a report were recorded. *)
Definition Tests (st : TestResults.t) : list string :=
  map Result.Test (TestResults.Steps st).

(** A runner computation keeps the results recorded before it. *)
Definition extends {A} (m : Runner A) : Prop :=
  forall st, exists added,
    TestResults.Steps (snd (m st)) = (TestResults.Steps st ++ added)%list.

(** Decides that, for [p] passed checks out of [t], the runner exits with
    0 exactly when seven tenths of the checks passed. *)
Definition exit_is_threshold (p t : Z) : bool :=
  Bool.eqb (exit_of_percentage (Double.Round (Double.ratio100 p t) 1) =? 0)
           (7 * t <=? 10 * p).

(** The test files the loop of the aggregator comes to: all of them, or
    under [-StopOnFailure] those up to the first whose script exits with
    a non-zero status or raises. *)
Fixpoint executed (StopOnFailure : bool) (world : Suite.TestFile -> Suite.Run)
  (files : list Suite.TestFile) : list Suite.TestFile :=
  match files with
  | [] => []
  | f :: rest =>
    f :: (if StopOnFailure && failed_run (world f) then []
          else executed StopOnFailure world rest)
  end.

(** A service configured as the capabilities audit recommends: every
    capability dropped and none added, no new privileges, not
    privileged, and a memory or CPU limit.  The user namespace is left
    open. *)
Definition hardened (hc : Docker.HostConfig) : Prop :=
  holds (PS.items (Docker.CapDrop hc)) "ALL"
  /\ PS.items (Docker.CapAdd hc) = []
  /\ holds (PS.items (Docker.SecurityOpt hc)) "no-new-privileges:true"
  /\ Docker.Privileged hc = false
  /\ (0 < Docker.Memory hc \/ (0 < Docker.CpuQuota hc /\ 0 < Docker.CpuPeriod hc)).

(** The service has a container that could be inspected. *)
Definition found (l : SecurityCaps.Lookup) : Prop :=
  match l with SecurityCaps.Found _ => True | _ => False end.

(** The image names the multi-stage audit keeps from [docker images]:
    not a dangling image, and of the project or one of its three base
    images. *)
Definition project_image (i : string) : bool :=
  negb (PS.istarts "<none>:" i)
  && (PS.imatch i "td_docker_2025" || PS.imatch i "lenderdiam/td_docker_2025"
      || PS.istarts "node:22-alpine" i || PS.istarts "postgres:15-alpine" i
      || MultiStage.is_nginx_alpine i).

(** A text without blank, a text without line feed, a text without
    quote, and a text of decimal digits. *)
Definition no_blank (s : string) : Prop :=
  SecretScan.all_of (fun c => negb (PS.is_space c)) s = true.

Definition one_line (s : string) : Prop :=
  SecretScan.all_of (fun c => negb (Ascii.eqb c MultiStage.newline)) s = true.

Definition no_quote (s : string) : Prop :=
  SecretScan.all_of (fun c => negb (SecretScan.is_quote c)) s = true.

Definition digits_only (s : string) : Prop := SecretScan.all_of Items.is_digit s = true.

(** The variable [LOG_LEVEL] is set to [text], letters compared without
    case. *)
Definition LOG_LEVEL_is (env : Items.Env) (text : string) : Prop :=
  exists value, env !! "LOG_LEVEL" = Some value /\ lower value = text.

(** The variable [key] is set to a text that is not empty. *)
Definition is_set (env : Items.Env) (key : string) : Prop :=
  exists value, env !! key = Some value /\ value <> "".

(** The scan of the image reported a vulnerability of critical
    severity. *)
Definition critical_found (scan : string -> SecurityScan.Scan) (imageTag : string) : Prop :=
  exists Results severities severity,
    scan imageTag = SecurityScan.Scanned Results
    /\ In severities Results /\ In severity severities
    /\ lower severity = "critical".

(** *** Notions for the lines of a Dockerfile and of a process list *)

(** The words of a text: its maximal runs of characters that are not
    blank, in order. *)
Fixpoint words_of (s : string) : list string :=
  match s with
  | EmptyString => []
  | String c s' =>
    if PS.is_space c then words_of s'
    else match s' with
         | EmptyString => [String c EmptyString]
         | String c' _ =>
           if PS.is_space c' then String c EmptyString :: words_of s'
           else match words_of s' with
                | w :: ws => String c w :: ws
                | [] => [String c EmptyString]
                end
         end
  end.

(** The first word of the line is [keyword], letters compared without
    case. *)
Definition first_word_is (keyword line : string) : bool :=
  match words_of line with
  | w :: _ => String.eqb (lower w) (lower keyword)
  | [] => false
  end.


(** The line holds the one word [keyword] and nothing else. *)
Definition keyword_alone (keyword line : string) : bool :=
  match words_of line with
  | [w] => String.eqb (lower w) (lower keyword)
  | _ => false
  end.

(** The text of a file given by its lines: a line feed stands between
    two lines (a text that ends with a line feed has an empty last
    line). *)
Fixpoint lines_text (ls : list string) : string :=
  match ls with
  | [] => EmptyString
  | [l] => l
  | l :: ls' => l +:+ String MultiStage.newline (lines_text ls')
  end.

(** The lines of a text. *)
Fixpoint lines_of (s : string) : list string :=
  match s with
  | EmptyString => [EmptyString]
  | String c s' =>
    if Ascii.eqb c MultiStage.newline then EmptyString :: lines_of s'
    else match lines_of s' with
         | l :: ls => String c l :: ls
         | [] => [String c EmptyString]
         end
  end.

(** A text of blanks only. *)
Definition blank (s : string) : Prop := SecretScan.all_of PS.is_space s = true.

(** A line of a text in which the search for [keyword] stays within the
    lines: the line holds no line feed, and it does not consist of
    [keyword] alone (the blanks the pattern asks for after the keyword
    would then be found on the lines below). *)
Definition regular (keyword line : string) : Prop :=
  one_line line /\ keyword_alone keyword line = false.

(** Nothing, or a text that starts with a blank. *)
Definition at_word_end (s : string) : Prop :=
  match s with
  | EmptyString => True
  | String c _ => PS.is_space c = true
  end.

(** What follows a line in a text: nothing, or a line feed and the lines
    below. *)
Definition ends_line (after : string) : Prop :=
  after = EmptyString \/ exists below, after = String MultiStage.newline below.

(** What a search finds after the end of a line, and what it finds in a
    text when [hit] says what it finds on each line. *)
Definition continue {A} (pattern : string -> option (nat * A)) (after : string) : list A :=
  match after with
  | EmptyString => []
  | String _ below => MultiStage.Matches pattern O true below
  end.

Definition hits {A} (hit : string -> option A) (ls : list string) : list A :=
  flat_map (fun l => match hit l with Some a => [a] | None => [] end) ls.


(** Some line of the text has [keyword] as its first word. *)
Definition some_line_begins (keyword : string) (ls : list string) : Prop :=
  exists l, In l ls /\ first_word_is keyword l = true.

(** The lines on which an instruction of a Dockerfile starts: a line
    that ends with a backslash is continued on the next one. *)
Fixpoint last_char (s : string) : option ascii :=
  match s with
  | EmptyString => None
  | String c EmptyString => Some c
  | String _ s' => last_char s'
  end.

Definition continued (l : string) : bool :=
  match last_char l with
  | Some c => Ascii.eqb c "092"%char
  | None => false
  end.

Fixpoint instruction_starts (inside : bool) (ls : list string) : list string :=
  match ls with
  | [] => []
  | l :: ls' => (if inside then [] else [l]) ++ instruction_starts (continued l) ls'
  end.


(* ================================================================== *)
(** ** Sample inputs *)
(* ================================================================== *)

(** A line feed. *)
Definition nl : string := String MultiStage.newline EmptyString.

(** A container that drops one capability only. *)
Definition drops_NET_RAW : Docker.HostConfig :=
  Docker.mkHostConfig (Some ["NET_RAW"]) None None false "" 0 0 0 0 false.

(** A database container of the compose project, all capabilities
    dropped and two added. *)
Definition db_container : Docker.Container :=
  Docker.mkContainer
    (Docker.Inspected
       (Docker.mkHostConfig (Some ["ALL"]) (Some ["CHOWN"; "SETUID"])
          (Some ["no-new-privileges:true"]) false "" 0 0 0 0 false))
    (Docker.ExecOut (Some "postgres     1")) (Some "00000000000000c1").

(** An enumeration of the keys that starts with [api]. *)
Definition Keys_api_first : list string :=
  ["api"; "db"; "postgres"; "frontend"; "nginx"; "node"].

(** An invocation of the security audit with no argument while no
    container runs. *)
Definition nothing_runs : Security.World :=
  Security.mkWorld None None
    (fun _ => Docker.mkContainer Docker.InspectNothing (Docker.ExecOut None) None)
    Security.expectedCaps_literal.

(** An invocation of the environment audit with no argument, in a
    project that holds a clean [.env] file and no Dockerfile, while no
    container runs. *)
Definition only_env_file : Environment.World :=
  Environment.mkWorld None None None None
    (fun _ => MultiStage.mkDockerfile "" None false "")
    (fun _ => [])
    (Environment.mkEnvFile ".env" true [])
    (fun _ => Environment.InspectNothing).

(** Ten checks of which the first seven pass. *)
Definition seven_of_ten : TestResults.t :=
  snd (foreach [true; true; true; true; true; true; true; false; false; false]
         (fun ok => Add_TestResult "check" ok "") (TestResults.init "SECURITY")).

(** The Dockerfile of an API service, built in one stage. *)
Definition api_Dockerfile : MultiStage.Dockerfile :=
  MultiStage.mkDockerfile "Dockerfile" (Some "api") true
    ("FROM node:22-alpine" +:+ nl +:+
     "WORKDIR /app" +:+ nl +:+
     "COPY package*.json ./" +:+ nl +:+
     "RUN npm ci --omit=dev" +:+ nl +:+
     "COPY src ./src" +:+ nl +:+
     "USER node" +:+ nl +:+
     "CMD [ node, src/app.js ]" +:+ nl).

(** The Dockerfile of a static frontend: built with Node, served by
    nginx on Alpine. *)
Definition frontend_Dockerfile : MultiStage.Dockerfile :=
  MultiStage.mkDockerfile "Dockerfile" (Some "frontend") true
    ("FROM node:22 AS builder" +:+ nl +:+
     "WORKDIR /app" +:+ nl +:+
     "COPY . ." +:+ nl +:+
     "RUN npm ci && npm run build" +:+ nl +:+
     nl +:+
     "FROM nginx:1-alpine" +:+ nl +:+
     "COPY --from=builder /app/dist /usr/share/nginx/html" +:+ nl).

(** Only the first of the eight scripts exits with 0. *)
Definition only_first_passes (f : Suite.TestFile) : Suite.Run :=
  if String.eqb (Suite.File f) "test-nonroot-users.ps1" then Suite.Exited 0
  else Suite.Exited 1.

(** The first two scripts are missing, the third passes and the fourth
    exits with 1. *)
Definition two_missing_then_failure (f : Suite.TestFile) : Suite.Run :=
  if String.eqb (Suite.File f) "test-nonroot-users.ps1" then Suite.FileMissing
  else if String.eqb (Suite.File f) "test-security-caps.ps1" then Suite.FileMissing
  else if String.eqb (Suite.File f) "test-security.ps1" then Suite.Exited 0
  else Suite.Exited 1.

(** The first script is missing and the seven others exit with 0. *)
Definition first_file_missing (f : Suite.TestFile) : Suite.Run :=
  if String.eqb (Suite.File f) "test-nonroot-users.ps1" then Suite.FileMissing
  else Suite.Exited 0.

(** The first script exits with 1 and the seven others with 0. *)
Definition first_file_fails (f : Suite.TestFile) : Suite.Run :=
  if String.eqb (Suite.File f) "test-nonroot-users.ps1" then Suite.Exited 1
  else Suite.Exited 0.

(** A container whose security options hold [no-new-privileges] without
    its value. *)
Definition only_no_new_privileges : Docker.Container :=
  Docker.mkContainer
    (Docker.Inspected
       (Docker.mkHostConfig (Some ["ALL"]) None (Some ["no-new-privileges"])
          false "" 0 0 0 0 false))
    (Docker.ExecOut (Some "node         1")) (Some "0000000000000000").

(** A container limited as Compose does it: 512 MB and one CPU, given in
    [NanoCpus]. *)
Definition compose_limited : Docker.Container :=
  Docker.mkContainer
    (Docker.Inspected
       (Docker.mkHostConfig (Some ["ALL"]) None (Some ["no-new-privileges:true"])
          false "" 536870912 0 0 1000000000 false))
    (Docker.ExecOut (Some "node         1")) (Some "0000000000000000").

(** An invocation of the security audit on the one container [api]. *)
Definition api_only : Security.World :=
  Security.mkWorld (Some ["api"]) None (fun _ => compose_limited)
                   Security.expectedCaps_literal.

(** A Dockerfile whose base image is pinned to a platform. *)
Definition platform_Dockerfile : MultiStage.Dockerfile :=
  MultiStage.mkDockerfile "Dockerfile" (Some "api") true
    ("FROM --platform=linux/amd64 node:22-alpine" +:+ nl +:+
     "WORKDIR /app" +:+ nl +:+
     "USER node" +:+ nl).

(** A Dockerfile that sets a password and a key without quotes. *)
Definition password_Dockerfile : MultiStage.Dockerfile :=
  MultiStage.mkDockerfile "Dockerfile" (Some "api") true
    ("FROM node:22-alpine" +:+ nl +:+
     "ENV DB_PASSWORD=S3cr3t-Pr0d-2025" +:+ nl +:+
     "ENV API_KEY=0123456789abcdef" +:+ nl +:+
     "CMD node src/app.js" +:+ nl).

(** An environment file of a development setup. *)
Definition dev_env : string :=
  "# database" +:+ nl +:+
  "DB_USER=td_user" +:+ nl +:+
  "DB_PASSWORD=td_password" +:+ nl +:+
  "# API_KEY=sk-0123456789abcdefghijklmn" +:+ nl +:+
  "JWT_SECRET = 'changeme'" +:+ nl.

(** A compose file with three services, one of them restarted with a
    policy that does not exist, and no health check. *)
Definition three_services : Orchestration.World :=
  Orchestration.mkWorld false true
    (Orchestration.mkComposeFile true true 0 2 (Some 3) ["unless-stopped"; "sometimes"]).

(** A process without environment whose table holds no item, and a
    request for one item. *)
Definition empty_table : Items.World :=
  Items.mkWorld ∅ (Items.Fulfilled []) (fun _ => Items.Fulfilled []).

Definition get_item_12abc : Items.Request := Items.mkRequest "GET" "/api/items/12abc".

(** Three checks of which two pass. *)
Definition two_of_three : TestResults.t :=
  snd (foreach [true; false; true]
         (fun ok => Add_TestResult "check" ok "") (TestResults.init "SECURITY")).

(** A container that drops one capability only, and one that drops
    none. *)
Definition net_raw_container : Docker.Container :=
  Docker.mkContainer (Docker.Inspected drops_NET_RAW)
    (Docker.ExecOut (Some "node         1")) (Some "00000000a80405fb").

Definition drops_nothing_container : Docker.Container :=
  Docker.mkContainer
    (Docker.Inspected (Docker.mkHostConfig None None None false "" 0 0 0 0 false))
    (Docker.ExecOut (Some "node         1")) (Some "00000000a80425fb").

(** A container of which only the line of its first process is known. *)
Definition runs_as (line : string) : Docker.Container :=
  Docker.mkContainer Docker.InspectNothing (Docker.ExecOut (Some line)) None.

(** A backslash, which continues a line of a Dockerfile on the next. *)
Definition backslash : string := String "092"%char EmptyString.

(** The lines of the two Dockerfiles above. *)
Definition api_lines : list string :=
  ["FROM node:22-alpine"; "WORKDIR /app"; "COPY package*.json ./";
   "RUN npm ci --omit=dev"; "COPY src ./src"; "USER node";
   "CMD [ node, src/app.js ]"; ""].

Definition frontend_lines : list string :=
  ["FROM node:22 AS builder"; "WORKDIR /app"; "COPY . ."; "RUN npm ci && npm run build";
   ""; "FROM nginx:1-alpine"; "COPY --from=builder /app/dist /usr/share/nginx/html"; ""].





(** A Dockerfile with an [ENV] instruction, and one whose only line
    that starts with [env] continues a [RUN] instruction. *)
Definition env_lines : list string :=
  ["FROM node:22-alpine"; "ENV NODE_ENV=production"; "WORKDIR /app"; "CMD node src/app.js"; ""].

Definition env_Dockerfile : MultiStage.Dockerfile :=
  MultiStage.mkDockerfile "Dockerfile" (Some "api") true (lines_text env_lines).

Definition piped_lines : list string :=
  ["FROM node:22-alpine"; "RUN set -e; " +:+ backslash; "    env | sort"; ""].

Definition piped_Dockerfile : MultiStage.Dockerfile :=
  MultiStage.mkDockerfile "Dockerfile" (Some "api") true (lines_text piped_lines).

(** An image of 642095513 bytes, a little over 612 MB. *)
Definition large_image : MultiStage.Image :=
  MultiStage.mkImage (MultiStage.Inspected 642095513) (MultiStage.HistoryOut None).

(* ================================================================== *)
(** ** Facts about the PowerShell primitives *)
(* ================================================================== *)

Lemma char_ieq_lower (a b : ascii) :
  PS.char_ieq a b = true <-> PS.to_lower a = PS.to_lower b.
Proof. unfold PS.char_ieq. apply Ascii.eqb_eq. Qed.

Lemma ieq_lower (a b : string) : PS.ieq a b = true <-> lower a = lower b.
Proof.
  revert b. induction a as [|x a IH]; intros [|y b]; simpl; try easy.
  rewrite andb_true_iff, char_ieq_lower, IH. split.
  - intros [-> ->]. reflexivity.
  - intros H. injection H as H1 H2. auto.
Qed.

Lemma istarts_lower (p s : string) :
  PS.istarts p s = true <-> exists post, lower s = lower p +:+ post.
Proof.
  revert s. induction p as [|x p IH]; intros s; simpl.
  - split; [intros _; exists (lower s); reflexivity | reflexivity].
  - destruct s as [|y s]; simpl.
    + split; [discriminate | intros [post H]; discriminate].
    + rewrite andb_true_iff, char_ieq_lower, IH. split.
      * intros [Hc [post Hs]]. exists post. simpl. rewrite Hc, Hs. reflexivity.
      * intros [post H]. simpl in H. injection H as H1 H2. split; [auto | eauto].
Qed.

Lemma imatch_occurs (s p : string) : PS.imatch s p = true <-> occurs p s.
Proof.
  unfold occurs. induction s as [|c s IH].
  - simpl. rewrite orb_false_r, istarts_lower. split.
    + intros [post H]. exists EmptyString, post. exact H.
    + intros [pre [post H]]. destruct pre; simpl in H; [eauto | discriminate].
  - cbn [PS.imatch]. rewrite orb_true_iff, istarts_lower, IH. split.
    + intros [[post H] | [pre [post H]]].
      * exists EmptyString, post. exact H.
      * exists (String (PS.to_lower c) pre), post. simpl. rewrite H. reflexivity.
    + intros [pre [post H]]. destruct pre as [|x pre]; simpl in H.
      * left. eauto.
      * right. injection H as H1 H2. eauto.
Qed.

Lemma contains_holds (l : list string) (x : string) :
  PS.contains l x = true <-> holds l x.
Proof.
  unfold PS.contains, holds. rewrite existsb_exists.
  split; intros [e [Hin He]]; exists e; (split; [exact Hin | apply ieq_lower; exact He]).
Qed.

Lemma notcontains_holds (l : list string) (x : string) :
  PS.notcontains l x = true <-> ~ holds l x.
Proof.
  unfold PS.notcontains. rewrite negb_true_iff, <- contains_holds.
  destruct (PS.contains l x); split; congruence.
Qed.

Lemma imatch_any_occurs (s : string) (ps : list string) :
  PS.imatch_any s ps = true <-> exists p, In p ps /\ occurs p s.
Proof.
  unfold PS.imatch_any. rewrite existsb_exists.
  split; intros [p [Hin Hp]]; exists p; (split; [exact Hin | apply imatch_occurs; exact Hp]).
Qed.

(** A list of names read in a condition is true exactly when it is not
    empty. *)
Lemma truthy_named (l : list string) :
  named l -> PS.truthy (Some l) = true <-> l <> [].
Proof.
  intros Hn. destruct l as [|x [|y l]]; simpl.
  - split; [discriminate | congruence].
  - inversion Hn as [|? ? Hx _]; subst. destruct x; simpl; split; congruence.
  - split; [discriminate | reflexivity].
Qed.

(* ================================================================== *)
(** ** The accumulator *)
(* ================================================================== *)

Lemma Add_TestResult_eq (Test : string) (Passed : bool) (Reason : string)
  (st : TestResults.t) :
  Add_TestResult Test Passed Reason st =
  (Passed,
   TestResults.mk (TestResults.Category st)
     (TestResults.TotalTests st + 1)
     (TestResults.Passed st + (if Passed then 1 else 0))
     (TestResults.Failed st + (if Passed then 0 else 1))
     (TestResults.Steps st
      ++ [Result.mk Test (if Passed then "OK" else "FAIL") Passed Reason])%list).
Proof.
  unfold Add_TestResult. destruct Passed; simpl; rewrite ?Z.add_0_r; reflexivity.
Qed.

Lemma Add_TestResult_records (Test : string) (Passed : bool) (Reason : string)
  (st : TestResults.t) :
  records (Add_TestResult Test Passed Reason) st
          (Result.mk Test (if Passed then "OK" else "FAIL") Passed Reason).
Proof. unfold records. rewrite Add_TestResult_eq. split; reflexivity. Qed.

Lemma passes_snoc (steps : list Result.t) (r : Result.t) :
  passes (steps ++ [r]) = passes steps + (if Result.Passed r then 1 else 0).
Proof.
  unfold passes. rewrite List.filter_app, length_app. simpl.
  destruct (Result.Passed r); simpl; lia.
Qed.

Lemma fails_snoc (steps : list Result.t) (r : Result.t) :
  fails (steps ++ [r]) = fails steps + (if Result.Passed r then 0 else 1).
Proof.
  unfold fails. rewrite List.filter_app, length_app. simpl.
  destruct (Result.Passed r); simpl; lia.
Qed.

Lemma passes_fails (steps : list Result.t) :
  passes steps + fails steps = Z.of_nat (length steps).
Proof.
  induction steps as [|r steps IH]; [reflexivity|].
  unfold passes, fails in *. simpl. destruct (Result.Passed r); simpl length; lia.
Qed.

Lemma accumulator_ok_init (category : string) :
  accumulator_ok (TestResults.init category).
Proof. split; simpl; try reflexivity. constructor. Qed.

Lemma accumulator_ok_add (Test : string) (Passed : bool) (Reason : string)
  (st : TestResults.t) :
  accumulator_ok st -> accumulator_ok (snd (Add_TestResult Test Passed Reason st)).
Proof.
  intros [Hsum Hcount Hpass Hfail Hbin]. rewrite Add_TestResult_eq. simpl.
  unfold Steps_Count in *. split; unfold Steps_Count; simpl.
  - destruct Passed; lia.
  - rewrite length_app. simpl length. lia.
  - rewrite passes_snoc. simpl. lia.
  - rewrite fails_snoc. simpl. lia.
  - apply Forall_app. split; [exact Hbin|].
    constructor; [|constructor].
    unfold pass_or_fail. simpl. destruct Passed; auto.
Qed.

Lemma reachable_accumulator_ok (category : string) (st : TestResults.t) :
  reachable category st -> accumulator_ok st.
Proof.
  induction 1 as [|st Test Passed Reason _ IH].
  - apply accumulator_ok_init.
  - apply accumulator_ok_add, IH.
Qed.

Lemma reachable_Category (category : string) (st : TestResults.t) :
  reachable category st -> TestResults.Category st = category.
Proof.
  induction 1 as [|st Test Passed Reason _ IH]; [reflexivity|].
  rewrite Add_TestResult_eq. exact IH.
Qed.

(** *** Runner computations only add results *)

Lemma adds_only_ret {A} (a : A) : adds_only (ret a).
Proof. intros category st H. exact H. Qed.

Lemma adds_only_bind {A B} (m : Runner A) (k : A -> Runner B) :
  adds_only m -> (forall a, adds_only (k a)) -> adds_only (bind m k).
Proof.
  intros Hm Hk category st H. unfold bind.
  specialize (Hm category st H). destruct (m st) as [a st']. apply Hk, Hm.
Qed.

Lemma adds_only_Out_Null {A} (m : Runner A) : adds_only m -> adds_only (Out_Null m).
Proof. intros Hm category st H. apply Hm, H. Qed.

Lemma adds_only_foreach {A B} (xs : list A) (body : A -> Runner B) :
  (forall x, adds_only (body x)) -> adds_only (foreach xs body).
Proof.
  intros Hbody. induction xs as [|x xs IH]; simpl.
  - apply adds_only_ret.
  - apply adds_only_bind; [apply Hbody | intros _; exact IH].
Qed.

Lemma adds_only_Add_TestResult (Test : string) (Passed : bool) (Reason : string) :
  adds_only (Add_TestResult Test Passed Reason).
Proof. intros category st H. apply reach_add, H. Qed.

Create HintDb checks discriminated.
#[local] Hint Unfold
  Security.Test_NonRootUser Security.Test_Capabilities
  Security.Test_SecurityOptions Security.Test_ResourceLimits
  Security.Test_ReadOnlyRootFS
  MultiStage.Test_MultiStageDetection MultiStage.Test_AlpineBaseImage
  MultiStage.Test_ImageSize MultiStage.Test_LayerCount
  Environment.Test_DockerfileSecrets Environment.Test_EnvFileExists
  Environment.Test_EnvFileSecrets Environment.Test_ContainerEnvironment
  Environment.Test_DockerfileEnvUsage
  Orchestration.Test_ComposeFileExists Orchestration.Test_ServiceCount
  Orchestration.Test_RestartPolicies Orchestration.Test_NetworksDefined
  Orchestration.Test_VolumesDefined Orchestration.Test_HealthChecks
  Orchestration.Test_DependsOn : checks.

(** Walks through a runner computation down to its [Add-TestResult]s. *)
Ltac adds_only_walk :=
  repeat match goal with
         | |- adds_only (ret _) => apply adds_only_ret
         | |- adds_only (Add_TestResult _ _ _) => apply adds_only_Add_TestResult
         | |- adds_only (Out_Null _) => apply adds_only_Out_Null
         | |- adds_only (foreach _ _) => apply adds_only_foreach; intros ?
         | |- adds_only (bind _ _) => apply adds_only_bind; [|intros ?]
         | |- adds_only (if ?b then _ else _) => destruct b
         | |- adds_only (match ?x with _ => _ end) => destruct x
         | |- adds_only _ => progress autounfold with checks
         end.

Lemma adds_only_Security_steps (w : Security.World) (containerList : list string) :
  adds_only (Security.steps w containerList).
Proof. unfold Security.steps. adds_only_walk. Qed.

Lemma adds_only_MultiStage_steps (w : MultiStage.World)
  (dockerfileList imageList : PS.strings) :
  adds_only (MultiStage.steps w dockerfileList imageList).
Proof. unfold MultiStage.steps. adds_only_walk. Qed.

Lemma adds_only_Environment_steps (w : Environment.World)
  (dockerfileList containerList : PS.strings) :
  adds_only (Environment.steps w dockerfileList containerList).
Proof. unfold Environment.steps. adds_only_walk. Qed.

Lemma adds_only_Orchestration_steps (f : Orchestration.ComposeFile) :
  adds_only (Orchestration.steps f).
Proof. unfold Orchestration.steps. adds_only_walk. Qed.

(* ================================================================== *)
(** ** The category score *)
(* ================================================================== *)

Lemma totalPercentage_eq (st : TestResults.t) :
  TestResults.Steps st <> [] ->
  totalPercentage st =
  Double.Round (Double.ratio100 (TestResults.Passed st) (Steps_Count st)) 1.
Proof.
  intros Hne. unfold totalPercentage, Steps_Count.
  destruct (TestResults.Steps st) as [|r steps]; [congruence|]. reflexivity.
Qed.

(** With no recorded check the score is 0 and the runner exits with 1. *)
Lemma final_report_empty (st : TestResults.t) :
  TestResults.Steps st = [] ->
  totalPercentage st = Double.of_Z 0 /\ exit_code (final_report st) = 1.
Proof.
  intros Hnil. unfold final_report, totalPercentage, Steps_Count. rewrite Hnil.
  split; reflexivity.
Qed.

Lemma upto_In (n : nat) (z : Z) : 0 <= z < Z.of_nat n -> In z (upto n).
Proof.
  intros Hz. unfold upto. apply in_map_iff. exists (Z.to_nat z).
  split; [lia | apply in_seq; lia].
Qed.

Lemma passes_le (steps : list Result.t) : 0 <= passes steps <= Z.of_nat (length steps).
Proof.
  unfold passes. split; [lia|]. apply inj_le, filter_length_le.
Qed.

Lemma of_Z_succ (z : Z) : (Uint63.of_Z z + 1)%uint63 = Uint63.of_Z (z + 1).
Proof.
  apply Uint63.to_Z_inj. rewrite Uint63.add_spec, !Uint63.of_Z_spec.
  change (Uint63.to_Z 1) with 1. apply Zplus_mod_idemp_l.
Qed.

Lemma scores_nearest_sound (fuel : nat) (p0 : Z) (t : int) :
  scores_nearest fuel (Uint63.of_Z p0) t = true ->
  forall p, p0 <= p < p0 + Z.of_nat fuel -> score_is_nearest (Uint63.of_Z p) t = true.
Proof.
  revert p0. induction fuel as [|fuel IH]; intros p0 H p Hp; [lia|].
  cbn [scores_nearest] in H. apply andb_true_iff in H as [Hhere Hnext].
  destruct (Z.eq_dec p p0) as [->|Hne]; [exact Hhere|].
  rewrite of_Z_succ in Hnext. apply (IH (p0 + 1) Hnext). lia.
Qed.

Lemma reports_nearest_sound (fuel n : nat) :
  reports_nearest fuel n (Uint63.of_Z (Z.of_nat n)) = true ->
  forall t p, Z.of_nat n <= t < Z.of_nat n + Z.of_nat fuel -> 0 <= p <= t ->
              score_is_nearest (Uint63.of_Z p) (Uint63.of_Z t) = true.
Proof.
  revert n. induction fuel as [|fuel IH]; intros n H t p Ht Hp; [lia|].
  cbn [reports_nearest] in H. apply andb_true_iff in H as [Hhere Hnext].
  destruct (Z.eq_dec t (Z.of_nat n)) as [->|Hne].
  - apply (scores_nearest_sound (S n) 0 _ Hhere). lia.
  - rewrite of_Z_succ in Hnext.
    replace (Z.of_nat n + 1) with (Z.of_nat (S n)) in Hnext by lia.
    apply (IH (S n) Hnext); lia.
Qed.

(** The double arithmetic of the score, tried on every report of up to
    2000 checks. *)
Lemma reports_nearest_upto_2000 : reports_nearest 2000 1 1%uint63 = true.
Proof. vm_cast_no_check (eq_refl true). Qed.

(** What the decision on machine integers says about the score. *)
Lemma score_is_nearest_sound (p t : Z) :
  0 <= p <= t -> 1 <= t <= 2000 ->
  score_is_nearest (Uint63.of_Z p) (Uint63.of_Z t) = true ->
  exists k, 0 <= k <= 1001 /\ nearest_tenths p t k
            /\ Double.Round (Double.ratio100 p t) 1 = tenths k.
Proof.
  intros Hp Ht H. unfold score_is_nearest in H. cbv zeta in H.
  assert (Hwb : Uint63.wB = 9223372036854775808) by reflexivity.
  assert (Ep : Uint63.to_Z (Uint63.of_Z p) = p)
    by (rewrite Uint63.of_Z_spec; apply Z.mod_small; lia).
  assert (Et : Uint63.to_Z (Uint63.of_Z t) = t)
    by (rewrite Uint63.of_Z_spec; apply Z.mod_small; lia).
  set (k0 := (1000 * Uint63.of_Z p / Uint63.of_Z t)%uint63) in H.
  assert (Ek0 : Uint63.to_Z k0 = 1000 * p / t).
  { subst k0. rewrite Uint63.div_spec, Uint63.mul_spec, Ep, Et.
    change (Uint63.to_Z 1000) with 1000. rewrite Z.mod_small by lia. reflexivity. }
  assert (Hk0 : 0 <= 1000 * p / t <= 1000).
  { split; [apply Z.div_pos; lia|]. apply Z.div_le_upper_bound; lia. }
  assert (Ek1 : Uint63.to_Z (k0 + 1)%uint63 = 1000 * p / t + 1).
  { rewrite Uint63.add_spec, Ek0. change (Uint63.to_Z 1) with 1.
    apply Z.mod_small. lia. }
  assert (Hnear : forall k : int,
            0 <= Uint63.to_Z k <= 1001 ->
            (2 * k * Uint63.of_Z t <=? 2000 * Uint63.of_Z p + Uint63.of_Z t)%uint63
            && (2000 * Uint63.of_Z p <=? 2 * k * Uint63.of_Z t + Uint63.of_Z t)%uint63
            && PrimFloat.Leibniz.eqb
                 (Double.Round
                    (PrimFloat.mul (PrimFloat.div (PrimFloat.of_uint63 (Uint63.of_Z p))
                                                  (PrimFloat.of_uint63 (Uint63.of_Z t)))
                                   (Double.of_Z 100)) 1)
                 (PrimFloat.div (PrimFloat.of_uint63 k) (Double.of_Z 10)) = true ->
            exists k, 0 <= k <= 1001 /\ nearest_tenths p t k
                      /\ Double.Round (Double.ratio100 p t) 1 = tenths k).
  { intros k Hk Hok. apply andb_true_iff in Hok as [Hok Heq].
    apply andb_true_iff in Hok as [Hle1 Hle2].
    apply Uint63.leb_spec in Hle1, Hle2.
    rewrite !Uint63.add_spec, !Uint63.mul_spec, Ep, Et in Hle1, Hle2.
    change (Uint63.to_Z 2) with 2 in *. change (Uint63.to_Z 2000) with 2000 in *.
    rewrite (Z.mod_small (2 * Uint63.to_Z k)) in Hle1, Hle2 by lia.
    rewrite (Z.mod_small (2 * Uint63.to_Z k * t)) in Hle1, Hle2 by nia.
    rewrite (Z.mod_small (2000 * p)) in Hle1, Hle2 by lia.
    rewrite (Z.mod_small (2000 * p + t)) in Hle1 by lia.
    rewrite (Z.mod_small (2 * Uint63.to_Z k * t + t)) in Hle2 by nia.
    apply FloatAxioms.Leibniz.eqb_spec in Heq.
    exists (Uint63.to_Z k). split; [exact Hk|]. split.
    - unfold nearest_tenths. lia.
    - unfold tenths, Double.of_Z at 1. rewrite Uint63.of_to_Z. exact Heq. }
  apply orb_true_iff in H as [H|H]; [apply (Hnear k0) | apply (Hnear (k0 + 1)%uint63)];
    try exact H; lia.
Qed.

(** On a report of up to 2000 checks, the double the runner computes is
    the double of a closest one-decimal value to the exact percentage
    (which of the two closest ones, when the percentage falls half-way,
    is left to the rounding errors of the division). *)
Lemma score_nearest_tenth (p t : Z) :
  0 <= p <= t -> 1 <= t <= 2000 ->
  exists k, 0 <= k <= 1000 /\ nearest_tenths p t k
            /\ Double.Round (Double.ratio100 p t) 1 = tenths k.
Proof.
  intros Hp Ht.
  destruct (score_is_nearest_sound p t Hp Ht) as [k [Hk [Hnear Heq]]].
  { apply (reports_nearest_sound 2000 1 reports_nearest_upto_2000); lia. }
  exists k. split; [|split; assumption].
  destruct (Z.eq_dec k 1001) as [->|Hne]; [|lia].
  unfold nearest_tenths in Hnear. lia.
Qed.

(** C3: for every category report with at least one recorded check, the
    score the runner prints is [round(passed / total * 100, 1)], where
    [passed] is the number of recorded checks that passed and [total] the
    number of recorded checks.  The rounding is to one decimal: on a
    report of up to 2000 checks the score is the double [k / 10] of a
    whole number [k] of tenths between 0 and 1000, and no one-decimal
    value is closer to the exact percentage than [k / 10].  A report with
    7 passed checks out of 10 scores exactly 70.0 (and the runner then
    exits with 0). *)
Theorem category_score (category : string) (st : TestResults.t) :
  reachable category st ->
  TestResults.Steps st <> [] ->
  totalPercentage st =
    Double.Round (Double.ratio100 (passes (TestResults.Steps st))
                                  (Z.of_nat (length (TestResults.Steps st)))) 1
  /\ (Z.of_nat (length (TestResults.Steps st)) <= 2000 ->
      exists k, 0 <= k <= 1000
                /\ nearest_tenths (passes (TestResults.Steps st))
                                  (Z.of_nat (length (TestResults.Steps st))) k
                /\ totalPercentage st = tenths k)
  /\ (passes (TestResults.Steps st) = 7 ->
      length (TestResults.Steps st) = 10%nat ->
      totalPercentage st = 70%float /\ exit_code (final_report st) = 0).
Proof.
  intros Hreach Hne.
  pose proof (reachable_accumulator_ok category st Hreach) as Hok.
  assert (Hscore : totalPercentage st =
                   Double.Round (Double.ratio100 (passes (TestResults.Steps st))
                     (Z.of_nat (length (TestResults.Steps st)))) 1).
  { rewrite totalPercentage_eq by exact Hne.
    rewrite (passed_is_passes st Hok). reflexivity. }
  split; [exact Hscore|]. split.
  - intros Hsize. rewrite Hscore. apply score_nearest_tenth.
    + apply passes_le.
    + split; [|exact Hsize]. destruct (TestResults.Steps st); [congruence | simpl; lia].
  - intros H7 H10. unfold final_report. simpl exit_code.
    rewrite Hscore, H7, H10. split; vm_compute; reflexivity.
Qed.

Lemma category_score_witness :
  (totalPercentage seven_of_ten = 70%float /\ exit_code (final_report seven_of_ten) = 0)
  /\ exists k, 0 <= k <= 1000 /\ nearest_tenths 2 3 k
               /\ totalPercentage two_of_three = tenths k.
Proof.
  assert (Hadds : forall l category,
            reachable category
              (snd (foreach l (fun ok : bool => Add_TestResult "check" ok "")
                      (TestResults.init category)))).
  { intros l category. apply adds_only_foreach; [|apply reach_init].
    intros ok. apply adds_only_Add_TestResult. }
  split.
  - assert (Hne : TestResults.Steps seven_of_ten <> []) by (vm_compute; discriminate).
    apply (proj2 (proj2 (category_score "SECURITY" seven_of_ten (Hadds _ _) Hne)));
      reflexivity.
  - assert (Hne : TestResults.Steps two_of_three <> []) by (vm_compute; discriminate).
    apply (proj1 (proj2 (category_score "SECURITY" two_of_three (Hadds _ _) Hne))).
    simpl. lia.
Defined.

(** Two passed checks out of three score 66.7, the double of 667
    tenths, which the quotient times 100 is not. *)
Lemma score_2_of_3 :
  totalPercentage two_of_three = tenths 667
  /\ Double.ratio100 2 3 <> tenths 667.
Proof.
  split; [vm_compute; reflexivity|].
  intros H. apply (f_equal (fun x => PrimFloat.eqb x (tenths 667))) in H.
  vm_compute in H. discriminate.
Qed.

(** A percentage that falls half-way between two tenths: 23 passed out
    of 80 is 28.75 exactly; the double quotient times 100 lies just
    below, and the score printed is 28.7. *)
Lemma score_23_of_80 :
  Double.Round (Double.ratio100 23 80) 1 = tenths 287
  /\ PrimFloat.ltb (Double.ratio100 23 80) 28.75%float = true
  /\ nearest_tenths 23 80 287 /\ nearest_tenths 23 80 288.
Proof.
  split; [vm_compute; reflexivity|]. split; [vm_compute; reflexivity|].
  unfold nearest_tenths. split; simpl; lia.
Qed.

(* ================================================================== *)
(** ** The invariant of Add-TestResult *)
(* ================================================================== *)

(** What a runner hands to the final report has been built by
    [Add-TestResult] alone. *)
Lemma Security_report_reachable (w : Security.World) (st : TestResults.t) :
  report (Security.main w) = Some st -> reachable "SECURITY" st.
Proof.
  unfold Security.main.
  destruct (negb _ || _); simpl; [discriminate|].
  intros [= <-]. apply adds_only_Security_steps, reach_init.
Qed.

Lemma MultiStage_report_reachable (w : MultiStage.World) (st : TestResults.t) :
  report (MultiStage.main w) = Some st -> reachable "MULTI-STAGE BUILD" st.
Proof.
  unfold MultiStage.main.
  destruct (negb _ || _); simpl; [discriminate|].
  intros [= <-]. apply adds_only_MultiStage_steps, reach_init.
Qed.

Lemma Environment_report_reachable (w : Environment.World) (st : TestResults.t) :
  report (Environment.main w) = Some st -> reachable "ENVIRONMENT CONFIGURATION" st.
Proof.
  unfold Environment.main, final_report. cbn [report].
  intros H.
  replace st with (snd (Environment.steps w (Environment.Get_DockerfileList w)
                          (Environment.Get_ContainerList w)
                          (TestResults.init "ENVIRONMENT CONFIGURATION")))
    by congruence.
  apply adds_only_Environment_steps, reach_init.
Qed.

Lemma Orchestration_report_reachable (w : Orchestration.World) (st : TestResults.t) :
  report (Orchestration.main w) = Some st -> reachable "ORCHESTRATION" st.
Proof.
  unfold Orchestration.main, final_report, hard_failure.
  destruct (negb _); cbn [report]; [discriminate|].
  intros H.
  replace st with (snd (Orchestration.steps (Orchestration.compose w)
                          (TestResults.init "ORCHESTRATION")))
    by congruence.
  apply adds_only_Orchestration_steps, reach_init.
Qed.

(** C10: after every call of [Add-TestResult], in whatever runner, the
    accumulator satisfies [TotalTests = Passed + Failed = Steps.Count];
    every recorded result is a pass or a fail, with the matching status
    (no third outcome is ever appended); and the counters [Passed] and
    [Failed] count the recorded passes and fails, so that the denominator
    of the score, [Steps.Count], is the number of recorded checks. *)
Theorem Add_TestResult_invariant (category : string) (st : TestResults.t) :
  reachable category st ->
  TestResults.TotalTests st = TestResults.Passed st + TestResults.Failed st
  /\ TestResults.TotalTests st = Steps_Count st
  /\ Forall pass_or_fail (TestResults.Steps st)
  /\ TestResults.Passed st = passes (TestResults.Steps st)
  /\ TestResults.Failed st = fails (TestResults.Steps st)
  /\ Steps_Count st = passes (TestResults.Steps st) + fails (TestResults.Steps st).
Proof.
  intros Hreach.
  destruct (reachable_accumulator_ok category st Hreach)
    as [Hsum Hcount Hpass Hfail Hbin].
  repeat split; try assumption.
  unfold Steps_Count. symmetry. apply passes_fails.
Qed.

Lemma Add_TestResult_invariant_witness :
  let st := snd (Add_TestResult "Capabilities: api" false "Missing cap_drop: ALL"
                   (snd (Add_TestResult "Non-root user: api" true ""
                           (TestResults.init "SECURITY")))) in
  TestResults.TotalTests st = 2
  /\ TestResults.TotalTests st = TestResults.Passed st + TestResults.Failed st
  /\ TestResults.TotalTests st = Steps_Count st
  /\ Forall pass_or_fail (TestResults.Steps st).
Proof.
  intros st.
  assert (Hreach : reachable "SECURITY" st)
    by (apply reach_add, reach_add, reach_init).
  destruct (Add_TestResult_invariant "SECURITY" st Hreach) as (H1 & H2 & H3 & _).
  split; [reflexivity|]. split; [exact H1|]. split; [exact H2 | exact H3].
Defined.

(* ================================================================== *)
(** ** Runners without targets *)
(* ================================================================== *)

Lemma adds_Add_TestResult (Test : string) (Passed : bool) (Reason : string) :
  adds 1 (Add_TestResult Test Passed Reason).
Proof.
  intros st. rewrite Add_TestResult_eq. simpl. rewrite length_app. reflexivity.
Qed.

Lemma adds_ret {A} (a : A) : adds 0 (ret a).
Proof. intros st. simpl. lia. Qed.

Lemma adds_bind {A B} (n k : nat) (m : Runner A) (f : A -> Runner B) :
  adds n m -> (forall a, adds k (f a)) -> adds (n + k) (bind m f).
Proof.
  intros Hm Hf st. unfold bind. specialize (Hm st).
  destruct (m st) as [a st']. simpl in Hm. rewrite Hf, Hm. lia.
Qed.

Lemma adds_Out_Null {A} (n : nat) (m : Runner A) : adds n m -> adds n (Out_Null m).
Proof. intros Hm st. apply Hm. Qed.

Lemma adds_foreach {A B} (xs : list A) (body : A -> Runner B) :
  (forall x, adds 1 (body x)) -> adds (length xs) (foreach xs body).
Proof.
  intros Hbody. induction xs as [|x xs IH]; simpl.
  - apply adds_ret.
  - apply (adds_bind 1 (length xs)); [apply Hbody | intros _; exact IH].
Qed.

(** Every check of the two runners records exactly one result. *)
Ltac adds_check :=
  apply adds_Out_Null; autounfold with checks;
  repeat match goal with
         | |- adds 1 (Add_TestResult _ _ _) => apply adds_Add_TestResult
         | |- adds 1 (if ?b then _ else _) => destruct b
         | |- adds 1 (match ?x with _ => _ end) => destruct x
         end.

Lemma Security_steps_adds (w : Security.World) (containerList : list string) :
  adds (5 * length containerList) (Security.steps w containerList).
Proof.
  replace (5 * length containerList)%nat
    with (length containerList + (length containerList + (length containerList
          + (length containerList + length containerList))))%nat by lia.
  unfold Security.steps.
  repeat (apply adds_bind; [|intros _]); apply adds_foreach; intros x; adds_check.
Qed.

Lemma MultiStage_steps_adds (w : MultiStage.World)
  (dockerfileList imageList : PS.strings) :
  exists n : nat,
    adds (2 * length (PS.items dockerfileList) + n)
         (MultiStage.steps w dockerfileList imageList).
Proof.
  unfold MultiStage.steps.
  destruct (PS.truthy imageList && (0 <? PS.Count imageList)).
  - exists (length (PS.items imageList) + length (PS.items imageList))%nat.
    replace (2 * length (PS.items dockerfileList)
             + (length (PS.items imageList) + length (PS.items imageList)))%nat
      with (length (PS.items dockerfileList) + (length (PS.items dockerfileList)
            + (length (PS.items imageList) + length (PS.items imageList))))%nat by lia.
    repeat (apply adds_bind; [|intros _]); apply adds_foreach; intros x; adds_check.
  - exists 0%nat.
    replace (2 * length (PS.items dockerfileList) + 0)%nat
      with (length (PS.items dockerfileList) + (length (PS.items dockerfileList)
            + (0 + 0)))%nat by lia.
    repeat (apply adds_bind; [|intros _]);
      first [apply adds_ret | apply adds_foreach; intros x; adds_check].
Qed.

Lemma truthy_items_nil (v : PS.strings) : PS.items v = [] -> PS.truthy v = false.
Proof. destruct v as [[|x l]|]; simpl; [reflexivity | discriminate | reflexivity]. Qed.

Lemma truthy_items_cons (v : PS.strings) : PS.truthy v = true -> PS.items v <> [].
Proof. destruct v as [[|x l]|]; simpl; discriminate. Qed.

Lemma Environment_steps_adds (w : Environment.World)
  (dockerfileList containerList : PS.strings) :
  exists n : nat, adds (1 + n) (Environment.steps w dockerfileList containerList).
Proof.
  unfold Environment.steps.
  assert (Hsecrets : adds (length (PS.items dockerfileList))
            (foreach (PS.items dockerfileList) (fun dockerfile =>
               Out_Null (Environment.Test_DockerfileSecrets
                           (Environment.file w dockerfile)
                           (Environment.secrets w dockerfile)))))
    by (apply adds_foreach; intros x; adds_check).
  assert (Husage : adds (length (PS.items dockerfileList))
            (foreach (PS.items dockerfileList) (fun dockerfile =>
               Out_Null (Environment.Test_DockerfileEnvUsage
                           (Environment.file w dockerfile)))))
    by (apply adds_foreach; intros x; adds_check).
  assert (Hexists : adds 1 (Out_Null (Environment.Test_EnvFileExists
                                        (Environment.envFile w))))
    by adds_check.
  assert (Hfile : exists a, adds a
            (if Environment.env_present (Environment.envFile w)
             then Out_Null (Environment.Test_EnvFileSecrets (Environment.envFile w))
             else ret tt)).
  { destruct (Environment.env_present _) eqn:E.
    - exists 1%nat. apply adds_Out_Null. unfold Environment.Test_EnvFileSecrets.
      rewrite E. apply adds_Add_TestResult.
    - exists 0%nat. apply adds_ret. }
  assert (Hcontainers : exists b, adds b
            (if PS.truthy containerList && (0 <? PS.Count containerList)
             then foreach (PS.items containerList) (fun container_ =>
                    Out_Null (Environment.Test_ContainerEnvironment container_
                                (Environment.container w container_)))
             else ret tt)).
  { destruct (PS.truthy containerList && _).
    - eexists. apply adds_foreach. intros x. adds_check.
    - exists 0%nat. apply adds_ret. }
  destruct Hfile as [a Hfile]. destruct Hcontainers as [b Hcontainers].
  exists (length (PS.items dockerfileList) + a
          + (length (PS.items dockerfileList) + b))%nat.
  replace (1 + (length (PS.items dockerfileList) + a
                + (length (PS.items dockerfileList) + b)))%nat
    with (length (PS.items dockerfileList)
          + (1 + (a + (length (PS.items dockerfileList) + b))))%nat by lia.
  repeat (apply adds_bind; [|intros _]); assumption.
Qed.

Lemma Orchestration_steps_adds (f : Orchestration.ComposeFile) :
  adds 7 (Orchestration.steps f).
Proof.
  unfold Orchestration.steps.
  change 7%nat with (1 + (1 + (1 + (1 + (1 + (1 + 1))))))%nat.
  repeat (apply adds_bind; [|intros _]); adds_check.
Qed.

(** C5 (as amended): the security audit without [-Containers] and
    without running containers, the multi-stage audit without
    [-Dockerfiles] and without a Dockerfile found, and the orchestration
    audit without a compose file end in a hard failure: they exit with
    status 1 before any check and print no report.  The environment
    audit has no such guard: it always checks the environment file, so
    its report is never empty either.  None of these four runners
    reports a score over no result at all: a printed report holds at
    least one result, and the final report over none would score 0 and
    exit with 1.  The capabilities audit has no guard and no such
    report: when none of its three services has a container that can be
    inspected, its global report reads a score of 0 out of 0, 0 percent,
    and it exits with status 2. *)
Theorem no_target_hard_failure :
  (forall w : Security.World,
      PS.items (Security.Containers w) = [] ->
      PS.items (Security.running w) = [] ->
      Security.main w = hard_failure)
  /\ (forall w : MultiStage.World,
         PS.items (MultiStage.Dockerfiles w) = [] ->
         PS.items (MultiStage.found w) = [] ->
         MultiStage.main w = hard_failure)
  /\ (forall w : Orchestration.World,
         Orchestration.ComposeFile_given w = false ->
         Orchestration.default_present w = false ->
         Orchestration.main w = hard_failure)
  /\ (exit_code hard_failure = 1 /\ report hard_failure = None)
  /\ (forall (w : Security.World) (st : TestResults.t),
         report (Security.main w) = Some st -> TestResults.Steps st <> [])
  /\ (forall (w : MultiStage.World) (st : TestResults.t),
         report (MultiStage.main w) = Some st -> TestResults.Steps st <> [])
  /\ (forall (w : Orchestration.World) (st : TestResults.t),
         report (Orchestration.main w) = Some st -> TestResults.Steps st <> [])
  /\ (forall (w : Environment.World) (st : TestResults.t),
         report (Environment.main w) = Some st -> TestResults.Steps st <> [])
  /\ (forall st : TestResults.t,
         TestResults.Steps st = [] ->
         totalPercentage st = Double.of_Z 0 /\ exit_code (final_report st) = 1)
  /\ (forall compose : string -> SecurityCaps.Lookup,
         (forall ServiceName, In ServiceName ["api"; "frontend"; "db"] ->
                              ~ found (compose ServiceName)) ->
         SecurityCaps.global_report compose
         = SecurityCaps.mkGlobal (Double.of_Z 0) 0 (Double.of_Z 0)
         /\ SecurityCaps.main compose = 2).
Proof.
  split; [|split; [|split; [|split; [|split; [|split; [|split; [|split; [|split]]]]]]]].
  - intros w HC Hr. unfold Security.main, Security.Get_ContainerList.
    rewrite (truthy_items_nil _ HC), (truthy_items_nil _ Hr). reflexivity.
  - intros w HD Hf. unfold MultiStage.main, MultiStage.Get_DockerfileList.
    rewrite (truthy_items_nil _ HD).
    destruct (MultiStage.found w) as [[|x l]|]; simpl in Hf; try discriminate;
      reflexivity.
  - intros w Hgiven Hdefault.
    unfold Orchestration.main, Orchestration.Get_ComposeFilePath.
    rewrite Hgiven, Hdefault. reflexivity.
  - split; reflexivity.
  - intros w st. unfold Security.main.
    set (containerList := if PS.truthy (Security.Containers w) then _ else _).
    destruct (PS.truthy containerList) eqn:Ht; simpl; [|discriminate].
    destruct (PS.Count containerList =? 0) eqn:Hc; simpl; [discriminate|].
    intros [= <-] Hnil.
    pose proof (Security_steps_adds w (PS.items containerList)
                  (TestResults.init "SECURITY")) as Hlen.
    rewrite Hnil in Hlen. simpl in Hlen.
    apply truthy_items_cons in Ht. destruct (PS.items containerList); [congruence|].
    simpl in Hlen. lia.
  - intros w st. unfold MultiStage.main.
    set (dockerfileList := MultiStage.Get_DockerfileList w).
    destruct (PS.truthy dockerfileList) eqn:Ht; simpl; [|discriminate].
    destruct (PS.Count dockerfileList =? 0) eqn:Hc; simpl; [discriminate|].
    intros [= <-] Hnil.
    destruct (MultiStage_steps_adds w dockerfileList (MultiStage.Get_ImageList w))
      as [n Hadds].
    specialize (Hadds (TestResults.init "MULTI-STAGE BUILD")).
    rewrite Hnil in Hadds. simpl in Hadds.
    apply truthy_items_cons in Ht. destruct (PS.items dockerfileList); [congruence|].
    simpl in Hadds. lia.
  - intros w st. unfold Orchestration.main, final_report, hard_failure.
    destruct (negb _); cbn [report]; [discriminate|].
    intros H Hnil.
    pose proof (Orchestration_steps_adds (Orchestration.compose w)
                  (TestResults.init "ORCHESTRATION")) as Hlen.
    replace (snd (Orchestration.steps (Orchestration.compose w)
                    (TestResults.init "ORCHESTRATION"))) with st in Hlen
      by congruence.
    rewrite Hnil in Hlen. simpl in Hlen. lia.
  - intros w st. unfold Environment.main, final_report. cbn [report].
    intros H Hnil.
    destruct (Environment_steps_adds w (Environment.Get_DockerfileList w)
                (Environment.Get_ContainerList w)) as [n Hadds].
    specialize (Hadds (TestResults.init "ENVIRONMENT CONFIGURATION")).
    replace (snd (Environment.steps w (Environment.Get_DockerfileList w)
                    (Environment.Get_ContainerList w)
                    (TestResults.init "ENVIRONMENT CONFIGURATION"))) with st in Hadds
      by congruence.
    rewrite Hnil in Hadds. simpl in Hadds. lia.
  - apply final_report_empty.
  - intros compose Hnone.
    pose proof (Hnone "api" ltac:(simpl; auto)) as Hapi.
    pose proof (Hnone "frontend" ltac:(simpl; auto)) as Hfrontend.
    pose proof (Hnone "db" ltac:(simpl; auto)) as Hdb.
    unfold SecurityCaps.main, SecurityCaps.global_report. cbn [map].
    destruct (compose "api"); [| |destruct Hapi; exact I];
      (destruct (compose "frontend"); [| |destruct Hfrontend; exact I]);
      (destruct (compose "db"); [| |destruct Hdb; exact I]);
      split; vm_compute; reflexivity.
Qed.

Lemma no_target_hard_failure_witness :
  exit_code (Security.main nothing_runs) = 1 /\ report (Security.main nothing_runs) = None.
Proof.
  rewrite (proj1 no_target_hard_failure nothing_runs); [|reflexivity|reflexivity].
  split; reflexivity.
Defined.

(** C5 (where the claim as stated fails): the environment audit that
    resolves no Dockerfile and no container does not end in a hard
    failure: it reports the two checks of the environment file, scores
    100 and exits with 0. *)
Lemma no_target_counterexample :
  PS.items (Environment.Get_DockerfileList only_env_file) = []
  /\ PS.items (Environment.Get_ContainerList only_env_file) = []
  /\ Environment.main only_env_file
     = mkExit 0 (Some (TestResults.mk "ENVIRONMENT CONFIGURATION" 2 2 0
                         [Result.mk "Environment file exists" "OK" true "";
                          Result.mk "Environment file security" "OK" true ""]))
  /\ totalPercentage
       (TestResults.mk "ENVIRONMENT CONFIGURATION" 2 2 0
          [Result.mk "Environment file exists" "OK" true "";
           Result.mk "Environment file security" "OK" true ""])
     = 100%float.
Proof. repeat split; vm_compute; reflexivity. Qed.

(* ================================================================== *)
(** ** The suite aggregator *)
(* ================================================================== *)

Lemma run_tests_acc (StopOnFailure : bool) (world : Suite.TestFile -> Suite.Run)
  (files : list Suite.TestFile) (acc : list Suite.Result) :
  Suite.run_tests StopOnFailure world files acc
  = (acc ++ Suite.run_tests StopOnFailure world files [])%list.
Proof.
  revert acc. induction files as [|f files IH]; intros acc; simpl.
  - rewrite app_nil_r. reflexivity.
  - destruct (world f) as [|exitCode|message]; [|destruct (exitCode =? 0)|];
      try destruct StopOnFailure;
      rewrite ?(IH (acc ++ _)%list), ?(IH [_]), <- ?app_assoc; reflexivity.
Qed.

(** The loop, one test file at a time: the file's entry is recorded, and
    the rest is run unless the file failed under [-StopOnFailure]. *)
Lemma run_tests_cons (StopOnFailure : bool) (world : Suite.TestFile -> Suite.Run)
  (f : Suite.TestFile) (files : list Suite.TestFile) :
  Suite.run_tests StopOnFailure world (f :: files) []
  = result_of world f
    :: (if StopOnFailure && failed_run (world f) then []
        else Suite.run_tests StopOnFailure world files []).
Proof.
  simpl. unfold result_of, failed_run.
  destruct (world f) as [|exitCode|message]; [|destruct (exitCode =? 0)|];
    try destruct StopOnFailure; simpl; rewrite ?(run_tests_acc _ _ _ [_]);
    reflexivity.
Qed.

(** As long as no file fails under [-StopOnFailure], every file gets its
    entry, in order. *)
Lemma run_tests_reaches (StopOnFailure : bool) (world : Suite.TestFile -> Suite.Run)
  (before rest : list Suite.TestFile) :
  (forall g, In g before -> StopOnFailure && failed_run (world g) = false) ->
  Suite.run_tests StopOnFailure world (before ++ rest) []
  = (map (result_of world) before ++ Suite.run_tests StopOnFailure world rest [])%list.
Proof.
  induction before as [|g before IH]; intros Hgo; [reflexivity|].
  simpl app. rewrite run_tests_cons, (Hgo g) by (left; reflexivity).
  rewrite IH by (intros g' Hg'; apply Hgo; right; exact Hg'). reflexivity.
Qed.

(** What the loop does when it comes to a category, having stopped at
    none before.  A category whose script file is missing is recorded as
    failed with status [FILE NOT FOUND], and the remaining categories are
    run exactly as they would have been, with or without
    [-StopOnFailure].  A category that fails otherwise (its script exits
    with a non-zero status or raises) is, under [-StopOnFailure], the last
    one recorded.  Without [-StopOnFailure] every category is recorded. *)
Lemma missing_file_and_stop_on_failure
  (StopOnFailure : bool) (world : Suite.TestFile -> Suite.Run)
  (before after : list Suite.TestFile) (f : Suite.TestFile) :
  (forall g, In g before -> StopOnFailure && failed_run (world g) = false) ->
  let Results := Suite.run_tests StopOnFailure world (before ++ f :: after) [] in
  (world f = Suite.FileMissing ->
     Results = (map (result_of world) before
                ++ Suite.mkResult (Suite.Name f) false "FILE NOT FOUND" (-1)
                   :: Suite.run_tests StopOnFailure world after [])%list)
  /\ (failed_run (world f) = true -> StopOnFailure = true ->
        Suite.Passed (result_of world f) = false
        /\ Results = (map (result_of world) before ++ [result_of world f])%list)
  /\ (StopOnFailure = false ->
        Results = map (result_of world) (before ++ f :: after)).
Proof.
  intros Hgo Results. subst Results.
  rewrite run_tests_reaches by exact Hgo. rewrite run_tests_cons.
  split; [|split].
  - intros Hmissing. unfold result_of. rewrite Hmissing. simpl.
    rewrite andb_false_r. reflexivity.
  - intros Hfailed Hstop. split.
    + unfold result_of, failed_run in *.
      destruct (world f) as [|exitCode|message]; try discriminate; [|reflexivity].
      destruct (exitCode =? 0); [discriminate | reflexivity].
    + rewrite Hfailed, Hstop. reflexivity.
  - intros ->. rewrite map_app. simpl. f_equal. f_equal.
    clear. induction after as [|g after IH]; [reflexivity|].
    rewrite run_tests_cons. simpl. rewrite IH. reflexivity.
Qed.

Lemma two_missing_then_failure_Results :
  Suite.run_tests true two_missing_then_failure Suite.TestFiles []
  = [ Suite.mkResult "Non-Root Users" false "FILE NOT FOUND" (-1);
      Suite.mkResult "Security Capabilities" false "FILE NOT FOUND" (-1);
      Suite.mkResult "Security Audit" true "PASSED" 0;
      Suite.mkResult "Security Scan (Trivy)" false "FAILED (Exit: 1)" 1 ].
Proof.
  pose proof (missing_file_and_stop_on_failure true two_missing_then_failure
                (firstn 3 Suite.TestFiles) (skipn 4 Suite.TestFiles)
                (Suite.mkTestFile "Security Scan (Trivy)" "test-security-scan.ps1" "tests"))
    as H.
  simpl in H. apply H; try reflexivity.
  intros g [<- | [<- | [<- | []]]]; reflexivity.
Qed.

(** C6 (what the code does where the claim fails): under
    [-StopOnFailure], with the script of the first category missing, the
    category is recorded as failed with status [FILE NOT FOUND] and the
    seven remaining categories are run all the same, while a first
    category that exits with 1 is the only one recorded. *)
Theorem stop_on_failure_after_missing_file :
  Suite.Results (Suite.main true first_file_missing)
  = [ Suite.mkResult "Non-Root Users" false "FILE NOT FOUND" (-1);
      Suite.mkResult "Security Capabilities" true "PASSED" 0;
      Suite.mkResult "Security Audit" true "PASSED" 0;
      Suite.mkResult "Security Scan (Trivy)" true "PASSED" 0;
      Suite.mkResult "API Functional Tests" true "PASSED" 0;
      Suite.mkResult "Environment Configuration" true "PASSED" 0;
      Suite.mkResult "Multi-Stage Builds" true "PASSED" 0;
      Suite.mkResult "Docker Compose Orchestration" true "PASSED" 0 ]
  /\ Suite.exit_code (Suite.main true first_file_missing) = 1
  /\ Suite.Results (Suite.main true first_file_fails)
     = [ Suite.mkResult "Non-Root Users" false "FAILED (Exit: 1)" 1 ].
Proof.
  unfold Suite.main. cbn [Suite.Results Suite.exit_code].
  split; [|split].
  - pose proof (missing_file_and_stop_on_failure true first_file_missing []
                  (skipn 1 Suite.TestFiles)
                  (Suite.mkTestFile "Non-Root Users" "test-nonroot-users.ps1" "tests"))
      as H.
    destruct H as [Hmissing _]; [intros g []|].
    change (Suite.TestFiles) with
      ([] ++ Suite.mkTestFile "Non-Root Users" "test-nonroot-users.ps1" "tests"
          :: skipn 1 Suite.TestFiles)%list.
    rewrite Hmissing by reflexivity. reflexivity.
  - reflexivity.
  - reflexivity.
Qed.

(** *** The global score and the exit status *)

Lemma pipeline_Count_zero (out : list Suite.Result) :
  PS.pipeline_Count Suite.Hashtable_Count out = 0 <-> out = [].
Proof.
  destruct out as [|r [|r' out]]; simpl; unfold Suite.Hashtable_Count;
    split; intros H; try discriminate; try reflexivity; lia.
Qed.

(** Away from the single-object case the pipeline count is the number of
    objects. *)
Lemma pipeline_Count_length (out : list Suite.Result) :
  length out <> 1%nat ->
  PS.pipeline_Count Suite.Hashtable_Count out = Z.of_nat (length out).
Proof.
  destruct out as [|r [|r' out]]; simpl; intros H;
    [reflexivity | congruence | reflexivity].
Qed.

Lemma no_failed_all_passed (Results : list Suite.Result) :
  List.filter (fun r => negb (Suite.Passed r)) Results = []
  <-> Forall (fun r => Suite.Passed r = true) Results.
Proof.
  induction Results as [|r Results IH]; simpl.
  - split; [constructor | reflexivity].
  - destruct (Suite.Passed r) eqn:Hr; simpl.
    + rewrite IH. split; [intros H; constructor; assumption|].
      intros H. inversion H; assumption.
    + split; [discriminate|]. intros H. inversion H; congruence.
Qed.

(** The exit status of the aggregator is 0 exactly when every recorded
    category passed. *)
Lemma exit_of_all_passed (Results : list Suite.Result) :
  Suite.exit_of Results = 0 <-> Forall (fun r => Suite.Passed r = true) Results.
Proof.
  rewrite <- no_failed_all_passed, <- pipeline_Count_zero.
  unfold Suite.exit_of. destruct (_ =? 0) eqn:E.
  - apply Z.eqb_eq in E. split; [intros _; exact E | reflexivity].
  - apply Z.eqb_neq in E. split; [discriminate | contradiction].
Qed.

(** A recorded category passed exactly when its script ran and exited
    with status 0. *)
Lemma result_passed_exited_0 (world : Suite.TestFile -> Suite.Run) (f : Suite.TestFile) :
  Suite.Passed (result_of world f) = exited_0 (world f).
Proof.
  unfold result_of, exited_0.
  destruct (world f) as [|exitCode|message]; [|destruct (exitCode =? 0)|]; reflexivity.
Qed.

(** When the number of passed categories is not exactly one, the global
    score is 100 for a full pass and the rounded percentage otherwise. *)
Lemma percentage_of_unless_one_passed (Results : list Suite.Result) :
  let passed := List.filter (fun r => Suite.Passed r) Results in
  length passed <> 1%nat ->
  Suite.percentage_of Results =
  if Z.of_nat (length passed) =? Z.of_nat (length Results) then Double.of_Z 100
  else Double.Round (Double.ratio100 (Z.of_nat (length passed))
                                     (Z.of_nat (length Results))) 1.
Proof.
  intros passed Hone. unfold Suite.percentage_of, Suite.passedTests_of.
  fold passed. rewrite pipeline_Count_length by exact Hone. reflexivity.
Qed.

(** C4 (what the code does where the claim fails): when exactly one
    category passes, [(... | Where-Object { $_.Passed }).Count] is the key
    count of that one hashtable, 4.  With one category out of eight
    passing the global score printed is 50 and not
    [round(1/8*100, 1) = 12.5]; and in a run cut short by [-StopOnFailure]
    after two missing files, one pass and one failure, the score printed is
    100 although three of the four recorded categories failed.  The exit
    status is 1 in both runs. *)
Theorem global_score_when_one_category_passes :
  let one_of_eight := Suite.main false only_first_passes in
  let one_of_four := Suite.main true two_missing_then_failure in
  (length (Suite.Results one_of_eight) = 8%nat
   /\ length (List.filter (fun r => Suite.Passed r) (Suite.Results one_of_eight)) = 1%nat
   /\ Suite.percentage one_of_eight = 50%float
   /\ Double.Round (Double.ratio100 1 8) 1 = 12.5%float
   /\ Suite.exit_code one_of_eight = 1)
  /\ (length (Suite.Results one_of_four) = 4%nat
      /\ length (List.filter (fun r => Suite.Passed r) (Suite.Results one_of_four)) = 1%nat
      /\ Suite.percentage one_of_four = 100%float
      /\ Suite.exit_code one_of_four = 1).
Proof. vm_compute. repeat split; reflexivity. Qed.

(** Six categories of which exactly one fails: the global score is
    [round(5/6*100, 1) = 83.3] and the aggregator exits with 1. *)
Lemma global_score_five_of_six (Results : list Suite.Result) :
  length Results = 6%nat ->
  length (List.filter (fun r => Suite.Passed r) Results) = 5%nat ->
  Suite.percentage_of Results = tenths 833 /\ Suite.exit_of Results = 1.
Proof.
  intros H6 H5. split.
  - rewrite percentage_of_unless_one_passed by (rewrite H5; discriminate).
    rewrite H5, H6. vm_compute. reflexivity.
  - destruct (Z.eq_dec (Suite.exit_of Results) 0) as [E|E].
    + apply exit_of_all_passed in E. exfalso.
      assert (List.filter (fun r => Suite.Passed r) Results = Results) as Hall.
      { clear H5 H6. induction E as [|r Results Hr _ IH]; [reflexivity|].
        simpl. rewrite Hr, IH. reflexivity. }
      rewrite Hall in H5. congruence.
    + unfold Suite.exit_of in *. destruct (_ =? 0); congruence.
Qed.

(* ================================================================== *)
(** ** The capabilities checks *)
(* ================================================================== *)

Lemma lower_nonempty (e x : string) :
  lower e = lower x -> x <> EmptyString -> PS.truthy_string e = true.
Proof. destruct e, x; simpl; intros H Hx; congruence. Qed.

(** A list that holds a given non-empty name is true in a condition. *)
Lemma holds_truthy (v : PS.strings) (x : string) :
  x <> EmptyString -> holds (PS.items v) x -> PS.truthy v = true.
Proof.
  intros Hx [e [Hin He]].
  destruct v as [[|e1 [|e2 l]]|]; simpl in *; try contradiction; [|reflexivity].
  destruct Hin as [->|[]]. eapply lower_nonempty; eassumption.
Qed.

Lemma named_truthy (v : PS.strings) :
  named (PS.items v) -> PS.items v <> [] -> PS.truthy v = true.
Proof.
  intros Hn Hne. destruct v as [l|]; [|contradiction].
  apply truthy_named; assumption.
Qed.

Lemma Count_pos (v : PS.strings) : PS.items v <> [] -> (0 <? PS.Count v) = true.
Proof.
  intros Hne. apply Z.ltb_lt. unfold PS.Count.
  destruct (PS.items v); [contradiction | simpl; lia].
Qed.

(** The line of the effective capabilities always splits at its colon:
    reading the mask never raises. *)
Lemma capsHex_of_CapEff (CapEff : option string) :
  exists capsHex, Security.capsHex_of (option_map Security.CapEff_line CapEff)
                  = Some capsHex.
Proof.
  destruct CapEff as [hex|]; simpl; [|eauto].
  destruct (Security.split_colon hex) as [|field fields] eqn:E; simpl; eauto.
Qed.

(** C1 (as amended): for every container that can be inspected, the
    capabilities check of the security audit is a pass or a fail: it
    passes only if the drop-list holds [ALL], and a drop-list without
    [ALL], empty or not, fails it with the reason
    [Missing cap_drop: ALL], whatever the add-list holds.  The graded
    credit is that of the capabilities audit (test-security-caps.ps1):
    its drop-list step grants one point when the drop-list holds [ALL],
    half a point with a warning (two yellow lines, the second
    recommending [ALL]) when the drop-list is not empty and does not hold
    [ALL], and nothing when the drop-list is empty.  Names are compared
    as PowerShell compares them, without case; the drop-list of the
    half-point case is a list of non-empty names, as the engine
    reports. *)
Theorem capabilities_drop_credit (Keys : list string) (Container : string)
  (c : Docker.Container) (hc : Docker.HostConfig) (st : TestResults.t)
  (a : SecurityCaps.Audit) :
  Docker.inspect c = Docker.Inspected hc ->
  let drop := PS.items (Docker.CapDrop hc) in
  let check := Security.Test_Capabilities Keys Container c in
  (fst (check st) = true -> holds drop "ALL")
  /\ (~ holds drop "ALL" ->
      records check st
        (Result.mk ("Capabilities: " +:+ Container) "FAIL" false "Missing cap_drop: ALL"))
  /\ (drop = [] -> fst (check st) = false)
  /\ (holds drop "ALL" ->
      SecurityCaps.Score (SecurityCaps.check_CapDrop hc a)
      = PrimFloat.add (SecurityCaps.Score a) (Double.of_Z 1))
  /\ (named drop -> drop <> [] -> ~ holds drop "ALL" ->
      SecurityCaps.Score (SecurityCaps.check_CapDrop hc a)
      = PrimFloat.add (SecurityCaps.Score a) 0.5%float
      /\ SecurityCaps.Out (SecurityCaps.check_CapDrop hc a)
         = (SecurityCaps.Out a
            ++ [(SecurityCaps.Yellow, "CapDrop: " +:+ PS.join ", " drop);
                (SecurityCaps.Yellow,
                 "Recommendation: Use 'ALL' to drop all capabilities")])%list)
  /\ (drop = [] ->
      SecurityCaps.Score (SecurityCaps.check_CapDrop hc a)
      = PrimFloat.add (SecurityCaps.Score a) (Double.of_Z 0)).
Proof.
  intros Hinspect drop check. subst drop check.
  assert (Hfail : ~ holds (PS.items (Docker.CapDrop hc)) "ALL" ->
            records (Security.Test_Capabilities Keys Container c) st
              (Result.mk ("Capabilities: " +:+ Container) "FAIL" false
                         "Missing cap_drop: ALL")).
  { intros Hnot. unfold records, Security.Test_Capabilities.
    rewrite Hinspect. cbv zeta.
    destruct (capsHex_of_CapEff (Docker.CapEff c)) as [capsHex ->].
    destruct (PS.contains _ "ALL") eqn:E.
    - apply contains_holds in E. contradiction.
    - apply Add_TestResult_records. }
  assert (Hpass : fst (Security.Test_Capabilities Keys Container c st) = true ->
                  holds (PS.items (Docker.CapDrop hc)) "ALL").
  { unfold Security.Test_Capabilities. rewrite Hinspect. cbv zeta.
    destruct (capsHex_of_CapEff (Docker.CapEff c)) as [capsHex ->].
    rewrite Add_TestResult_eq. cbn [fst]. intros H.
    apply andb_true_iff in H as [H _]. apply contains_holds, H. }
  split; [exact Hpass|]. split; [exact Hfail|]. split.
  { intros Hnil. destruct (Hfail) as [H _]; [|exact H].
    rewrite Hnil. intros [e [[] _]]. }
  unfold SecurityCaps.check_CapDrop. split; [|split].
  - intros Hall.
    rewrite (holds_truthy _ "ALL") by (discriminate || exact Hall).
    rewrite (proj2 (contains_holds _ _) Hall). reflexivity.
  - intros Hnamed Hne Hnot.
    rewrite (named_truthy _ Hnamed Hne), Count_pos by assumption.
    destruct (PS.contains _ "ALL") eqn:E.
    + apply contains_holds in E. contradiction.
    + split; reflexivity.
  - intros Hnil. rewrite (truthy_items_nil _ Hnil). reflexivity.
Qed.

Lemma capabilities_drop_credit_witness :
  records (Security.Test_Capabilities Security.expectedCaps_literal "api" net_raw_container)
    (TestResults.init "SECURITY")
    (Result.mk "Capabilities: api" "FAIL" false "Missing cap_drop: ALL")
  /\ SecurityCaps.Score (SecurityCaps.check_CapDrop drops_NET_RAW fresh)
     = PrimFloat.add (Double.of_Z 0) 0.5%float.
Proof.
  pose proof (capabilities_drop_credit Security.expectedCaps_literal "api"
                net_raw_container drops_NET_RAW (TestResults.init "SECURITY") fresh
                eq_refl) as (_ & Hfail & _ & _ & Hhalf & _).
  assert (Hnot : ~ holds (PS.items (Docker.CapDrop drops_NET_RAW)) "ALL").
  { intros Hall. apply contains_holds in Hall. discriminate. }
  split; [exact (Hfail Hnot)|].
  apply Hhalf; [repeat constructor; discriminate | discriminate | exact Hnot].
Defined.

(** C1 (where the claim as stated fails): in the security audit a
    container that drops [NET_RAW] only gets no half credit and no
    warning: its capabilities check is recorded as a plain failure, the
    same as for a container that drops nothing. *)
Lemma capabilities_drop_counterexample :
  PS.items (Docker.CapDrop drops_NET_RAW) = ["NET_RAW"]
  /\ Security.Test_Capabilities Security.expectedCaps_literal "api" net_raw_container
       (TestResults.init "SECURITY")
     = (false,
        TestResults.mk "SECURITY" 1 0 1
          [Result.mk "Capabilities: api" "FAIL" false "Missing cap_drop: ALL"])
  /\ Security.Test_Capabilities Security.expectedCaps_literal "api" net_raw_container
       (TestResults.init "SECURITY")
     = Security.Test_Capabilities Security.expectedCaps_literal "api"
         drops_nothing_container (TestResults.init "SECURITY").
Proof. repeat split; vm_compute; reflexivity. Qed.

(** *** The exception table of the security audit *)

(** The keys of [$expectedCaps] are the six names of the literal. *)
Lemma expectedCaps_Keys (k : string) :
  is_Some (Security.expectedCaps !! k) <-> In k Security.expectedCaps_literal.
Proof.
  unfold Security.expectedCaps, Security.expectedCaps_literal. split.
  - intros [caps Hk].
    repeat (apply lookup_insert_Some in Hk as [[<- _]|[_ Hk]]; [simpl; tauto|]).
    apply lookup_singleton_Some in Hk as [<- _]. simpl. tauto.
  - simpl. intros [<-|[<-|[<-|[<-|[<-|[<-|[]]]]]]]; vm_compute; eauto.
Qed.

(** The type the lookup settles on is the first key, in enumeration
    order, that occurs in the container's name. *)
Lemma containerType_of_found (Keys : list string) (Container : string) :
  (exists k, In k Keys /\ occurs k Container) ->
  In (Security.containerType_of Keys Container) Keys
  /\ occurs (Security.containerType_of Keys Container) Container.
Proof.
  intros [k [Hin Hocc]]. unfold Security.containerType_of.
  destruct (find _ Keys) as [type|] eqn:E.
  - apply find_some in E as [Hin' Hm]. apply imatch_occurs in Hm. auto.
  - exfalso. apply (find_none _ _ E) in Hin. apply imatch_occurs in Hocc. congruence.
Qed.

Lemma containerType_of_none (Keys : list string) (Container : string) :
  (forall k, In k Keys -> ~ occurs k Container) ->
  Security.containerType_of Keys Container = "".
Proof.
  intros Hno. unfold Security.containerType_of.
  destruct (find _ Keys) as [type|] eqn:E; [|reflexivity].
  apply find_some in E as [Hin Hm]. apply imatch_occurs in Hm.
  exfalso. exact (Hno type Hin Hm).
Qed.

(** What [Test-Capabilities] records once the container is inspected
    and its drop-list holds [ALL]. *)
Lemma Test_Capabilities_dropped_all (Keys : list string) (Container : string)
  (c : Docker.Container) (hc : Docker.HostConfig) (st : TestResults.t) :
  Docker.inspect c = Docker.Inspected hc ->
  holds (PS.items (Docker.CapDrop hc)) "ALL" ->
  let expected :=
    if PS.truthy_string (Security.containerType_of Keys Container)
    then default [] (Security.expectedCaps !! Security.containerType_of Keys Container)
    else [] in
  let unexpectedCaps := Security.unexpectedCaps_of expected (Docker.CapAdd hc) in
  Security.Test_Capabilities Keys Container c st
  = Add_TestResult ("Capabilities: " +:+ Container)
      (Z.of_nat (length unexpectedCaps) =? 0)
      (if 0 <? Z.of_nat (length unexpectedCaps)
       then "Unexpected capabilities: " +:+ PS.join ", " unexpectedCaps
       else if 0 <? (if PS.truthy (Docker.CapAdd hc) then PS.Count (Docker.CapAdd hc) else 0)
            then "Info: "
                 +:+ PS.show (if PS.truthy (Docker.CapAdd hc)
                              then PS.Count (Docker.CapAdd hc) else 0)
                 +:+ " justified capabilities added"
            else "") st.
Proof.
  intros Hinspect Hall. unfold Security.Test_Capabilities.
  rewrite Hinspect. cbv zeta.
  destruct (capsHex_of_CapEff (Docker.CapEff c)) as [capsHex ->].
  rewrite (proj2 (contains_holds _ _) Hall). reflexivity.
Qed.

(** C2 (as amended): for a container whose drop-list holds [ALL], the
    check of the added capabilities is decided by the exception table of
    the first key of [$expectedCaps] that occurs in the container's name.
    Whatever order the keys are enumerated in, a container whose name
    holds [db] or [postgres] and none of [api], [frontend], [nginx],
    [node], with add-list [CHOWN, SETUID], passes (both names, once
    prefixed with [CAP_], are in the table of its type); the same add-list
    on a container whose name holds neither [db] nor [postgres] (the
    container named [api], say, whose table is empty) fails with both names
    reported as unexpected. *)
Theorem capabilities_add_by_service_type (Keys : list string) (Container : string)
  (c : Docker.Container) (hc : Docker.HostConfig) (st : TestResults.t) :
  Permutation Keys Security.expectedCaps_literal ->
  Docker.inspect c = Docker.Inspected hc ->
  holds (PS.items (Docker.CapDrop hc)) "ALL" ->
  Docker.CapAdd hc = Some ["CHOWN"; "SETUID"] ->
  (occurs "db" Container \/ occurs "postgres" Container ->
   ~ occurs "api" Container -> ~ occurs "frontend" Container ->
   ~ occurs "nginx" Container -> ~ occurs "node" Container ->
   records (Security.Test_Capabilities Keys Container c) st
     (Result.mk ("Capabilities: " +:+ Container) "OK" true
                "Info: 2 justified capabilities added"))
  /\ (~ occurs "db" Container -> ~ occurs "postgres" Container ->
      records (Security.Test_Capabilities Keys Container c) st
        (Result.mk ("Capabilities: " +:+ Container) "FAIL" false
                   "Unexpected capabilities: CHOWN, SETUID"))
  /\ Security.expectedCaps !! "api" = Some [].
Proof.
  intros Hperm Hinspect Hall Hadd.
  pose proof (Test_Capabilities_dropped_all Keys Container c hc st Hinspect Hall)
    as Heq. cbv zeta in Heq. rewrite Hadd in Heq.
  assert (Hkeys : forall k, In k Keys <-> In k Security.expectedCaps_literal).
  { intros k. split; apply Permutation_in; [exact Hperm | symmetry; exact Hperm]. }
  split; [|split; [|reflexivity]].
  - intros Hdb Hapi Hfrontend Hnginx Hnode.
    destruct (containerType_of_found Keys Container) as [Hin Hocc].
    { destruct Hdb as [Hdb|Hpg]; [exists "db" | exists "postgres"];
        (split; [apply Hkeys; simpl; tauto | assumption]). }
    apply Hkeys in Hin. unfold records. rewrite Heq. clear Heq.
    simpl in Hin.
    destruct Hin as [E|[E|[E|[E|[E|[E|[]]]]]]]; rewrite <- E in Hocc |- *;
      try contradiction; apply Add_TestResult_records.
  - intros Hdb Hpg. unfold records. rewrite Heq. clear Heq.
    assert (Hexp : (if PS.truthy_string (Security.containerType_of Keys Container)
                    then default [] (Security.expectedCaps
                                       !! Security.containerType_of Keys Container)
                    else []) = []).
    { destruct (PS.truthy_string _) eqn:Ht; [|reflexivity].
      destruct (find (fun type => PS.imatch Container type) Keys) as [type|] eqn:E;
        unfold Security.containerType_of in *; rewrite E in *; [|discriminate].
      apply find_some in E as [Hin Hm]. apply imatch_occurs in Hm.
      apply Hkeys in Hin. simpl in Hin.
      destruct Hin as [E|[E|[E|[E|[E|[E|[]]]]]]]; rewrite <- E in Hm |- *;
        try contradiction; reflexivity. }
    rewrite Hexp. apply Add_TestResult_records.
Qed.

Ltac decide_occurs :=
  match goal with
  | |- occurs _ _ => apply imatch_occurs; vm_compute; reflexivity
  | |- ~ occurs _ _ =>
    let H := fresh in intros H; apply imatch_occurs in H; vm_compute in H; discriminate
  end.

Lemma capabilities_add_by_service_type_witness :
  records (Security.Test_Capabilities Security.expectedCaps_literal
             "td_docker_2025-db-1" db_container)
          (TestResults.init "SECURITY")
          (Result.mk "Capabilities: td_docker_2025-db-1" "OK" true
                     "Info: 2 justified capabilities added").
Proof.
  refine (proj1 (capabilities_add_by_service_type Security.expectedCaps_literal
                   "td_docker_2025-db-1" db_container _ (TestResults.init "SECURITY")
                   _ eq_refl _ eq_refl) _ _ _ _ _).
  - apply Permutation_refl.
  - apply contains_holds. reflexivity.
  - left. decide_occurs.
  - decide_occurs.
  - decide_occurs.
  - decide_occurs.
  - decide_occurs.
Defined.

(** C2 (where the claim as stated fails): the name [api-db] holds [db],
    the container drops [ALL] and adds [CHOWN, SETUID], and yet the check
    fails when the enumeration of the keys reaches [api] before [db]. *)
Lemma capabilities_add_counterexample :
  Permutation Keys_api_first Security.expectedCaps_literal
  /\ occurs "db" "api-db"
  /\ Security.Test_Capabilities Keys_api_first "api-db" db_container
       (TestResults.init "SECURITY")
     = (false,
        TestResults.mk "SECURITY" 1 0 1
          [Result.mk "Capabilities: api-db" "FAIL" false
                     "Unexpected capabilities: CHOWN, SETUID"]).
Proof.
  split; [|split].
  - unfold Keys_api_first, Security.expectedCaps_literal.
    eapply perm_trans; [apply perm_swap | apply perm_skip, perm_swap].
  - decide_occurs.
  - vm_compute. reflexivity.
Qed.

(* ================================================================== *)
(** ** The Dockerfile checks *)
(* ================================================================== *)


(** *** The two searches on the lines of a text *)

Lemma nonblanks_token (token rest : string) :
  no_blank token ->
  MultiStage.nonblanks (token +:+ " " +:+ rest) = String.length token.
Proof.
  unfold no_blank. induction token as [|c token IH]; intros H.
  - reflexivity.
  - simpl in *. apply andb_true_iff in H as [Hc H].
    apply negb_true_iff in Hc. rewrite Hc, IH by exact H. reflexivity.
Qed.

Lemma take_token (token rest : string) :
  MultiStage.take (String.length token) (token +:+ rest) = token.
Proof. induction token as [|c token IH]; simpl; [destruct rest|rewrite IH]; reflexivity. Qed.

Lemma drop_token (token rest : string) :
  MultiStage.drop (String.length token) (token +:+ rest) = rest.
Proof. induction token as [|c token IH]; simpl; [destruct rest|rewrite IH]; reflexivity. Qed.

Lemma blanks_token (token rest : string) :
  token <> "" -> no_blank token -> MultiStage.blanks (token +:+ rest) = O.
Proof.
  intros Hne Hnb. destruct token as [|c token]; [congruence|].
  unfold no_blank in Hnb. simpl in Hnb. apply andb_true_iff in Hnb as [Hc _].
  apply negb_true_iff in Hc. simpl. rewrite Hc. reflexivity.
Qed.

Lemma match_FROM_image_token (token rest : string) :
  token <> "" -> no_blank token ->
  MultiStage.match_FROM_image ("FROM " +:+ token +:+ " " +:+ rest)
  = Some ((5 + String.length token)%nat, token).
Proof.
  intros Hne Hnb.
  unfold MultiStage.match_FROM_image, MultiStage.match_FROM, MultiStage.match_keyword.
  set (T := token +:+ " " +:+ rest).
  replace (MultiStage.blanks ("FROM " +:+ T)) with O by reflexivity.
  cbv zeta. cbn [MultiStage.drop].
  replace (PS.istarts "FROM" ("FROM " +:+ T)) with true by reflexivity.
  replace (MultiStage.drop (String.length "FROM") ("FROM " +:+ T)) with (" " +:+ T)
    by reflexivity.
  replace (MultiStage.blanks (" " +:+ T)) with (S (MultiStage.blanks T)) by reflexivity.
  subst T. rewrite blanks_token by assumption.
  cbn [Nat.ltb Nat.leb Nat.add String.length].
  replace (MultiStage.drop 5 ("FROM " +:+ token +:+ " " +:+ rest))
    with (token +:+ " " +:+ rest) by reflexivity.
  rewrite nonblanks_token by exact Hnb.
  destruct token as [|c token]; [congruence|].
  cbn [String.length Nat.ltb Nat.leb].
  change (S (String.length token)) with (String.length (String c token)).
  rewrite take_token. reflexivity.
Qed.

(** Inside a line that is being passed over, or that did not start with
    a match, nothing matches before the next line feed. *)
Lemma Matches_inside_line {A} (pattern : string -> option (nat * A))
  (skip : nat) (line below : string) :
  one_line line ->
  (skip <= String.length line)%nat ->
  MultiStage.Matches pattern skip false (line +:+ String MultiStage.newline below)
  = MultiStage.Matches pattern O true below.
Proof.
  unfold one_line. revert skip. induction line as [|c line IH]; intros skip Hline Hskip.
  - simpl in Hskip. assert (skip = O) as -> by lia.
    reflexivity.
  - simpl in Hline. apply andb_true_iff in Hline as [Hc Hline].
    apply negb_true_iff in Hc.
    change (String c line +:+ String MultiStage.newline below)
      with (String c (line +:+ String MultiStage.newline below)).
    cbn [MultiStage.Matches]. rewrite Hc.
    destruct skip as [|k]; apply IH; try exact Hline; simpl in Hskip; lia.
Qed.

Lemma no_blank_one_line (s : string) : no_blank s -> one_line s.
Proof.
  unfold no_blank, one_line. induction s as [|c s IH]; [reflexivity|]. simpl.
  intros H. apply andb_true_iff in H as [Hc H]. rewrite IH by exact H.
  rewrite andb_true_r. apply negb_true_iff. apply negb_true_iff in Hc.
  destruct (Ascii.eqb_spec c MultiStage.newline) as [->|]; [|reflexivity].
  vm_compute in Hc. discriminate.
Qed.

Lemma one_line_app (a b : string) : one_line a -> one_line b -> one_line (a +:+ b).
Proof.
  unfold one_line. induction a as [|c a IH]; simpl; [auto|].
  intros Ha Hb. apply andb_true_iff in Ha as [-> Ha]. simpl. auto.
Qed.

Lemma append_assoc (a b c : string) : (a +:+ b) +:+ c = a +:+ b +:+ c.
Proof.
  induction a as [|x a IH]; [reflexivity|].
  change (String x ((a +:+ b) +:+ c) = String x (a +:+ b +:+ c)).
  rewrite IH. reflexivity.
Qed.

Lemma length_append (a b : string) :
  String.length (a +:+ b) = (String.length a + String.length b)%nat.
Proof. induction a as [|c a IH]; simpl; [|rewrite IH]; reflexivity. Qed.

(** **** The search, line by line *)

Lemma lines_of_cons (s : string) : exists l ls, lines_of s = l :: ls.
Proof.
  induction s as [|c s IH]; simpl; [eauto|].
  destruct (Ascii.eqb c MultiStage.newline); [eauto|].
  destruct IH as [l [ls ->]]. eauto.
Qed.

(** Every text is the text of its lines, none of which holds a line
    feed. *)
Lemma lines_of_text (s : string) :
  lines_text (lines_of s) = s /\ Forall one_line (lines_of s).
Proof.
  induction s as [|c s [IHtext IHline]]; [split; [reflexivity | repeat constructor]|].
  cbn [lines_of]. destruct (Ascii.eqb c MultiStage.newline) eqn:Hc.
  - apply Ascii.eqb_eq in Hc. subst c. split.
    + destruct (lines_of_cons s) as [l [ls E]]. rewrite E in *.
      rewrite <- IHtext. reflexivity.
    + constructor; [reflexivity | exact IHline].
  - destruct (lines_of_cons s) as [l [ls E]]. rewrite E in *.
    apply Forall_cons_iff in IHline as [Hl Hls]. split.
    + rewrite <- IHtext. destruct ls; reflexivity.
    + constructor; [|exact Hls]. unfold one_line in *. simpl. rewrite Hc, Hl. reflexivity.
Qed.

(** The lines of the Dockerfile of the API service. *)
Lemma lines_of_api_Dockerfile : lines_of (MultiStage.content api_Dockerfile) = api_lines.
Proof. reflexivity. Qed.

Lemma append_nil_r (s : string) : s +:+ "" = s.
Proof.
  induction s as [|c s IH]; [reflexivity|].
  change (String c (s +:+ "") = String c s). rewrite IH. reflexivity.
Qed.

Lemma blank_app (a b : string) : blank a -> blank b -> blank (a +:+ b).
Proof.
  unfold blank. induction a as [|c a IH]; simpl; [auto|].
  intros Ha Hb. apply andb_true_iff in Ha as [-> Ha]. simpl. auto.
Qed.

(** A search over a text given by its lines.  The pattern at a position
    skips blanks first (line feeds among them), so it finds nothing in a
    blank text; on a line that is not blank it finds, within the line,
    what [hit] says of the line.  Then the search from the start of
    the text finds what [hit] finds on each line, in order. *)
Section Lines.

Context {A : Type}.
Variable pattern : string -> option (nat * A).
Variable hit : string -> option A.
Variable Reg : string -> Prop.

Hypothesis pattern_nil : pattern EmptyString = None.
Hypothesis pattern_blank : forall c s,
  PS.is_space c = true ->
  pattern (String c s) = option_map (fun r => (S (fst r), snd r)) (pattern s).
Hypothesis hit_blank : forall l, blank l -> hit l = None.
Hypothesis pattern_line : forall l after,
  Reg l -> one_line l -> SecretScan.all_of PS.is_space l = false -> ends_line after ->
  match hit l with
  | Some a => exists n, (1 <= n <= String.length l)%nat /\ pattern (l +:+ after) = Some (n, a)
  | None => pattern (l +:+ after) = None
  end.

Lemma pattern_prefix (P s : string) :
  blank P ->
  pattern (P +:+ s)
  = option_map (fun r => ((String.length P + fst r)%nat, snd r)) (pattern s).
Proof.
  unfold blank. induction P as [|c P IH]; intros HP.
  - change ("" +:+ s) with s. destruct (pattern s) as [[n a]|]; reflexivity.
  - simpl in HP. apply andb_true_iff in HP as [Hc HP].
    change (String c P +:+ s) with (String c (P +:+ s)).
    rewrite pattern_blank by exact Hc. rewrite IH by exact HP.
    destruct (pattern s) as [[n a]|]; reflexivity.
Qed.

Lemma tail_of_line (x after : string) (k : nat) :
  one_line x -> (k <= String.length x)%nat -> ends_line after ->
  MultiStage.Matches pattern k false (x +:+ after) = continue pattern after.
Proof.
  unfold one_line. revert k. induction x as [|c x IH]; intros k Hx Hk Hafter.
  - simpl in Hk. assert (k = O) as -> by lia.
    destruct Hafter as [->|[below ->]]; reflexivity.
  - simpl in Hx. apply andb_true_iff in Hx as [Hc Hx]. apply negb_true_iff in Hc.
    change (String c x +:+ after) with (String c (x +:+ after)).
    cbn [MultiStage.Matches]. rewrite Hc.
    destruct k as [|k]; apply IH; try assumption; simpl in Hk; lia.
Qed.

Lemma skip_prefix (P s : string) (k : nat) (b : bool) (c : ascii) :
  MultiStage.Matches pattern (String.length P + S k) b (P +:+ String c s)
  = MultiStage.Matches pattern k (Ascii.eqb c MultiStage.newline) s.
Proof.
  revert b. induction P as [|p P IH]; intros b; [reflexivity|].
  change (String p P +:+ String c s) with (String p (P +:+ String c s)).
  cbn [String.length Nat.add MultiStage.Matches]. apply IH.
Qed.

Lemma scan_hit (P l after : string) (n : nat) (a : A) :
  blank P -> one_line l -> ends_line after ->
  (1 <= n <= String.length l)%nat ->
  pattern (l +:+ after) = Some (n, a) ->
  MultiStage.Matches pattern O true (P +:+ l +:+ after) = a :: continue pattern after.
Proof.
  intros HP Hl Hafter Hn Hpat.
  destruct l as [|c0 l0]; [simpl in Hn; lia|].
  destruct n as [|n']; [lia|].
  assert (Hc0 : Ascii.eqb c0 MultiStage.newline = false).
  { unfold one_line in Hl. simpl in Hl. apply andb_true_iff in Hl as [Hc _].
    apply negb_true_iff, Hc. }
  assert (Hl0 : one_line l0).
  { unfold one_line in *. simpl in Hl. apply andb_true_iff in Hl. tauto. }
  assert (Hn' : (n' <= String.length l0)%nat) by (simpl in Hn; lia).
  pose proof (pattern_prefix P (String c0 l0 +:+ after) HP) as Hfull.
  rewrite Hpat in Hfull. cbn [option_map fst snd] in Hfull.
  change (String c0 l0 +:+ after) with (String c0 (l0 +:+ after)) in *.
  destruct P as [|p P'].
  - change ("" +:+ String c0 (l0 +:+ after)) with (String c0 (l0 +:+ after)).
    cbn [MultiStage.Matches]. rewrite Hpat, Hc0.
    cbn [Nat.sub]. rewrite Nat.sub_0_r. f_equal.
    apply tail_of_line; assumption.
  - change (String p P' +:+ String c0 (l0 +:+ after))
      with (String p (P' +:+ String c0 (l0 +:+ after))) in *.
    cbn [MultiStage.Matches]. rewrite Hfull. f_equal.
    replace (String.length (String p P') + S n' - 1)%nat
      with (String.length P' + S n')%nat by (simpl; lia).
    rewrite skip_prefix, Hc0. apply tail_of_line; assumption.
Qed.

Lemma scan_miss (P l after : string) (b : bool) :
  blank P -> one_line l -> ends_line after ->
  pattern (l +:+ after) = None ->
  MultiStage.Matches pattern O b (P +:+ l +:+ after) = continue pattern after.
Proof.
  intros HP Hl Hafter Hpat. revert b.
  induction P as [|p P IH]; intros b.
  - change ("" +:+ l +:+ after) with (l +:+ after). destruct l as [|c0 l0].
    + change ("" +:+ after) with after in *.
      destruct Hafter as [->|[below ->]]; [reflexivity|].
      cbn [MultiStage.Matches]. destruct b; [rewrite Hpat|]; reflexivity.
    + assert (Hc0 : Ascii.eqb c0 MultiStage.newline = false).
      { unfold one_line in Hl. simpl in Hl. apply andb_true_iff in Hl as [Hc _].
        apply negb_true_iff, Hc. }
      assert (Hl0 : one_line l0).
      { unfold one_line in *. simpl in Hl. apply andb_true_iff in Hl. tauto. }
      change (String c0 l0 +:+ after) with (String c0 (l0 +:+ after)) in *.
      cbn [MultiStage.Matches]. rewrite Hc0.
      destruct b; [rewrite Hpat|]; apply tail_of_line; try assumption; lia.
  - assert (HP' : blank P).
    { unfold blank in *. simpl in HP. apply andb_true_iff in HP. tauto. }
    change (String p P +:+ l +:+ after) with (String p (P +:+ l +:+ after)).
    cbn [MultiStage.Matches].
    assert (Hnone : pattern (String p (P +:+ l +:+ after)) = None).
    { change (String p (P +:+ l +:+ after)) with (String p P +:+ (l +:+ after)).
      rewrite pattern_prefix by exact HP. rewrite Hpat. reflexivity. }
    destruct b; [rewrite Hnone|]; apply IH; exact HP'.
Qed.

Lemma scan_blank (P : string) (b : bool) :
  blank P -> MultiStage.Matches pattern O b P = [].
Proof.
  intros HP. pose proof (scan_miss P EmptyString EmptyString b HP eq_refl
                           (or_introl eq_refl) pattern_nil) as H.
  change ("" +:+ "") with "" in H. rewrite append_nil_r in H. exact H.
Qed.

Lemma Matches_after_blank (ls : list string) :
  Forall (fun l => one_line l /\ Reg l) ls ->
  forall P, blank P ->
  MultiStage.Matches pattern O true (P +:+ lines_text ls) = hits hit ls.
Proof.
  induction ls as [|l ls IH]; intros Hreg P HP.
  - cbn [lines_text]. rewrite append_nil_r. apply scan_blank, HP.
  - apply Forall_cons_iff in Hreg as [[Hl HR] Hreg].
    specialize (IH Hreg).
    set (after := match ls with
                  | [] => EmptyString
                  | _ :: _ => String MultiStage.newline (lines_text ls)
                  end).
    assert (Htext : lines_text (l :: ls) = l +:+ after).
    { subst after. destruct ls; [symmetry; apply append_nil_r | reflexivity]. }
    assert (Hafter : ends_line after).
    { subst after. destruct ls; [left; reflexivity | right; eauto]. }
    assert (Hcont : continue pattern after = hits hit ls).
    { subst after. destruct ls as [|l2 rest]; [reflexivity|].
      cbn [continue]. apply (IH EmptyString). reflexivity. }
    rewrite Htext. unfold hits. cbn [flat_map]. fold (hits hit ls).
    destruct (SecretScan.all_of PS.is_space l) eqn:Hb.
    + rewrite (hit_blank l Hb). cbn [app].
      destruct ls as [|l2 rest].
      * subst after. rewrite append_nil_r. apply scan_blank, blank_app; assumption.
      * subst after.
        replace (P +:+ l +:+ String MultiStage.newline (lines_text (l2 :: rest)))
          with ((P +:+ l +:+ String MultiStage.newline "") +:+ lines_text (l2 :: rest)).
        2: { rewrite !append_assoc. reflexivity. }
        apply IH. apply blank_app; [exact HP|]. apply blank_app; [exact Hb | reflexivity].
    + pose proof (pattern_line l after HR Hl Hb Hafter) as Hpat.
      destruct (hit l) as [a|].
      * destruct Hpat as [n [Hn Hpat]].
        rewrite (scan_hit P l after n a HP Hl Hafter Hn Hpat), Hcont. reflexivity.
      * rewrite (scan_miss P l after true HP Hl Hafter Hpat), Hcont. reflexivity.
Qed.

Theorem Matches_lines (ls : list string) :
  Forall (fun l => one_line l /\ Reg l) ls ->
  MultiStage.Matches pattern O true (lines_text ls) = hits hit ls.
Proof. intros Hreg. apply (Matches_after_blank ls Hreg EmptyString). reflexivity. Qed.

End Lines.

(** **** Words and the shape of a line *)

Lemma words_blank (s : string) : blank s -> words_of s = [].
Proof.
  unfold blank. induction s as [|c s IH]; [reflexivity|]. simpl.
  intros H. apply andb_true_iff in H as [-> H]. apply IH, H.
Qed.

Lemma words_nil (s : string) : words_of s = [] -> blank s.
Proof.
  unfold blank. induction s as [|c s IH]; [reflexivity|]. simpl.
  destruct (PS.is_space c); [exact IH|].
  destruct s as [|c' s']; [discriminate|].
  destruct (PS.is_space c'); [discriminate|].
  destruct (words_of (String c' s')); discriminate.
Qed.

Lemma words_indent (indent s : string) : blank indent -> words_of (indent +:+ s) = words_of s.
Proof.
  unfold blank. induction indent as [|c indent IH]; [reflexivity|]. simpl.
  intros H. apply andb_true_iff in H as [Hc H].
  change (words_of (String c (indent +:+ s)) = words_of s).
  cbn [words_of]. rewrite Hc. apply IH, H.
Qed.

Lemma words_word (w tail : string) :
  no_blank w -> w <> "" -> at_word_end tail ->
  words_of (w +:+ tail) = w :: words_of tail.
Proof.
  unfold no_blank. induction w as [|c w IH]; [congruence|].
  intros Hw _ Htail. simpl in Hw. apply andb_true_iff in Hw as [Hc Hw].
  apply negb_true_iff in Hc.
  change (String c w +:+ tail) with (String c (w +:+ tail)).
  cbn [words_of]. rewrite Hc.
  destruct w as [|c2 w2].
  - change ("" +:+ tail) with tail. destruct tail as [|b r]; [reflexivity|].
    simpl in Htail. rewrite Htail. reflexivity.
  - change (String c2 w2 +:+ tail) with (String c2 (w2 +:+ tail)).
    pose proof Hw as Hw'. simpl in Hw'. apply andb_true_iff in Hw' as [Hc2 _].
    apply negb_true_iff in Hc2. rewrite Hc2.
    change (String c2 (w2 +:+ tail)) with (String c2 w2 +:+ tail).
    rewrite IH by (assumption || discriminate). reflexivity.
Qed.

(** A text is a word, possibly empty, up to its first blank. *)
Lemma word_shape (s : string) :
  exists w tail, s = w +:+ tail /\ no_blank w /\ at_word_end tail.
Proof.
  induction s as [|c s [w [tail (Hs & Hw & Htail)]]].
  - exists "", "". repeat split.
  - destruct (PS.is_space c) eqn:Hc.
    + exists "", (String c s). repeat split. exact Hc.
    + exists (String c w), tail. split; [rewrite Hs; reflexivity|].
      split; [|exact Htail]. unfold no_blank in *. simpl. rewrite Hc, Hw. reflexivity.
Qed.

(** A line that is not blank is an indentation, a first word and what
    follows the word. *)
Lemma line_shape (l : string) :
  SecretScan.all_of PS.is_space l = false ->
  exists indent w tail,
    l = indent +:+ w +:+ tail
    /\ blank indent /\ no_blank w /\ w <> "" /\ at_word_end tail.
Proof.
  induction l as [|c l IH]; [discriminate|]. simpl.
  destruct (PS.is_space c) eqn:Hc; simpl.
  - intros H. destruct (IH H) as [indent [w [tail (Hl & Hi & Hw & Hne & Ht)]]].
    exists (String c indent), w, tail. split; [rewrite Hl; reflexivity|].
    split; [|auto]. unfold blank in *. simpl. rewrite Hc, Hi. reflexivity.
  - intros _. destruct (word_shape l) as [w [tail (Hl & Hw & Ht)]].
    exists "", (String c w), tail. split; [rewrite Hl; reflexivity|].
    split; [reflexivity|]. split; [|split; [discriminate | exact Ht]].
    unfold no_blank in *. simpl. rewrite Hc, Hw. reflexivity.
Qed.

Lemma blanks_indent (indent rest : string) :
  blank indent -> MultiStage.blanks rest = O ->
  MultiStage.blanks (indent +:+ rest) = String.length indent.
Proof.
  unfold blank. induction indent as [|c indent IH]; intros Hi Hr; [exact Hr|].
  simpl in Hi. apply andb_true_iff in Hi as [Hc Hi].
  change (String c indent +:+ rest) with (String c (indent +:+ rest)).
  cbn [MultiStage.blanks String.length]. rewrite Hc, IH by assumption. reflexivity.
Qed.

Lemma blanks_word (w rest : string) :
  no_blank w -> w <> "" -> MultiStage.blanks (w +:+ rest) = O.
Proof.
  unfold no_blank. destruct w as [|c w]; [congruence|]. simpl.
  intros H _. apply andb_true_iff in H as [Hc _]. apply negb_true_iff in Hc.
  change (MultiStage.blanks (String c (w +:+ rest)) = O). simpl. rewrite Hc. reflexivity.
Qed.

Lemma blanks_le (s : string) : (MultiStage.blanks s <= String.length s)%nat.
Proof. induction s as [|c s IH]; simpl; [lia|]. destruct (PS.is_space c); simpl; lia. Qed.

Lemma blanks_not_blank (x y : string) :
  SecretScan.all_of PS.is_space x = false ->
  MultiStage.blanks (x +:+ y) = MultiStage.blanks x.
Proof.
  induction x as [|c x IH]; [discriminate|]. simpl.
  change (String c x +:+ y) with (String c (x +:+ y)). cbn [MultiStage.blanks].
  destruct (PS.is_space c); simpl; [|reflexivity]. intros H. rewrite IH by exact H.
  reflexivity.
Qed.

Lemma blanks_pos (s : string) :
  s <> "" -> at_word_end s -> (1 <= MultiStage.blanks s)%nat.
Proof. destruct s as [|c s]; [congruence|]. simpl. intros _ ->. lia. Qed.


Lemma lower_length (s : string) : String.length (lower s) = String.length s.
Proof. induction s as [|c s IH]; simpl; [|rewrite IH]; reflexivity. Qed.

Lemma to_lower_space (c : ascii) : PS.is_space (PS.to_lower c) = PS.is_space c.
Proof. destruct c as [[] [] [] [] [] [] [] []]; reflexivity. Qed.

Lemma char_ieq_space (a b : ascii) :
  PS.char_ieq a b = true -> PS.is_space a = PS.is_space b.
Proof.
  intros H. apply char_ieq_lower in H.
  rewrite <- (to_lower_space a), <- (to_lower_space b), H. reflexivity.
Qed.

(** The keyword is found at the head of [w] followed by [X], with a
    blank after it, exactly when the word [w] is the keyword and [X]
    starts with a blank. *)
Lemma istarts_word (keyword w X : string) :
  no_blank keyword -> no_blank w -> at_word_end X ->
  PS.istarts keyword (w +:+ X)
  && (0 <? MultiStage.blanks (MultiStage.drop (String.length keyword) (w +:+ X)))%nat
  = String.eqb (lower w) (lower keyword) && (0 <? MultiStage.blanks X)%nat.
Proof.
  unfold no_blank. revert w. induction keyword as [|k keyword IH]; intros w Hk Hw HX.
  - cbn [PS.istarts String.length MultiStage.drop lower andb].
    destruct w as [|c w].
    + reflexivity.
    + simpl in Hw. apply andb_true_iff in Hw as [Hc _]. apply negb_true_iff in Hc.
      change (String c w +:+ X) with (String c (w +:+ X)).
      cbn [MultiStage.blanks lower String.eqb]. rewrite Hc. reflexivity.
  - simpl in Hk. apply andb_true_iff in Hk as [Hk1 Hk]. apply negb_true_iff in Hk1.
    destruct w as [|c w].
    + change ("" +:+ X) with X. cbn [lower String.eqb andb].
      destruct X as [|b r]; [reflexivity|]. simpl in HX.
      cbn [PS.istarts]. destruct (PS.char_ieq k b) eqn:E; [|reflexivity].
      apply char_ieq_space in E. congruence.
    + simpl in Hw. apply andb_true_iff in Hw as [Hc Hw].
      change (String c w +:+ X) with (String c (w +:+ X)).
      cbn [PS.istarts String.length MultiStage.drop lower String.eqb].
      rewrite <- andb_assoc, (IH w Hk Hw HX).
      unfold PS.char_ieq. rewrite (Ascii.eqb_sym (PS.to_lower k)).
      destruct (Ascii.eqb (PS.to_lower c) (PS.to_lower k)); reflexivity.
Qed.

(** [\s*KEYWORD\s+] at the head of a line of the shape above. *)
Lemma match_keyword_shape (keyword indent w X : string) :
  keyword <> "" -> no_blank keyword ->
  blank indent -> no_blank w -> w <> "" -> at_word_end X ->
  MultiStage.match_keyword keyword (indent +:+ w +:+ X)
  = if String.eqb (lower w) (lower keyword) && (0 <? MultiStage.blanks X)%nat
    then Some (String.length indent + String.length keyword + MultiStage.blanks X)%nat
    else None.
Proof.
  intros Hkne Hk Hi Hw Hwne HX. unfold MultiStage.match_keyword.
  rewrite blanks_indent by (assumption || apply blanks_word; assumption).
  rewrite drop_token. cbv zeta.
  pose proof (istarts_word keyword w X Hk Hw HX) as Hiff.
  destruct (String.eqb (lower w) (lower keyword)) eqn:Heq.
  - apply String.eqb_eq in Heq.
    assert (Hlen : String.length keyword = String.length w).
    { rewrite <- (lower_length keyword), <- Heq. apply lower_length. }
    rewrite Hlen, drop_token in Hiff |- *.
    destruct (PS.istarts keyword (w +:+ X)); cbn [andb] in Hiff |- *.
    + reflexivity.
    + rewrite <- Hiff. reflexivity.
  - cbn [andb] in Hiff |- *.
    destruct (PS.istarts keyword (w +:+ X)); [|reflexivity].
    cbn [andb] in Hiff. rewrite Hiff. reflexivity.
Qed.

(** **** The two patterns on the lines of a text *)

Lemma match_keyword_nil (keyword : string) :
  keyword <> "" -> MultiStage.match_keyword keyword "" = None.
Proof. destruct keyword; [congruence | reflexivity]. Qed.

Lemma match_keyword_blank (keyword : string) (c : ascii) (s : string) :
  PS.is_space c = true ->
  MultiStage.match_keyword keyword (String c s)
  = option_map S (MultiStage.match_keyword keyword s).
Proof.
  intros Hc. unfold MultiStage.match_keyword. cbn [MultiStage.blanks]. rewrite Hc.
  cbv zeta. cbn [MultiStage.drop].
  destruct (PS.istarts keyword _); [|reflexivity].
  destruct (0 <? _)%nat; reflexivity.
Qed.

Lemma at_word_end_after (tail after : string) :
  at_word_end tail -> ends_line after -> at_word_end (tail +:+ after).
Proof.
  intros Ht Ha. destruct tail as [|b r]; [|exact Ht].
  change ("" +:+ after) with after. destruct Ha as [->|[below ->]]; reflexivity.
Qed.

Lemma not_blank_words (s : string) :
  words_of s <> [] -> SecretScan.all_of PS.is_space s = false.
Proof.
  intros H. destruct (SecretScan.all_of PS.is_space s) eqn:E; [|reflexivity].
  exfalso. apply H, words_blank, E.
Qed.

(** What [\s*KEYWORD\s+] finds at the head of a line that is not blank
    and does not consist of the keyword alone. *)
Lemma keyword_line_match (keyword l after : string) :
  keyword <> "" -> no_blank keyword ->
  keyword_alone keyword l = false -> one_line l ->
  SecretScan.all_of PS.is_space l = false -> ends_line after ->
  if first_word_is keyword l
  then exists n, (1 <= n <= String.length l)%nat
                 /\ MultiStage.match_keyword keyword (l +:+ after) = Some n
  else MultiStage.match_keyword keyword (l +:+ after) = None.
Proof.
  intros Hkne Hk Halone _ Hnb Hafter.
  destruct (line_shape l Hnb) as [indent [w [tail (Hl & Hi & Hw & Hwne & Ht)]]].
  assert (Hwords : words_of l = w :: words_of tail).
  { rewrite Hl, words_indent by exact Hi. apply words_word; assumption. }
  unfold first_word_is, keyword_alone in *. rewrite Hwords in *.
  assert (Hshape : MultiStage.match_keyword keyword (l +:+ after)
            = if String.eqb (lower w) (lower keyword)
                 && (0 <? MultiStage.blanks (tail +:+ after))%nat
              then Some (String.length indent + String.length keyword
                         + MultiStage.blanks (tail +:+ after))%nat
              else None).
  { rewrite Hl, !append_assoc.
    apply match_keyword_shape; try assumption.
    apply at_word_end_after; assumption. }
  rewrite Hshape. destruct (String.eqb (lower w) (lower keyword)) eqn:Heq;
    [|reflexivity].
  assert (Htail : SecretScan.all_of PS.is_space tail = false).
  { apply not_blank_words. destruct (words_of tail); [discriminate | discriminate]. }
  rewrite blanks_not_blank by exact Htail.
  assert (Hpos : (1 <= MultiStage.blanks tail)%nat).
  { apply blanks_pos; [|exact Ht]. intros ->. discriminate. }
  replace (0 <? MultiStage.blanks tail)%nat with true
    by (symmetry; apply Nat.ltb_lt; lia).
  cbn [andb]. eexists. split; [|reflexivity].
  apply String.eqb_eq in Heq.
  assert (Hlen : String.length keyword = String.length w).
  { rewrite <- (lower_length keyword), <- Heq. apply lower_length. }
  rewrite Hl, !length_append. pose proof (blanks_le tail). lia.
Qed.

Lemma length_hits {A} (hit : string -> option A) (keep : string -> bool)
  (ls : list string) :
  (forall l, In l ls -> (exists a, hit l = Some a) <-> keep l = true) ->
  length (hits hit ls) = length (List.filter keep ls).
Proof.
  induction ls as [|l ls IH]; intros H; [reflexivity|].
  unfold hits in *. cbn [flat_map List.filter]. rewrite length_app.
  rewrite IH by (intros x Hx; apply H; right; exact Hx).
  pose proof (H l (or_introl eq_refl)) as Hl.
  destruct (hit l) as [a|]; destruct (keep l); simpl; try reflexivity.
  - assert (false = true) by (apply Hl; eauto). discriminate.
  - destruct (proj2 Hl eq_refl) as [a Ha]. discriminate.
Qed.

(** The count of [(?mi)^\s*KEYWORD\s+] in a text given by its lines, none
    of which consists of the keyword alone: the number of lines whose
    first word is the keyword. *)
Theorem count_keyword_lines (keyword : string) (ls : list string) :
  keyword <> "" -> no_blank keyword ->
  Forall (regular keyword) ls ->
  MultiStage.count_keyword keyword (lines_text ls)
  = Z.of_nat (length (List.filter (first_word_is keyword) ls)).
Proof.
  intros Hkne Hk Hreg. unfold MultiStage.count_keyword. f_equal.
  rewrite (Matches_lines _ (fun l => if first_word_is keyword l then Some tt else None)
             (fun l => keyword_alone keyword l = false)).
  - apply length_hits. intros l _. destruct (first_word_is keyword l).
    + split; eauto.
    + split; [intros [a Ha]; discriminate | discriminate].
  - apply match_keyword_nil in Hkne. rewrite Hkne. reflexivity.
  - intros c s Hc. rewrite match_keyword_blank by exact Hc.
    destruct (MultiStage.match_keyword keyword s); reflexivity.
  - intros l Hl. unfold first_word_is. rewrite (words_blank l Hl). reflexivity.
  - intros l after Halone Hl Hnb Hafter.
    pose proof (keyword_line_match keyword l after Hkne Hk Halone Hl Hnb Hafter) as H.
    destruct (first_word_is keyword l).
    + destruct H as [n [Hn Hm]]. exists n. rewrite Hm. split; [exact Hn | reflexivity].
    + rewrite H. reflexivity.
  - exact Hreg.
Qed.






(** *** The two checks *)

Ltac regular_lines := repeat constructor; reflexivity.







(* ================================================================== *)
(** ** The readiness endpoint *)
(* ================================================================== *)

(** The health probe never rejects: it reports [true] when the query
    settles well and [false], with a line in the log, when it does not. *)
Lemma healthCheck_settles (w : Api.World) (log : list string) :
  Api.healthCheck w log =
  match Api.query w with
  | Api.Fulfilled _ => (Api.Fulfilled true, log)
  | Api.Rejected error =>
    (Api.Fulfilled false,
     (log ++ ["Database health check failed: " +:+ error])%list)
  end.
Proof.
  unfold Api.healthCheck, Api.try_catch, Api.await, Api.resolve, Api.logger_error.
  destruct (Api.query w); reflexivity.
Qed.

Lemma ready_eq (w : Api.World) :
  fst (Api.ready w) =
  let isHealthy := match Api.query w with Api.Fulfilled _ => true | _ => false end in
  Api.Sent (if isHealthy then 200 else 503)
    ({[ "database" := Api.JString (if isHealthy then "healthy" else "unhealthy");
        "timestamp" := Api.JString (Api.now w) ]}
     ∪ {[ "ready" := Api.JBool isHealthy ]}).
Proof.
  unfold Api.ready, Api.try_catch, Api.await, Api.checkDatabaseHealth, Api.await.
  rewrite healthCheck_settles.
  destruct (Api.query w); reflexivity.
Qed.

(** C9: [GET /ready] answers 200 with [ready: true] and
    [database: "healthy"] exactly when the health probe of the database
    reports healthy, and 503 with [ready: false] (and
    [database: "unhealthy"]) when the probe reports unhealthy, which it
    does when the query cannot be run; the handler never hands an error
    to [next]. *)
Theorem ready_follows_database_health (w : Api.World) :
  let probe := fst (Api.healthCheck w []) in
  (probe = Api.Fulfilled true \/ probe = Api.Fulfilled false)
  /\ (probe = Api.Fulfilled true <-> exists u, Api.query w = Api.Fulfilled u)
  /\ (probe = Api.Fulfilled true <->
      exists body, fst (Api.ready w) = Api.Sent 200 body
                   /\ body !! "ready" = Some (Api.JBool true)
                   /\ body !! "database" = Some (Api.JString "healthy"))
  /\ (probe = Api.Fulfilled false <->
      exists body, fst (Api.ready w) = Api.Sent 503 body
                   /\ body !! "ready" = Some (Api.JBool false)
                   /\ body !! "database" = Some (Api.JString "unhealthy"))
  /\ (forall error, fst (Api.ready w) <> Api.Next error).
Proof.
  intros probe. subst probe. rewrite healthCheck_settles, ready_eq.
  destruct (Api.query w) as [u|error]; simpl.
  - split; [left; reflexivity|]. split; [split; eauto|].
    split; [|split; [|discriminate]].
    + split; [intros _ | reflexivity].
      eexists. split; [reflexivity|]. split; vm_compute; reflexivity.
    + split; [discriminate|]. intros [body [H _]]. discriminate.
  - split; [right; reflexivity|].
    split; [split; [discriminate | intros [u H]; discriminate]|].
    split; [|split; [|discriminate]].
    + split; [discriminate|]. intros [body [H _]]. discriminate.
    + split; [intros _ | reflexivity].
      eexists. split; [reflexivity|]. split; vm_compute; reflexivity.
Qed.

(* ================================================================== *)
(** ** Further properties: the security audit (tests/test-security.ps1) *)
(* ================================================================== *)

Lemma lower_root_or_0 (user : string) :
  PS.ieq user "root" || PS.ieq user "0" = true
  <-> In (lower user) ["root"; "0"].
Proof.
  rewrite orb_true_iff, !ieq_lower. simpl. split.
  - intros [H|H]; auto.
  - intros [H|[H|[]]]; auto.
Qed.

Lemma first_field_blank (c0 : ascii) (rest : string) :
  PS.is_space c0 = true -> Security.first_field (String c0 rest) = "".
Proof. intros H. simpl. rewrite H. reflexivity. Qed.

Lemma first_field_word (user rest : string) :
  no_blank user -> at_word_end rest ->
  Security.first_field (user +:+ rest) = user.
Proof.
  unfold no_blank. induction user as [|c user IH]; intros Hu Hr.
  - change ("" +:+ rest) with rest. destruct rest as [|b r]; [reflexivity|].
    simpl in *. rewrite Hr. reflexivity.
  - simpl in Hu. apply andb_true_iff in Hu as [Hc Hu]. apply negb_true_iff in Hc.
    change (String c user +:+ rest) with (String c (user +:+ rest)).
    cbn [Security.first_field]. rewrite Hc, IH by assumption. reflexivity.
Qed.

(** X1: the non-root check of the security audit reads the first field
    of the line that [ps -o user,pid] printed: when the line is a user
    name without blank, followed by nothing or by a blank and the rest,
    that field is the user name; the check fails with the reason
    [Running as root (UID 0)] when the name is [root] or [0] (letters
    compared without case) and passes with no reason otherwise.  In
    general the check passes exactly when the line is not empty and its
    first field is neither [root] nor [0]; no output and a failed call
    are each recorded as a failure with their own reason; a line that
    starts with a blank has an empty first field and passes whoever runs
    the process. *)
Theorem non_root_user_verdict (Container : string) (c : Docker.Container)
  (st : TestResults.t) :
  let check := Security.Test_NonRootUser Container c in
  let Test := "Non-root user: " +:+ Container in
  (forall user rest,
      user <> "" -> no_blank user -> at_word_end rest ->
      Security.first_field (user +:+ rest) = user
      /\ (Docker.ps_user_pid c = Docker.ExecOut (Some (user +:+ rest)) ->
          (In (lower user) ["root"; "0"] ->
           records check st (Result.mk Test "FAIL" false "Running as root (UID 0)"))
          /\ (~ In (lower user) ["root"; "0"] ->
              records check st (Result.mk Test "OK" true ""))))
  /\ (fst (check st) = true <->
      exists line, Docker.ps_user_pid c = Docker.ExecOut (Some line)
                   /\ line <> ""
                   /\ ~ In (lower (Security.first_field line)) ["root"; "0"])
  /\ (forall line,
         Docker.ps_user_pid c = Docker.ExecOut (Some line) ->
         In (lower (Security.first_field line)) ["root"; "0"] ->
         records check st (Result.mk Test "FAIL" false "Running as root (UID 0)"))
  /\ (forall line,
         Docker.ps_user_pid c = Docker.ExecOut line ->
         line = None \/ line = Some "" ->
         records check st (Result.mk Test "FAIL" false "Cannot determine process user"))
  /\ (forall message,
         Docker.ps_user_pid c = Docker.ExecThrew message ->
         records check st
           (Result.mk Test "FAIL" false ("Inspection failed: " +:+ message)))
  /\ (forall c0 rest,
         PS.is_space c0 = true ->
         Docker.ps_user_pid c = Docker.ExecOut (Some (String c0 rest)) ->
         records check st (Result.mk Test "OK" true "")).
Proof.
  intros check Test. subst check Test. unfold Security.Test_NonRootUser.
  split; [|split; [|split; [|split; [|split]]]].
  - intros user rest Hne Hu Hrest.
    split; [apply first_field_word; assumption|].
    intros Hps. rewrite Hps.
    destruct user as [|u user]; [congruence|].
    change (String u user +:+ rest) with (String u (user +:+ rest)).
    cbn [PS.truthy_string]. cbv zeta.
    change (String u (user +:+ rest)) with (String u user +:+ rest).
    rewrite first_field_word by assumption.
    pose proof (lower_root_or_0 (String u user)) as Hroot.
    destruct (PS.ieq (String u user) "root" || PS.ieq (String u user) "0").
    + split; [intros _; apply Add_TestResult_records|].
      intros Hn. exfalso. apply Hn, Hroot. reflexivity.
    + split; [|intros _; apply Add_TestResult_records].
      intros Hin. apply Hroot in Hin. discriminate.
  - destruct (Docker.ps_user_pid c) as [message|[line|]].
    + rewrite Add_TestResult_eq. simpl. split; [discriminate|].
      intros [line [H _]]. discriminate.
    + destruct line as [|x line].
      * cbn [PS.truthy_string]. rewrite Add_TestResult_eq. simpl.
        split; [discriminate|]. intros [line [H [Hne _]]].
        injection H as <-. congruence.
      * cbn [PS.truthy_string]. cbv zeta. rewrite Add_TestResult_eq. cbn [fst].
        rewrite negb_true_iff.
        set (user := Security.first_field (String x line)).
        pose proof (lower_root_or_0 user) as Hroot.
        destruct (PS.ieq user "root" || PS.ieq user "0").
        -- split; [discriminate|]. intros [l [H [_ Hn]]]. injection H as <-.
           exfalso. apply Hn, Hroot. reflexivity.
        -- split; [|reflexivity]. intros _. exists (String x line).
           split; [reflexivity|]. split; [discriminate|].
           intros Hin. apply Hroot in Hin. discriminate.
    + rewrite Add_TestResult_eq. simpl. split; [discriminate|].
      intros [line [H _]]. discriminate.
  - intros line Hps Hin. rewrite Hps.
    destruct line as [|x line]; [simpl in Hin; intuition discriminate|].
    cbn [PS.truthy_string]. cbv zeta.
    apply lower_root_or_0 in Hin. rewrite Hin. apply Add_TestResult_records.
  - intros line Hps [-> | ->]; rewrite Hps; apply Add_TestResult_records.
  - intros message Hps. rewrite Hps. apply Add_TestResult_records.
  - intros c0 rest Hc0 Hps. rewrite Hps. cbn [PS.truthy_string]. cbv zeta.
    rewrite first_field_blank by exact Hc0. apply Add_TestResult_records.
Qed.

Lemma non_root_user_verdict_witness :
  records (Security.Test_NonRootUser "api" (runs_as "root         1"))
    (TestResults.init "SECURITY")
    (Result.mk "Non-root user: api" "FAIL" false "Running as root (UID 0)")
  /\ records (Security.Test_NonRootUser "api" (runs_as "node         1"))
       (TestResults.init "SECURITY")
       (Result.mk "Non-root user: api" "OK" true "").
Proof.
  split.
  - apply (proj2 (proj1 (non_root_user_verdict "api" (runs_as "root         1")
                           (TestResults.init "SECURITY")) "root" "         1"
                    ltac:(discriminate) eq_refl eq_refl) eq_refl).
    simpl. auto.
  - apply (proj2 (proj1 (non_root_user_verdict "api" (runs_as "node         1")
                           (TestResults.init "SECURITY")) "node" "         1"
                    ltac:(discriminate) eq_refl eq_refl) eq_refl).
    simpl. intros [H|[H|[]]]; discriminate.
Defined.

Lemma full_not_none : SecurityCaps.full <> SecurityCaps.none.
Proof.
  intros H. apply (f_equal (fun x => PrimFloat.eqb x SecurityCaps.full)) in H.
  vm_compute in H. discriminate.
Qed.

(** X2: on an inspected container the security-options check passes
    exactly when the security options hold [no-new-privileges:true] or
    [no-new-privileges], and a failure is recorded as
    [Missing no-new-privileges].  The capabilities audit is stricter: it
    gives its point only for [no-new-privileges:true]. *)
Theorem security_options_verdict (Container : string) (c : Docker.Container)
  (hc : Docker.HostConfig) (st : TestResults.t) :
  Docker.inspect c = Docker.Inspected hc ->
  let options := PS.items (Docker.SecurityOpt hc) in
  let check := Security.Test_SecurityOptions Container c in
  (fst (check st) = true <->
     holds options "no-new-privileges:true" \/ holds options "no-new-privileges")
  /\ (fst (check st) = false ->
      records check st
        (Result.mk ("Security options: " +:+ Container) "FAIL" false
                   "Missing no-new-privileges"))
  /\ (SecurityCaps.Score (SecurityCaps.check_SecurityOpt hc fresh) = SecurityCaps.full
      <-> holds options "no-new-privileges:true").
Proof.
  intros Hinspect options check. subst options check.
  unfold Security.Test_SecurityOptions. rewrite Hinspect. cbv zeta.
  set (verdict := if PS.truthy (Docker.SecurityOpt hc) then _ else false).
  assert (Hverdict : verdict = true <->
            holds (PS.items (Docker.SecurityOpt hc)) "no-new-privileges:true"
            \/ holds (PS.items (Docker.SecurityOpt hc)) "no-new-privileges").
  { subst verdict. destruct (PS.truthy (Docker.SecurityOpt hc)) eqn:Ht.
    - rewrite orb_true_iff, !contains_holds. reflexivity.
    - split; [discriminate|].
      intros [H|H]; apply holds_truthy in H; congruence. }
  split; [|split].
  - rewrite Add_TestResult_eq. exact Hverdict.
  - rewrite Add_TestResult_eq. cbn [fst]. intros ->. apply Add_TestResult_records.
  - unfold SecurityCaps.check_SecurityOpt. cbv zeta.
    destruct (PS.truthy (Docker.SecurityOpt hc)) eqn:Ht; cbn [andb].
    + destruct (PS.contains _ _) eqn:E.
      * split; [intros _; apply contains_holds, E | intros _; vm_compute; reflexivity].
      * split.
        -- intros H. exfalso. apply full_not_none. rewrite <- H. vm_compute. reflexivity.
        -- intros H. apply contains_holds in H. congruence.
    + split.
      * intros H. exfalso. apply full_not_none. rewrite <- H. vm_compute. reflexivity.
      * intros H. apply holds_truthy in H; congruence.
Qed.

Lemma security_options_verdict_witness :
  fst (Security.Test_SecurityOptions "td_docker_2025-db-1" db_container
         (TestResults.init "SECURITY")) = true.
Proof.
  apply (proj1 (security_options_verdict "td_docker_2025-db-1" db_container _
                  (TestResults.init "SECURITY") eq_refl)).
  left. apply contains_holds. reflexivity.
Defined.

(** A container that sets [no-new-privileges] without a value passes
    the check of the security audit and gets no point in the
    capabilities audit. *)
Lemma no_new_privileges_without_value :
  fst (Security.Test_SecurityOptions "api" only_no_new_privileges
         (TestResults.init "SECURITY")) = true
  /\ forall hc, Docker.inspect only_no_new_privileges = Docker.Inspected hc ->
       SecurityCaps.Score (SecurityCaps.check_SecurityOpt hc fresh) = SecurityCaps.none.
Proof. split; [reflexivity | intros hc [= <-]; reflexivity]. Qed.

(** X3: on an inspected container the resource-limits check passes
    exactly when a memory limit is set and a CPU limit is set, the CPU
    limit being a positive quota with a positive period or a positive
    [NanoCpus].  The reason of a failure lists what is missing.  The
    capabilities audit gives its point for a memory limit or a quota with
    a period, and does not read [NanoCpus]. *)
Theorem resource_limits_verdict (Container : string) (c : Docker.Container)
  (hc : Docker.HostConfig) (st : TestResults.t) :
  Docker.inspect c = Docker.Inspected hc ->
  let memory := 0 < Docker.Memory hc in
  let cpu := (0 < Docker.CpuQuota hc /\ 0 < Docker.CpuPeriod hc)
             \/ 0 < Docker.NanoCpus hc in
  let check := Security.Test_ResourceLimits Container c in
  let failed reason :=
    records check st
      (Result.mk ("Resource limits: " +:+ Container) "FAIL" false reason) in
  (fst (check st) = true <-> memory /\ cpu)
  /\ (~ memory -> cpu -> failed "No memory limit")
  /\ (memory -> ~ cpu -> failed "No CPU limit")
  /\ (~ memory -> ~ cpu -> failed "No memory limit, No CPU limit")
  /\ (SecurityCaps.Score (SecurityCaps.check_Limits hc fresh) = SecurityCaps.full
      <-> memory \/ (0 < Docker.CpuQuota hc /\ 0 < Docker.CpuPeriod hc)).
Proof.
  intros Hinspect memory cpu check failed. subst memory cpu check failed.
  unfold Security.Test_ResourceLimits. rewrite Hinspect. cbv zeta beta.
  unfold records. rewrite Add_TestResult_eq. cbn [fst snd TestResults.Steps].
  unfold SecurityCaps.check_Limits. cbv zeta.
  destruct (Z.ltb_spec 0 (Docker.Memory hc)) as [Hm|Hm];
    destruct (Z.ltb_spec 0 (Docker.CpuQuota hc)) as [Hq|Hq];
    destruct (Z.ltb_spec 0 (Docker.CpuPeriod hc)) as [Hp|Hp];
    destruct (Z.ltb_spec 0 (Docker.NanoCpus hc)) as [Hn|Hn];
    cbn [andb orb negb List.app PS.join];
    (split; [|split; [|split; [|split]]]);
    try (intros; exfalso; lia);
    try (split; [intros _; lia | intros _; vm_compute; reflexivity]);
    try (split; [discriminate | intros; exfalso; lia]);
    try (intros; split; reflexivity);
    try (split; [intros H; exfalso; apply full_not_none; rewrite <- H;
                 vm_compute; reflexivity
                | intros; exfalso; lia]).
Qed.

Lemma resource_limits_verdict_witness :
  fst (Security.Test_ResourceLimits "api" compose_limited
         (TestResults.init "SECURITY")) = true.
Proof.
  apply (proj1 (resource_limits_verdict "api" compose_limited _
                  (TestResults.init "SECURITY") eq_refl)).
  split; [reflexivity | right; reflexivity].
Defined.

(** X4: on an inspected container the read-only check passes exactly
    when the root filesystem is read-only or the name of the container
    holds one of the eight words of [$writableAllowed]; a writable
    filesystem is recorded as justified in the second case and as a
    failure otherwise. *)
Theorem read_only_rootfs_verdict (Container : string) (c : Docker.Container)
  (hc : Docker.HostConfig) (st : TestResults.t) :
  Docker.inspect c = Docker.Inspected hc ->
  let allowed := exists w, In w Security.writableAllowed /\ occurs w Container in
  let check := Security.Test_ReadOnlyRootFS Container c in
  let recorded (passed : bool) (reason : string) :=
    records check st
      (Result.mk ("Read-only rootfs: " +:+ Container)
                 (if passed then "OK" else "FAIL") passed reason) in
  (fst (check st) = true <-> Docker.ReadonlyRootfs hc = true \/ allowed)
  /\ (Docker.ReadonlyRootfs hc = true -> recorded true "")
  /\ (Docker.ReadonlyRootfs hc = false -> allowed ->
      recorded true "Writable (justified for this service type)")
  /\ (Docker.ReadonlyRootfs hc = false -> ~ allowed ->
      recorded false "Filesystem writable without justification").
Proof.
  intros Hinspect allowed check recorded. subst allowed check recorded.
  unfold Security.Test_ReadOnlyRootFS. rewrite Hinspect. cbv zeta beta.
  pose proof (imatch_any_occurs Container Security.writableAllowed) as Hallowed.
  destruct (PS.imatch_any Container Security.writableAllowed);
    destruct (Docker.ReadonlyRootfs hc); cbn [orb andb negb];
    (split; [rewrite Add_TestResult_eq; cbn [fst]|split; [|split]]);
    try (intros; apply Add_TestResult_records);
    try discriminate.
  - split; auto.
  - split; [intros _; right; apply Hallowed; reflexivity | reflexivity].
  - intros _ Hn. exfalso. apply Hn, Hallowed. reflexivity.
  - split; auto.
  - split; [discriminate|]. intros [H|H]; [discriminate|].
    apply Hallowed in H. discriminate.
  - intros _ H. apply Hallowed in H. discriminate.
Qed.

Lemma read_only_rootfs_verdict_witness :
  records (Security.Test_ReadOnlyRootFS "td_docker_2025-db-1" db_container)
    (TestResults.init "SECURITY")
    (Result.mk "Read-only rootfs: td_docker_2025-db-1" "OK" true
               "Writable (justified for this service type)").
Proof.
  refine (proj1 (proj2 (proj2 (read_only_rootfs_verdict "td_docker_2025-db-1"
                                 db_container _ (TestResults.init "SECURITY") eq_refl)))
            eq_refl _).
  exists "db". split; [simpl; auto|]. apply imatch_occurs. reflexivity.
Defined.

Lemma foreach_Tests (prefix : string) (T : string -> Runner bool)
  (targets : list string) (st : TestResults.t) :
  names_its_result prefix T ->
  Tests (snd (foreach targets (fun target => Out_Null (T target)) st))
  = (Tests st ++ map (fun target => prefix +:+ target) targets)%list.
Proof.
  intros HT. revert st. induction targets as [|x targets IH]; intros st.
  - simpl. rewrite app_nil_r. reflexivity.
  - cbn [foreach]. unfold bind, Out_Null at 1. cbn [snd].
    rewrite IH. destruct (HT x st) as [r [Hsteps Hname]].
    unfold Tests. rewrite Hsteps, map_app. simpl. rewrite Hname, <- app_assoc.
    reflexivity.
Qed.

Ltac names_check :=
  unfold names_its_result; intros ? ?; cbv beta; autounfold with checks; cbv zeta;
  repeat match goal with
         | |- context [match ?x with _ => _ end] => destruct x
         end;
  rewrite Add_TestResult_eq; cbn [snd TestResults.Steps];
  eexists; split; reflexivity.

Lemma Test_NonRootUser_names (w : Security.World) :
  names_its_result "Non-root user: "
    (fun container => Security.Test_NonRootUser container (Security.docker w container)).
Proof. names_check. Qed.

Lemma Test_Capabilities_names (w : Security.World) :
  names_its_result "Capabilities: "
    (fun container =>
       Security.Test_Capabilities (Security.Keys w) container (Security.docker w container)).
Proof. names_check. Qed.

Lemma Test_SecurityOptions_names (w : Security.World) :
  names_its_result "Security options: "
    (fun container => Security.Test_SecurityOptions container (Security.docker w container)).
Proof. names_check. Qed.

Lemma Test_ResourceLimits_names (w : Security.World) :
  names_its_result "Resource limits: "
    (fun container => Security.Test_ResourceLimits container (Security.docker w container)).
Proof. names_check. Qed.

Lemma Test_ReadOnlyRootFS_names (w : Security.World) :
  names_its_result "Read-only rootfs: "
    (fun container => Security.Test_ReadOnlyRootFS container (Security.docker w container)).
Proof. names_check. Qed.

(** X5: when the security audit reaches its report, the list of
    containers is not empty and the report holds five results for each
    container, grouped by check and not by container: the non-root
    results of all containers first, then the capabilities, the security
    options, the resource limits and the read-only results, each group in
    the order of the containers. *)
Theorem security_report_layout (w : Security.World) (st : TestResults.t) :
  report (Security.main w) = Some st ->
  let containerList :=
    PS.items (if PS.truthy (Security.Containers w) then Security.Containers w
              else Security.Get_ContainerList (Security.running w)) in
  containerList <> []
  /\ Tests st
     = (map (fun container => "Non-root user: " +:+ container) containerList
        ++ map (fun container => "Capabilities: " +:+ container) containerList
        ++ map (fun container => "Security options: " +:+ container) containerList
        ++ map (fun container => "Resource limits: " +:+ container) containerList
        ++ map (fun container => "Read-only rootfs: " +:+ container) containerList)%list
  /\ TestResults.TotalTests st = 5 * Z.of_nat (length containerList).
Proof.
  unfold Security.main.
  set (resolved := if PS.truthy (Security.Containers w) then _ else _).
  destruct (PS.truthy resolved) eqn:Ht; cbn [negb orb]; [|discriminate].
  destruct (PS.Count resolved =? 0); [discriminate|].
  unfold final_report. cbn [report]. intros [= <-]. cbv zeta.
  split; [apply truthy_items_cons, Ht|].
  assert (Hlayout :
    Tests (snd (Security.steps w (PS.items resolved) (TestResults.init "SECURITY")))
    = (map (fun container => "Non-root user: " +:+ container) (PS.items resolved)
       ++ map (fun container => "Capabilities: " +:+ container) (PS.items resolved)
       ++ map (fun container => "Security options: " +:+ container) (PS.items resolved)
       ++ map (fun container => "Resource limits: " +:+ container) (PS.items resolved)
       ++ map (fun container => "Read-only rootfs: " +:+ container) (PS.items resolved))%list).
  { unfold Security.steps, bind.
    repeat match goal with
           | |- context [let (_, _) := ?m in _] => destruct m as [[] ?] eqn:?
           end.
    repeat match goal with
           | H : foreach _ _ ?s = (tt, ?s') |- _ =>
             apply (f_equal snd) in H; cbn [snd] in H; subst s'
           end.
    rewrite (foreach_Tests _ _ _ _ (Test_ReadOnlyRootFS_names w)).
    rewrite (foreach_Tests _ _ _ _ (Test_ResourceLimits_names w)).
    rewrite (foreach_Tests _ _ _ _ (Test_SecurityOptions_names w)).
    rewrite (foreach_Tests _ _ _ _ (Test_Capabilities_names w)).
    rewrite (foreach_Tests _ _ _ _ (Test_NonRootUser_names w)).
    unfold Tests. simpl. rewrite <- !app_assoc. reflexivity. }
  split; [exact Hlayout|].
  assert (Hreach : reachable "SECURITY"
            (snd (Security.steps w (PS.items resolved) (TestResults.init "SECURITY"))))
    by (apply adds_only_Security_steps, reach_init).
  rewrite (total_is_count _ (reachable_accumulator_ok _ _ Hreach)).
  unfold Steps_Count.
  rewrite <- (length_map Result.Test). fold (Tests (snd (Security.steps w (PS.items resolved) (TestResults.init "SECURITY")))).
  rewrite Hlayout, !length_app, !length_map. lia.
Qed.

Lemma security_report_layout_witness :
  exists st,
    report (Security.main api_only) = Some st
    /\ Tests st = ["Non-root user: api"; "Capabilities: api"; "Security options: api";
                   "Resource limits: api"; "Read-only rootfs: api"]
    /\ TestResults.TotalTests st = 5.
Proof.
  eexists. split; [reflexivity|].
  exact (proj2 (security_report_layout api_only _ eq_refl)).
Defined.

(* ================================================================== *)
(** ** Further properties: the final report and the step summaries *)
(* ================================================================== *)

Lemma exit_is_threshold_upto_200 :
  forallb (fun t => forallb (fun p => exit_is_threshold p (t + 1)) (upto (Z.to_nat (t + 2))))
          (upto 200) = true.
Proof. vm_compute. reflexivity. Qed.

(** X6: for a report of at most 200 results that the checks built,
    the exit status is 0 exactly when at least one check ran and the
    passed checks are at least seven tenths of all checks; otherwise it
    is 1.  The score is rounded to one decimal before it is compared
    with 70, which the bound keeps from mattering. *)
Theorem exit_status_threshold (category : string) (st : TestResults.t) :
  reachable category st ->
  Steps_Count st <= 200 ->
  (exit_code (final_report st) = 0
   <-> 0 < Steps_Count st /\ 7 * Steps_Count st <= 10 * TestResults.Passed st)
  /\ (exit_code (final_report st) = 0 \/ exit_code (final_report st) = 1).
Proof.
  intros Hreach Hbound.
  pose proof (reachable_accumulator_ok category st Hreach) as Hok.
  assert (Hpassed : 0 <= TestResults.Passed st <= Steps_Count st).
  { rewrite (passed_is_passes st Hok). unfold Steps_Count.
    pose proof (passes_fails (TestResults.Steps st)) as H.
    unfold passes, fails in *. lia. }
  split.
  2: { unfold final_report, exit_of_percentage. cbn [exit_code].
       destruct (Double.geb _ _); auto. }
  destruct (TestResults.Steps st) as [|r steps] eqn:Hsteps.
  - destruct (final_report_empty st Hsteps) as [_ Hexit]. rewrite Hexit.
    unfold Steps_Count. rewrite Hsteps. simpl. split; [discriminate | lia].
  - assert (Hpos : 1 <= Steps_Count st)
      by (unfold Steps_Count; rewrite Hsteps; simpl length; lia).
    unfold final_report. cbn [exit_code].
    rewrite totalPercentage_eq by (rewrite Hsteps; discriminate).
    pose proof exit_is_threshold_upto_200 as H.
    rewrite forallb_forall in H. specialize (H (Steps_Count st - 1)).
    rewrite forallb_forall in H.
    assert (Hin : In (Steps_Count st - 1) (upto 200)) by (apply upto_In; lia).
    specialize (H Hin (TestResults.Passed st)).
    replace (Steps_Count st - 1 + 1) with (Steps_Count st) in H by lia.
    assert (Hpin : In (TestResults.Passed st) (upto (Z.to_nat (Steps_Count st - 1 + 2))))
      by (apply upto_In; lia).
    specialize (H Hpin). unfold exit_is_threshold in H.
    apply Bool.eqb_prop in H.
    rewrite <- Z.eqb_eq, H, Z.leb_le. split; [intros; split; lia | intros [_ ?]; lia].
Qed.

Lemma exit_status_threshold_witness : exit_code (final_report seven_of_ten) = 0.
Proof.
  assert (Hreach : reachable "SECURITY" seven_of_ten).
  { unfold seven_of_ten. apply adds_only_foreach; [|apply reach_init].
    intros ok. apply adds_only_Add_TestResult. }
  assert (Hbound : Steps_Count seven_of_ten <= 200) by (vm_compute; discriminate).
  apply (proj1 (exit_status_threshold "SECURITY" seven_of_ten Hreach Hbound)).
  split; vm_compute; [reflexivity | discriminate].
Defined.

(** Beyond the bound the rounding shows: 142 passed checks out of 203
    are 69.95 percent, the score rounds to 70.0 and the runner exits
    with 0. *)
Lemma exit_status_142_of_203 :
  exit_of_percentage (Double.Round (Double.ratio100 142 203) 1) = 0
  /\ 10 * 142 < 7 * 203.
Proof. split; [vm_compute; reflexivity | lia]. Qed.

Lemma Select_Last_app {A} (l added : list A) :
  StepReport.Select_Last (length added) (l ++ added) = added.
Proof.
  unfold StepReport.Select_Last. rewrite length_app.
  replace (length l + length added - length added)%nat with (length l) by lia.
  rewrite skipn_app, skipn_all, Nat.sub_diag. reflexivity.
Qed.

(** X7: the summary a script prints after a step.  A step that
    recorded nothing prints nothing.  Otherwise the summary counts the
    results the step added, lists those that failed, and derives its
    percentage from its own passed count; that count is the number of
    passed results, except when exactly one result passed: the filter
    then yields the hashtable itself, whose [Count] is its five keys. *)
Theorem step_summary (checks : Runner unit) (st : TestResults.t)
  (added : list Result.t) :
  TestResults.Steps (snd (checks st)) = (TestResults.Steps st ++ added)%list ->
  (added = [] -> fst (StepReport.step checks st) = None)
  /\ (added <> [] ->
      exists printed,
        fst (StepReport.step checks st) = Some printed
        /\ StepReport.stepTotal printed = Z.of_nat (length added)
        /\ StepReport.failures printed
           = List.filter (fun r => negb (Result.Passed r)) added
        /\ (passes added <> 1 -> StepReport.stepPassed printed = passes added)
        /\ (passes added = 1 -> StepReport.stepPassed printed = 5)
        /\ StepReport.percentage printed
           = Double.Round (Double.ratio100 (StepReport.stepPassed printed)
                                           (StepReport.stepTotal printed)) 1).
Proof.
  intros Hsteps. unfold StepReport.step. cbn [fst].
  unfold StepReport.Show_StepResult, Steps_Count. rewrite Hsteps, length_app.
  replace (Z.of_nat (length (TestResults.Steps st) + length added)
           - Z.of_nat (length (TestResults.Steps st)))
    with (Z.of_nat (length added)) by lia.
  rewrite Nat2Z.id, Select_Last_app. split.
  - intros ->. reflexivity.
  - intros Hne. destruct (Z.eqb_spec (Z.of_nat (length added)) 0) as [E|E].
    + destruct added; [congruence | simpl in E; lia].
    + eexists. split; [reflexivity|]. cbn.
      split; [reflexivity|]. split; [reflexivity|].
      unfold passes.
      destruct (List.filter (fun r => Result.Passed r) added) as [|r [|r' l]];
        simpl; repeat split; try reflexivity; try lia; intros; lia.
Qed.

Lemma step_summary_witness :
  exists printed,
    fst (StepReport.step (Out_Null (Add_TestResult "Compose file exists" true ""))
           (TestResults.init "ORCHESTRATION")) = Some printed
    /\ StepReport.stepPassed printed = 5
    /\ StepReport.stepTotal printed = 1.
Proof.
  destruct (proj2 (step_summary (Out_Null (Add_TestResult "Compose file exists" true ""))
                     (TestResults.init "ORCHESTRATION")
                     [Result.mk "Compose file exists" "OK" true ""] eq_refl))
    as [printed (Hprinted & Htotal & _ & _ & Hone & _)]; [discriminate|].
  exists printed. split; [exact Hprinted|]. split; [apply Hone; reflexivity | exact Htotal].
Defined.

(** The line a step of one passing check prints: 500 percent, five out of
    one, in yellow. *)
Lemma step_of_one_passing_check (Test Reason : string) :
  fst (StepReport.step (Out_Null (Add_TestResult Test true Reason))
         (TestResults.init "ORCHESTRATION"))
  = Some (StepReport.mkPrinted SecurityCaps.Yellow (Double.of_Z 500) 5 1 []).
Proof. vm_compute. reflexivity. Qed.

(* ================================================================== *)
(** ** Further properties: the aggregator (run-all-tests.ps1) *)
(* ================================================================== *)

Lemma run_tests_executed (StopOnFailure : bool) (world : Suite.TestFile -> Suite.Run)
  (files : list Suite.TestFile) :
  Suite.run_tests StopOnFailure world files []
  = map (result_of world) (executed StopOnFailure world files).
Proof.
  induction files as [|f files IH]; [reflexivity|].
  rewrite run_tests_cons. cbn [executed map].
  destruct (StopOnFailure && failed_run (world f)); [reflexivity|].
  rewrite IH. reflexivity.
Qed.

Lemma executed_all (world : Suite.TestFile -> Suite.Run) (files : list Suite.TestFile) :
  executed false world files = files.
Proof. induction files as [|f files IH]; simpl; [|rewrite IH]; reflexivity. Qed.

Lemma executed_prefix (StopOnFailure : bool) (world : Suite.TestFile -> Suite.Run)
  (files : list Suite.TestFile) :
  exists rest, files = (executed StopOnFailure world files ++ rest)%list.
Proof.
  induction files as [|f files [rest IH]]; [exists []; reflexivity|].
  cbn [executed]. destruct (StopOnFailure && failed_run (world f)).
  - exists files. reflexivity.
  - exists rest. simpl. rewrite <- IH. reflexivity.
Qed.

(** X8: the aggregator records one result for each test file its loop
    comes to, in the order of [$TestFiles] and under the name of the
    file.  Without [-StopOnFailure] these are all eight files; with it
    they are a prefix of the list, and every result but the last is a
    pass or a file that was not found: a missing file does not stop the
    loop. *)
Theorem suite_results (StopOnFailure : bool) (world : Suite.TestFile -> Suite.Run) :
  let Results := Suite.Results (Suite.main StopOnFailure world) in
  let files := executed StopOnFailure world Suite.TestFiles in
  Results = map (result_of world) files
  /\ map Suite.rName Results = map Suite.Name files
  /\ (exists rest, Suite.TestFiles = (files ++ rest)%list)
  /\ (StopOnFailure = false -> files = Suite.TestFiles /\ length Results = 8%nat)
  /\ (forall before r after,
         Results = (before ++ r :: after)%list -> after <> [] ->
         StopOnFailure = true ->
         Suite.Passed r = true \/ Suite.Status r = "FILE NOT FOUND").
Proof.
  intros Results files. subst Results files. unfold Suite.main. cbn [Suite.Results].
  rewrite run_tests_executed.
  split; [reflexivity|]. split.
  { rewrite map_map. apply map_ext. intros f. unfold result_of.
    destruct (world f) as [|exitCode|message]; [|destruct (exitCode =? 0)|];
      reflexivity. }
  split; [apply executed_prefix|]. split.
  { intros ->. rewrite executed_all. split; reflexivity. }
  intros before r after Hsplit Hafter ->.
  revert before Hsplit. generalize Suite.TestFiles as files.
  induction files as [|f files IH]; intros before Hsplit.
  - destruct before; discriminate.
  - cbn [executed map andb] in Hsplit.
    destruct (failed_run (world f)) eqn:Hf.
    + destruct before as [|b [|b' before]]; simpl in Hsplit.
      * injection Hsplit as _ H. symmetry in H. congruence.
      * injection Hsplit as _ H. discriminate.
      * injection Hsplit as _ H. discriminate.
    + destruct before as [|b before]; simpl in Hsplit.
      * injection Hsplit as <- _. unfold result_of, failed_run in *.
        destruct (world f) as [|exitCode|message]; [right; reflexivity| |discriminate].
        destruct (exitCode =? 0); [left; reflexivity | discriminate].
      * injection Hsplit as _ H. apply (IH before H).
Qed.

(** X9: the aggregator exits with 0 exactly when every one of the
    eight test files is present and its script exits with 0, with or
    without [-StopOnFailure]; otherwise it exits with 1.  A missing test
    file fails the run. *)
Theorem suite_exit_status (StopOnFailure : bool) (world : Suite.TestFile -> Suite.Run) :
  (Suite.exit_code (Suite.main StopOnFailure world) = 0
   <-> forall f, In f Suite.TestFiles -> world f = Suite.Exited 0)
  /\ (Suite.exit_code (Suite.main StopOnFailure world) = 0
      \/ Suite.exit_code (Suite.main StopOnFailure world) = 1).
Proof.
  split.
  2: { unfold Suite.main, Suite.exit_of. cbn [Suite.exit_code].
       destruct (_ =? 0); auto. }
  unfold Suite.main. cbn [Suite.exit_code].
  rewrite exit_of_all_passed, run_tests_executed, Forall_map.
  generalize Suite.TestFiles as files.
  induction files as [|f files IH].
  - split; [intros _ f [] | constructor].
  - cbn [executed]. rewrite Forall_cons_iff, result_passed_exited_0.
    assert (Hf : exited_0 (world f) = true <-> world f = Suite.Exited 0).
    { unfold exited_0. destruct (world f) as [|exitCode|message]; try easy.
      rewrite Z.eqb_eq. split; [intros ->; reflexivity | intros [= ->]; reflexivity]. }
    split.
    + intros [Hpass Hrest]. apply Hf in Hpass.
      rewrite Hpass in Hrest. cbn [failed_run Z.eqb negb] in Hrest.
      rewrite andb_false_r in Hrest. pose proof (proj1 IH Hrest) as Hall.
      intros g [<-|Hg]; [exact Hpass | apply Hall, Hg].
    + intros Hall. assert (Hpass : world f = Suite.Exited 0) by (apply Hall; left; reflexivity).
      split; [apply Hf, Hpass|]. rewrite Hpass. cbn [failed_run Z.eqb negb].
      rewrite andb_false_r. apply (proj2 IH). intros g Hg. apply Hall. right. exact Hg.
Qed.

(* ================================================================== *)
(** ** Further properties: the capabilities audit (test-security-caps.ps1) *)
(* ================================================================== *)

Lemma RequiredCaps_lookup (k : string) (caps : list string) :
  SecurityCaps.RequiredCaps !! k = Some caps <->
  In (k, caps)
     [ ("nginx", ["CAP_CHOWN"; "CAP_SETGID"; "CAP_SETUID"]);
       ("frontend", ["CAP_CHOWN"; "CAP_SETGID"; "CAP_SETUID"]);
       ("postgres", ["CAP_CHOWN"; "CAP_DAC_OVERRIDE"; "CAP_FOWNER"; "CAP_SETGID"; "CAP_SETUID"]);
       ("db", ["CAP_CHOWN"; "CAP_DAC_OVERRIDE"; "CAP_FOWNER"; "CAP_SETGID"; "CAP_SETUID"]);
       ("node", []);
       ("api", []) ].
Proof.
  unfold SecurityCaps.RequiredCaps. split.
  - intros Hk.
    repeat (apply lookup_insert_Some in Hk as [[<- <-]|[_ Hk]]; [simpl; tauto|]).
    apply lookup_singleton_Some in Hk as [<- <-]. simpl. tauto.
  - simpl. intros [H|[H|[H|[H|[H|[H|[]]]]]]]; injection H as <- <-;
      vm_compute; reflexivity.
Qed.

Lemma Justified_iff (ServiceName cap : string) :
  SecurityCaps.Justified ServiceName cap = true <->
  exists k caps, SecurityCaps.RequiredCaps !! k = Some caps
                 /\ occurs k ServiceName /\ holds caps cap.
Proof.
  unfold SecurityCaps.Justified. rewrite existsb_exists. split.
  - intros [[k caps] [Hin Hkv]]. apply andb_true_iff in Hkv as [Hk Hc].
    cbn [fst snd] in Hk, Hc.
    exists k, caps. split; [|split].
    + exact (proj1 (elem_of_map_to_list _ _ _) (proj2 (list_elem_of_In _ _) Hin)).
    + exact (proj1 (imatch_occurs _ _) Hk).
    + exact (proj1 (contains_holds _ _) Hc).
  - intros [k [caps [Hlook [Hk Hc]]]]. exists (k, caps). split.
    + exact (proj1 (list_elem_of_In _ _) (proj2 (elem_of_map_to_list _ _ _) Hlook)).
    + cbn [fst snd]. apply andb_true_iff.
      split; [exact (proj2 (imatch_occurs _ _) Hk) | exact (proj2 (contains_holds _ _) Hc)].
Qed.

Lemma holds_istarts (caps : list string) (cap p : string) :
  Forall (fun e => PS.istarts p e = true) caps ->
  holds caps cap -> PS.istarts p cap = true.
Proof.
  intros Hall [e [Hin He]].
  pose proof (proj1 (List.Forall_forall _ _) Hall e Hin) as He_p. clear Hall.
  rename He_p into Hall. apply istarts_lower in Hall as [post Hpost].
  apply istarts_lower. exists post. rewrite <- He. exact Hpost.
Qed.

(** X10: an added capability is judged justified exactly when the name
    of the service holds [nginx] or [frontend] and the capability is one
    of the three of the web list, or the name holds [postgres] or [db]
    and it is one of the five of the database list.  Every justified
    capability is written with the prefix [CAP_], nothing is justified
    for the service [api], and a service that adds capabilities written
    without the prefix gets half a point whatever they are. *)
Theorem justified_capability (ServiceName cap : string) :
  let web := ["CAP_CHOWN"; "CAP_SETGID"; "CAP_SETUID"] in
  let database :=
    ["CAP_CHOWN"; "CAP_DAC_OVERRIDE"; "CAP_FOWNER"; "CAP_SETGID"; "CAP_SETUID"] in
  (SecurityCaps.Justified ServiceName cap = true <->
     ((occurs "nginx" ServiceName \/ occurs "frontend" ServiceName) /\ holds web cap)
     \/ ((occurs "postgres" ServiceName \/ occurs "db" ServiceName)
         /\ holds database cap))
  /\ (SecurityCaps.Justified ServiceName cap = true -> PS.istarts "CAP_" cap = true)
  /\ SecurityCaps.Justified "api" cap = false
  /\ (forall (hc : Docker.HostConfig) (a : SecurityCaps.Audit),
         PS.truthy (Docker.CapAdd hc) = true ->
         (forall added, In added (PS.items (Docker.CapAdd hc)) ->
                        PS.istarts "CAP_" added = false) ->
         SecurityCaps.Score (SecurityCaps.check_CapAdd ServiceName hc a)
         = PrimFloat.add (SecurityCaps.Score a) SecurityCaps.half).
Proof.
  intros web database.
  assert (Hiff : SecurityCaps.Justified ServiceName cap = true <->
     ((occurs "nginx" ServiceName \/ occurs "frontend" ServiceName) /\ holds web cap)
     \/ ((occurs "postgres" ServiceName \/ occurs "db" ServiceName)
         /\ holds database cap)).
  { split.
    - intros Hj. apply Justified_iff in Hj as [k [caps [Hlook [Hk Hc]]]].
      apply RequiredCaps_lookup in Hlook.
      simpl in Hlook.
      destruct Hlook as [H|[H|[H|[H|[H|[H|[]]]]]]]; injection H as <- <-;
        try (left; split; [auto | exact Hc]);
        try (right; split; [auto | exact Hc]);
        destruct Hc as [e [[] _]].
    - intros Hcases. apply Justified_iff.
      destruct Hcases as [[[Hk|Hk] Hc]|[[Hk|Hk] Hc]].
      + exists "nginx", web. split; [apply RequiredCaps_lookup; simpl; tauto | auto].
      + exists "frontend", web. split; [apply RequiredCaps_lookup; simpl; tauto | auto].
      + exists "postgres", database. split; [apply RequiredCaps_lookup; simpl; tauto | auto].
      + exists "db", database. split; [apply RequiredCaps_lookup; simpl; tauto | auto]. }
  assert (Hprefix : forall s c, SecurityCaps.Justified s c = true ->
                                PS.istarts "CAP_" c = true).
  { intros s c Hj. apply Justified_iff in Hj as [k [caps [Hlook [_ Hc]]]].
    apply RequiredCaps_lookup in Hlook. simpl in Hlook.
    refine (holds_istarts caps c "CAP_" _ Hc).
    destruct Hlook as [H|[H|[H|[H|[H|[H|[]]]]]]]; injection H as <- <-;
      repeat constructor. }
  split; [exact Hiff|]. split; [apply Hprefix|]. split.
  - destruct (SecurityCaps.Justified "api" cap) eqn:E; [|reflexivity].
    apply Justified_iff in E as [k [caps [Hlook [Hk Hc]]]].
    apply RequiredCaps_lookup in Hlook. simpl in Hlook.
    apply imatch_occurs in Hk.
    destruct Hlook as [H|[H|[H|[H|[H|[H|[]]]]]]]; injection H as <- <-;
      try (vm_compute in Hk; discriminate); destruct Hc as [e [[] _]].
  - intros hc a Ht Hadded. unfold SecurityCaps.check_CapAdd. cbv zeta.
    rewrite Ht. cbn [negb orb].
    assert (Hne : PS.items (Docker.CapAdd hc) <> []) by (apply truthy_items_cons, Ht).
    destruct (Z.eqb_spec (PS.Count (Docker.CapAdd hc)) 0) as [E|E].
    + unfold PS.Count in E. destruct (PS.items (Docker.CapAdd hc)); [congruence|].
      simpl in E. lia.
    + assert (Hnone : forallb (SecurityCaps.Justified ServiceName)
                        (PS.items (Docker.CapAdd hc)) = false).
      { destruct (PS.items (Docker.CapAdd hc)) as [|c0 l]; [congruence|].
        simpl. destruct (SecurityCaps.Justified ServiceName c0) eqn:Hj; [|reflexivity].
        apply Hprefix in Hj. rewrite Hadded in Hj by (left; reflexivity). discriminate. }
      rewrite Hnone. reflexivity.
Qed.

Lemma hardened_score (ServiceName : string) (hc : Docker.HostConfig) :
  hardened hc ->
  let r := fst (SecurityCaps.Test_ContainerCapabilities ServiceName (SecurityCaps.Found hc)) in
  SecurityCaps.maxScore r = Some 6
  /\ (SecurityCaps.score r = Double.of_Z 5 \/ SecurityCaps.score r = 5.5%float
      \/ SecurityCaps.score r = Double.of_Z 6).
Proof.
  intros (Hdrop & Hadd & Hopt & Hpriv & Hlimit). cbv zeta.
  unfold SecurityCaps.Test_ContainerCapabilities. cbv zeta.
  cbn [fst SecurityCaps.maxScore SecurityCaps.score].
  split; [reflexivity|].
  unfold SecurityCaps.check_Limits, SecurityCaps.check_UsernsMode,
    SecurityCaps.check_Privileged, SecurityCaps.check_SecurityOpt,
    SecurityCaps.check_CapAdd, SecurityCaps.check_CapDrop. cbv zeta.
  rewrite (holds_truthy (Docker.CapDrop hc) "ALL") by (discriminate || exact Hdrop).
  rewrite (proj2 (contains_holds _ _) Hdrop).
  rewrite (truthy_items_nil (Docker.CapAdd hc) Hadd).
  rewrite (holds_truthy (Docker.SecurityOpt hc) "no-new-privileges:true") by (discriminate || exact Hopt).
  rewrite (proj2 (contains_holds _ _) Hopt).
  rewrite Hpriv. cbn [andb negb orb].
  assert (Hlim : (0 <? Docker.Memory hc)
                 || (0 <? Docker.CpuQuota hc) && (0 <? Docker.CpuPeriod hc) = true).
  { apply orb_true_iff. rewrite andb_true_iff, !Z.ltb_lt. exact Hlimit. }
  rewrite Hlim.
  destruct (PS.ieq (Docker.UsernsMode hc) "host");
    [|destruct (PS.truthy_string (Docker.UsernsMode hc))];
    cbn [SecurityCaps.add_score SecurityCaps.Score]; vm_compute; auto.
Qed.

(** X11: the capabilities audit exits with 0, 1 or 2.  It exits with
    2 when none of the three services has a container that could be
    inspected, and with 0 when at least one has and every inspected
    service drops all capabilities, adds none, sets
    [no-new-privileges:true], is not privileged and has a memory or CPU
    limit. *)
Theorem capabilities_audit_exit (compose : string -> SecurityCaps.Lookup) :
  let services := ["api"; "frontend"; "db"] in
  (SecurityCaps.main compose = 0 \/ SecurityCaps.main compose = 1
   \/ SecurityCaps.main compose = 2)
  /\ ((forall s, In s services -> ~ found (compose s)) -> SecurityCaps.main compose = 2)
  /\ ((exists s, In s services /\ found (compose s)) ->
      (forall s hc, In s services -> compose s = SecurityCaps.Found hc -> hardened hc) ->
      SecurityCaps.main compose = 0).
Proof.
  intros services. subst services. split; [|split].
  - unfold SecurityCaps.main. cbv zeta.
    repeat match goal with |- context [if ?b then _ else _] => destruct b end; auto.
  - intros Hnone. unfold SecurityCaps.main, SecurityCaps.global_report. cbn [map].
    pose proof (Hnone "api" ltac:(simpl; auto)) as Ha.
    pose proof (Hnone "frontend" ltac:(simpl; auto)) as Hf.
    pose proof (Hnone "db" ltac:(simpl; auto)) as Hd.
    destruct (compose "api"), (compose "frontend"), (compose "db");
      simpl in Ha, Hf, Hd; try contradiction; vm_compute; reflexivity.
  - intros [s [Hs Hfound]] Hall.
    unfold SecurityCaps.main, SecurityCaps.global_report. cbn [map].
    pose proof (fun hc => Hall "api" hc ltac:(simpl; auto)) as Ha.
    pose proof (fun hc => Hall "frontend" hc ltac:(simpl; auto)) as Hf.
    pose proof (fun hc => Hall "db" hc ltac:(simpl; auto)) as Hd.
    assert (Hsome : found (compose "api") \/ found (compose "frontend")
                    \/ found (compose "db")).
    { simpl in Hs. destruct Hs as [<-|[<-|[<-|[]]]]; auto. }
    clear s Hs Hfound Hall.
    destruct (compose "api") as [| |hca];
      destruct (compose "frontend") as [| |hcf];
      destruct (compose "db") as [| |hcd];
      simpl in Hsome; try tauto; clear Hsome;
      try (destruct (hardened_score "api" hca (Ha hca eq_refl)) as [Ham Has];
           destruct (fst (SecurityCaps.Test_ContainerCapabilities "api" (SecurityCaps.Found hca)))
             as [sa sca msa pa]; cbn [SecurityCaps.maxScore SecurityCaps.score] in Ham, Has);
      try (destruct (hardened_score "frontend" hcf (Hf hcf eq_refl)) as [Hfm Hfs];
           destruct (fst (SecurityCaps.Test_ContainerCapabilities "frontend" (SecurityCaps.Found hcf)))
             as [sf scf msf pf]; cbn [SecurityCaps.maxScore SecurityCaps.score] in Hfm, Hfs);
      try (destruct (hardened_score "db" hcd (Hd hcd eq_refl)) as [Hdm Hds];
           destruct (fst (SecurityCaps.Test_ContainerCapabilities "db" (SecurityCaps.Found hcd)))
             as [sd scd msd pd]; cbn [SecurityCaps.maxScore SecurityCaps.score] in Hdm, Hds);
      subst;
      repeat match goal with
             | H : _ \/ _ |- _ => destruct H as [H|H]
             end; subst; vm_compute; reflexivity.
Qed.

(* ================================================================== *)
(** ** Further properties: the multi-stage audit (test-multistage.ps1) *)
(* ================================================================== *)

Lemma filter_filter {A} (f g : A -> bool) (l : list A) :
  List.filter f (List.filter g l) = List.filter (fun x => g x && f x) l.
Proof.
  induction l as [|x l IH]; [reflexivity|]. simpl.
  destruct (g x); simpl; [destruct (f x)|]; rewrite IH; reflexivity.
Qed.

Lemma filter_nil_sub {A} (f g : A -> bool) (l : list A) :
  (forall x, g x = true -> f x = true) ->
  List.filter f l = [] -> List.filter g l = [].
Proof.
  intros Hsub. induction l as [|x l IH]; [reflexivity|]. simpl.
  destruct (g x) eqn:Hg.
  - rewrite (Hsub x Hg). discriminate.
  - destruct (f x); [discriminate | exact IH].
Qed.

Lemma project_image_nonempty (i : string) : project_image i = true -> i <> "".
Proof. intros H ->. vm_compute in H. discriminate. Qed.

(** X12: the images the multi-stage audit looks at.  A non-empty
    [-Images] argument is used as it is.  Otherwise the list is what
    [docker images] printed, without the dangling images and restricted
    to names of the project or of one of its three base images; when
    nothing is kept the function returns no list. *)
Theorem image_list (w : MultiStage.World) :
  (PS.truthy (MultiStage.Images w) = true ->
   MultiStage.Get_ImageList w = MultiStage.Images w)
  /\ (PS.truthy (MultiStage.Images w) = false ->
      let kept := List.filter project_image (PS.items (MultiStage.allImages w)) in
      PS.items (MultiStage.Get_ImageList w) = kept
      /\ (kept = [] <-> MultiStage.Get_ImageList w = None)
      /\ forall i, In i (PS.items (MultiStage.Get_ImageList w)) ->
                   In i (PS.items (MultiStage.allImages w))
                   /\ PS.istarts "<none>:" i = false).
Proof.
  unfold MultiStage.Get_ImageList. split; [intros ->; reflexivity|].
  intros ->. cbv zeta. rewrite !filter_filter. fold project_image.
  set (kept := List.filter project_image (PS.items (MultiStage.allImages w))).
  assert (Hkept : forall i, In i kept -> project_image i = true
                                         /\ In i (PS.items (MultiStage.allImages w))).
  { intros i Hi. apply filter_In in Hi. tauto. }
  assert (Hlist : PS.items (if PS.truthy (Some kept) then Some kept
                            else match List.filter
                                         (fun x => negb (PS.istarts "<none>:" x)
                                                   && PS.imatch x "td_docker_2025")
                                         (PS.items (MultiStage.allImages w)) with
                                 | [] => None
                                 | l => Some l
                                 end) = kept
                  /\ (kept = [] <->
                      (if PS.truthy (Some kept) then Some kept
                       else match List.filter
                                    (fun x => negb (PS.istarts "<none>:" x)
                                              && PS.imatch x "td_docker_2025")
                                    (PS.items (MultiStage.allImages w)) with
                            | [] => None
                            | l => Some l
                            end) = None)).
  { destruct kept as [|i [|j kept']] eqn:E.
    - cbn [PS.truthy].
      rewrite (filter_nil_sub project_image _ (PS.items (MultiStage.allImages w)));
        [split; [reflexivity | tauto] | | exact E].
      intros x Hx. unfold project_image. apply andb_true_iff in Hx as [-> ->].
      reflexivity.
    - cbn [PS.truthy].
      assert (Hi : i <> "") by (apply project_image_nonempty, Hkept; left; reflexivity).
      destruct i; [congruence|]. cbn [PS.truthy_string].
      split; [reflexivity | split; discriminate].
    - cbn [PS.truthy]. split; [reflexivity | split; discriminate]. }
  destruct Hlist as [Hitems Hnone]. split; [exact Hitems|]. split; [exact Hnone|].
  rewrite Hitems. intros i Hi. destruct (Hkept i Hi) as [Hp Hin].
  split; [exact Hin|]. unfold project_image in Hp.
  apply andb_true_iff in Hp as [Hp _]. apply negb_true_iff in Hp. exact Hp.
Qed.

(** The reason of a failed size check gives the size in MB with its
    two decimals. *)
Lemma image_size_reason :
  MultiStage.Test_ImageSize "td_docker_2025-api" large_image
    (TestResults.init "MULTI-STAGE BUILD")
  = (false,
     TestResults.mk "MULTI-STAGE BUILD" 1 0 1
       [Result.mk "Image size: td_docker_2025-api" "FAIL" false
                  "612.35 MB (exceeds 500 MB)"]).
Proof. vm_compute. reflexivity. Qed.

(** X13: the Alpine check reads, from a [FROM] line, the first word
    after the keyword.  For a Dockerfile that consists of one [FROM]
    line with at least two words and of lines without [FROM] statement
    below it, the base image is taken to be the first word, and the
    check passes exactly when that word holds [alpine]: an option such
    as [--platform] in front of the image is read as the image. *)
Theorem alpine_check_reads_first_token (d : MultiStage.Dockerfile)
  (token tail below : string) (st : TestResults.t) :
  MultiStage.present d = true ->
  token <> "" -> no_blank token -> one_line tail ->
  MultiStage.fromStatements_of below = [] ->
  MultiStage.content d = "FROM " +:+ token +:+ " " +:+ tail +:+ nl +:+ below ->
  MultiStage.fromStatements_of (MultiStage.content d) = [token]
  /\ (fst (MultiStage.Test_AlpineBaseImage d st) = true <-> occurs "alpine" token)
  /\ (~ occurs "alpine" token ->
      records (MultiStage.Test_AlpineBaseImage d) st
        (Result.mk ("Alpine image: " +:+ MultiStage.Leaf d) "FAIL" false
                   ("Base: " +:+ token +:+ " (not Alpine)"))).
Proof.
  intros Hpresent Hne Hnb Htail Hbelow Hcontent.
  assert (Hfrom : MultiStage.fromStatements_of (MultiStage.content d) = [token]).
  { rewrite Hcontent. unfold MultiStage.fromStatements_of.
    change ("FROM " +:+ token +:+ " " +:+ tail +:+ nl +:+ below)
      with (String "F" ("ROM " +:+ token +:+ " " +:+ tail +:+ nl +:+ below)).
    cbn [MultiStage.Matches].
    change (String "F" ("ROM " +:+ token +:+ " " +:+ tail +:+ nl +:+ below))
      with ("FROM " +:+ token +:+ " " +:+ (tail +:+ nl +:+ below)).
    rewrite match_FROM_image_token by assumption.
    replace (Ascii.eqb "F" MultiStage.newline) with false by reflexivity.
    f_equal.
    replace ("ROM " +:+ token +:+ " " +:+ tail +:+ nl +:+ below)
      with (("ROM " +:+ token +:+ " " +:+ tail) +:+ String MultiStage.newline below).
    2: { rewrite !append_assoc. reflexivity. }
    rewrite Matches_inside_line.
    - exact Hbelow.
    - apply (one_line_app "ROM "); [reflexivity|].
      apply one_line_app; [apply no_blank_one_line, Hnb|].
      apply (one_line_app " "); [reflexivity | exact Htail].
    - rewrite !length_append. simpl. lia. }
  split; [exact Hfrom|].
  unfold MultiStage.Test_AlpineBaseImage. rewrite Hpresent, Hfrom. cbn [negb last].
  cbv zeta. split.
  - rewrite Add_TestResult_eq. cbn [fst]. apply imatch_occurs.
  - intros Hnot. destruct (PS.imatch token "alpine") eqn:E.
    + exfalso. apply Hnot, imatch_occurs, E.
    + apply Add_TestResult_records.
Qed.

Lemma alpine_check_reads_first_token_witness :
  records (MultiStage.Test_AlpineBaseImage platform_Dockerfile)
    (TestResults.init "MULTI-STAGE BUILD")
    (Result.mk "Alpine image: Dockerfile" "FAIL" false
               "Base: --platform=linux/amd64 (not Alpine)").
Proof.
  refine (proj2 (proj2 (alpine_check_reads_first_token platform_Dockerfile
                          "--platform=linux/amd64" "node:22-alpine"
                          ("WORKDIR /app" +:+ nl +:+ "USER node" +:+ nl)
                          (TestResults.init "MULTI-STAGE BUILD")
                          eq_refl _ eq_refl eq_refl eq_refl eq_refl)) _).
  - discriminate.
  - intros H. apply imatch_occurs in H. discriminate H.
Defined.

(* ================================================================== *)
(** ** Further properties: the environment audit (tests/test-environment.ps1) *)
(* ================================================================== *)

Lemma filter_pos {A} (f : A -> bool) (l : list A) :
  0 < Z.of_nat (length (List.filter f l)) <-> exists x, In x l /\ f x = true.
Proof.
  split.
  - intros H. destruct (List.filter f l) as [|x rest] eqn:E; [simpl in H; lia|].
    exists x. apply filter_In. rewrite E. left. reflexivity.
  - intros [x Hx]. apply filter_In in Hx.
    destruct (List.filter f l); [destruct Hx | simpl; lia].
Qed.

(** X14: the ENV-usage check counts the lines of the Dockerfile whose
    first word is [ENV] and those whose first word is [ARG], letters
    compared without case, whether a line starts an instruction or
    continues one.  For a Dockerfile that is present, in a folder with a
    name, given by its lines, none of which is the word [ENV] or the word
    [ARG] alone: the check passes exactly when some line starts with
    [ENV] or [ARG] or the name of the folder holds one of the words of
    [$envOptionalFolders]; each of the three outcomes is recorded with
    its own reason. *)
Theorem env_usage_check (d : MultiStage.Dockerfile) (folder : string)
  (ls : list string) (st : TestResults.t) :
  MultiStage.present d = true ->
  MultiStage.parentFolder d = Some folder ->
  MultiStage.content d = lines_text ls ->
  Forall (regular "ENV") ls -> Forall (regular "ARG") ls ->
  let uses := some_line_begins "ENV" ls \/ some_line_begins "ARG" ls in
  let optional :=
    exists word, In word Environment.envOptionalFolders /\ occurs word folder in
  let check := Environment.Test_DockerfileEnvUsage d in
  let recorded (passed : bool) (reason : string) :=
    records check st
      (Result.mk ("ENV usage: " +:+ MultiStage.Leaf d)
                 (if passed then "OK" else "FAIL") passed reason) in
  (fst (check st) = true <-> uses \/ optional)
  /\ (uses -> recorded true "")
  /\ (~ uses -> optional ->
      recorded true
        ("No ENV/ARG (optional for " +:+ folder +:+ " - uses docker-compose env)"))
  /\ (~ uses -> ~ optional -> recorded false "No ENV/ARG statements").
Proof.
  intros Hpresent Hfolder Htext Henv Harg uses optional check recorded.
  subst uses optional check recorded. cbv beta.
  unfold Environment.Test_DockerfileEnvUsage. rewrite Hpresent, Hfolder, Htext.
  cbn [negb]. cbv zeta.
  rewrite !count_keyword_lines by (discriminate || reflexivity || assumption).
  set (envCount := Z.of_nat (length (List.filter (first_word_is "ENV") ls))).
  set (argCount := Z.of_nat (length (List.filter (first_word_is "ARG") ls))).
  assert (Huses : 0 < envCount + argCount
                  <-> some_line_begins "ENV" ls \/ some_line_begins "ARG" ls).
  { unfold some_line_begins. rewrite <- !filter_pos. fold envCount argCount.
    subst envCount argCount. lia. }
  pose proof (imatch_any_occurs folder Environment.envOptionalFolders) as Hopt.
  destruct (Z.ltb_spec 0 (envCount + argCount)) as [Hpos|Hzero]; cbn [negb orb andb].
  - apply Huses in Hpos.
    split; [rewrite Add_TestResult_eq; cbn [fst]; split; auto|].
    split; [intros _; apply Add_TestResult_records|].
    split; intros Hn; contradiction.
  - assert (Hnot : ~ (some_line_begins "ENV" ls \/ some_line_begins "ARG" ls))
      by (intros H; apply Huses in H; lia).
    destruct (PS.imatch_any folder Environment.envOptionalFolders); cbn [negb orb andb].
    + split; [rewrite Add_TestResult_eq; cbn [fst];
              split; [intros _; right; apply Hopt; reflexivity | reflexivity]|].
      split; [intros H; contradiction|].
      split; [intros _ _; apply Add_TestResult_records|].
      intros _ Hn. exfalso. apply Hn, Hopt. reflexivity.
    + split.
      { rewrite Add_TestResult_eq. cbn [fst]. split; [discriminate|].
        intros [H|H]; [contradiction|]. apply Hopt in H. discriminate. }
      split; [intros H; contradiction|].
      split; [intros _ H; apply Hopt in H; discriminate|].
      intros _ _. apply Add_TestResult_records.
Qed.

Lemma env_usage_check_witness :
  records (Environment.Test_DockerfileEnvUsage env_Dockerfile)
    (TestResults.init "ENVIRONMENT CONFIGURATION")
    (Result.mk "ENV usage: Dockerfile" "OK" true "")
  /\ fst (Environment.Test_DockerfileEnvUsage api_Dockerfile
            (TestResults.init "ENVIRONMENT CONFIGURATION")) = false
  /\ fst (Environment.Test_DockerfileEnvUsage frontend_Dockerfile
            (TestResults.init "ENVIRONMENT CONFIGURATION")) = true.
Proof.
  split; [|split].
  - refine (proj1 (proj2 (env_usage_check env_Dockerfile "api" env_lines
                            (TestResults.init "ENVIRONMENT CONFIGURATION")
                            eq_refl eq_refl eq_refl _ _)) _);
      [regular_lines | regular_lines |].
    left. exists "ENV NODE_ENV=production". split; [simpl; auto | reflexivity].
  - destruct (env_usage_check api_Dockerfile "api" api_lines
                (TestResults.init "ENVIRONMENT CONFIGURATION") eq_refl eq_refl eq_refl)
      as (_ & _ & _ & Hfail); [regular_lines | regular_lines |].
    apply Hfail.
    + intros [[l [Hin Hl]]|[l [Hin Hl]]]; simpl in Hin;
        repeat (destruct Hin as [<-|Hin]; [discriminate Hl|]); destruct Hin.
    + intros [word [Hin Hocc]]. apply imatch_occurs in Hocc.
      simpl in Hin. destruct Hin as [<-|[<-|[<-|[<-|[]]]]]; discriminate Hocc.
  - refine (proj2 (proj1 (env_usage_check frontend_Dockerfile "frontend" frontend_lines
                    (TestResults.init "ENVIRONMENT CONFIGURATION")
                    eq_refl eq_refl eq_refl _ _)) _);
      [regular_lines | regular_lines |].
    right. exists "frontend". split; [simpl; auto|].
    apply imatch_occurs. reflexivity.
Defined.

(** A line that continues a command counts as well when its first word
    is [env]: no instruction of this Dockerfile is [ENV] or [ARG], and
    the check passes. *)
Lemma env_usage_of_a_continuation_line :
  List.filter (first_word_is "ENV") (instruction_starts false piped_lines) = []
  /\ List.filter (first_word_is "ARG") (instruction_starts false piped_lines) = []
  /\ fst (Environment.Test_DockerfileEnvUsage
            piped_Dockerfile
            (TestResults.init "ENVIRONMENT CONFIGURATION")) = true.
Proof. repeat split; vm_compute; reflexivity. Qed.

Lemma all_of_drop (f : ascii -> bool) (n : nat) (s : string) :
  SecretScan.all_of f s = true -> SecretScan.all_of f (MultiStage.drop n s) = true.
Proof.
  revert s. induction n as [|n IH]; intros [|c s] H; simpl; try exact H.
  simpl in H. apply andb_true_iff in H as [_ H]. apply IH, H.
Qed.

Lemma match_quoted_value_quote (s : string) (m : nat) :
  SecretScan.match_quoted_value s = Some m -> ~ no_quote s.
Proof.
  unfold SecretScan.match_quoted_value, no_quote. intros H Hno.
  pose proof (all_of_drop _ (MultiStage.blanks s) s Hno) as H1.
  destruct (MultiStage.drop (MultiStage.blanks s) s) as [|c s2]; [discriminate|].
  destruct (Ascii.eqb c "="); [|discriminate].
  simpl in H1. apply andb_true_iff in H1 as [_ H1].
  pose proof (all_of_drop _ (MultiStage.blanks s2) s2 H1) as H2.
  destruct (MultiStage.drop (MultiStage.blanks s2) s2) as [|q s3]; [discriminate|].
  simpl in H2. apply andb_true_iff in H2 as [Hq _].
  destruct (SecretScan.is_quote q); [discriminate Hq | discriminate H].
Qed.

Lemma secret_pattern_quote (key : string -> option nat) (s : string)
  (found : nat * string) :
  SecretScan.secret_pattern key s = Some found -> ~ no_quote s.
Proof.
  unfold SecretScan.secret_pattern. intros H Hno.
  destruct (key s) as [n|]; [|discriminate].
  destruct (SecretScan.match_quoted_value (MultiStage.drop n s)) as [m|] eqn:E;
    [|discriminate].
  apply (match_quoted_value_quote _ _ E). apply all_of_drop, Hno.
Qed.

Lemma Matches_no_quote (key : string -> option nat) (skip : nat) (s : string) :
  no_quote s -> SecretScan.Matches (SecretScan.secret_pattern key) skip s = [].
Proof.
  revert skip. induction s as [|c s IH]; intros skip Hno; [reflexivity|].
  assert (Hs : no_quote s).
  { unfold no_quote in *. simpl in Hno. apply andb_true_iff in Hno. tauto. }
  cbn [SecretScan.Matches]. destruct skip as [|k]; [|apply IH, Hs].
  destruct (SecretScan.secret_pattern key (String c s)) as [[len a]|] eqn:E.
  - exfalso. apply (secret_pattern_quote _ _ _ E Hno).
  - apply IH, Hs.
Qed.

(** X15: the secret patterns of the Dockerfile scan require a quote
    in front of the value.  A Dockerfile without any quote character
    yields no finding and the check records a pass, whatever passwords,
    tokens or keys the file assigns. *)
Theorem unquoted_secrets_pass (d : MultiStage.Dockerfile) (st : TestResults.t) :
  MultiStage.present d = true ->
  no_quote (MultiStage.content d) ->
  SecretScan.secretsFound_of (MultiStage.content d) = []
  /\ records (Environment.Test_DockerfileSecrets d
                (SecretScan.secretsFound_of (MultiStage.content d))) st
       (Result.mk ("No secrets in Dockerfile: " +:+ MultiStage.Leaf d) "OK" true "").
Proof.
  intros Hpresent Hno.
  assert (Hnone : SecretScan.secretsFound_of (MultiStage.content d) = []).
  { unfold SecretScan.secretsFound_of, SecretScan.SecretPatterns. cbn [map concat].
    rewrite !Matches_no_quote by exact Hno. reflexivity. }
  split; [exact Hnone|]. rewrite Hnone.
  unfold Environment.Test_DockerfileSecrets. rewrite Hpresent.
  apply Add_TestResult_records.
Qed.

Lemma unquoted_secrets_pass_witness :
  SecretScan.secretsFound_of (MultiStage.content password_Dockerfile) = [].
Proof.
  apply (unquoted_secrets_pass password_Dockerfile (TestResults.init "ENVIRONMENT CONFIGURATION"));
    reflexivity.
Defined.

(** With quotes around the value the same assignments are found. *)
Lemma quoted_secret_found :
  SecretScan.secretsFound_of
    ("ENV DB_PASSWORD = 'S3cr3t'" +:+ nl +:+ "ENV api-key='k' TOKEN='t'" +:+ nl)
  = ["PASSWORD = 'S3cr3t'"; "api-key='k'"; "TOKEN='t'"].
Proof. vm_compute. reflexivity. Qed.

Lemma run_of_length (f : ascii -> bool) (s : string) :
  (SecretScan.run_of f s <= String.length s)%nat.
Proof. induction s as [|c s IH]; simpl; [lia|]. destruct (f c); simpl; lia. Qed.

Lemma looks_like_production_length (value : string) :
  SecretScan.looks_like_production value = true -> (23 <= String.length value)%nat.
Proof.
  unfold SecretScan.looks_like_production. rewrite orb_true_iff, !andb_true_iff.
  intros [[_ H]|[Hsk H]].
  - apply Nat.leb_le in H. lia.
  - apply Nat.leb_le in H.
    destruct value as [|c1 [|c2 [|c3 rest]]]; try discriminate Hsk;
      try (simpl in Hsk; rewrite ?andb_false_r in Hsk; discriminate Hsk).
    cbn [MultiStage.drop] in H. pose proof (run_of_length SecretScan.is_alnum rest).
    simpl. lia.
Qed.

(** X16: the scan of the environment file reports a line only for a
    value that looks like a production secret, and such a value has at
    least 23 characters.  A file in which every value assigned to a
    password, secret, key or token outside a comment line is shorter
    yields no finding, and the check records a pass. *)
Theorem short_values_pass (e : Environment.EnvFile) (content : string)
  (st : TestResults.t) :
  Environment.env_present e = true ->
  Environment.hardcoded e = SecretScan.hardcodedSecrets_of content ->
  (forall line value,
      In line (SecretScan.split_lines content) ->
      SecretScan.comment_line line = false ->
      SecretScan.value_of line = Some value ->
      (String.length value < 23)%nat) ->
  Environment.hardcoded e = []
  /\ records (Environment.Test_EnvFileSecrets e) st
       (Result.mk "Environment file security" "OK" true "").
Proof.
  intros Hpresent Hscan Hshort.
  assert (Hnone : Environment.hardcoded e = []).
  { rewrite Hscan. unfold SecretScan.hardcodedSecrets_of.
    replace (List.filter SecretScan.hardcoded_line (SecretScan.split_lines content))
      with (@nil string); [reflexivity|].
    symmetry. clear Hscan.
    induction (SecretScan.split_lines content) as [|line lines IH]; [reflexivity|].
    simpl. rewrite IH by (intros l v Hl; apply Hshort; right; exact Hl).
    destruct (SecretScan.hardcoded_line line) eqn:E; [|reflexivity].
    exfalso. unfold SecretScan.hardcoded_line in E.
    destruct (SecretScan.comment_line line) eqn:Hc; [discriminate|].
    destruct (SecretScan.blank_line line); [discriminate|].
    destruct (SecretScan.value_of line) as [value|] eqn:Hv; [|discriminate].
    apply looks_like_production_length in E.
    specialize (Hshort line value (or_introl eq_refl) Hc Hv). lia. }
  split; [exact Hnone|].
  unfold Environment.Test_EnvFileSecrets. rewrite Hpresent, Hnone.
  apply Add_TestResult_records.
Qed.

Lemma short_values_pass_witness :
  SecretScan.hardcodedSecrets_of dev_env = [].
Proof.
  apply (short_values_pass (Environment.mkEnvFile ".env" true (SecretScan.hardcodedSecrets_of dev_env))
           dev_env (TestResults.init "ENVIRONMENT CONFIGURATION") eq_refl eq_refl).
  intros line value Hin Hc Hv. vm_compute in Hin.
  repeat (destruct Hin as [<-|Hin];
          [vm_compute in Hc, Hv; try discriminate; injection Hv as <-; simpl; lia|]).
  destruct Hin.
Defined.

(** A long value in the base-64 alphabet, or one that starts like an API
    key, is reported; the same value with padding is not. *)
Lemma hardcoded_examples :
  SecretScan.hardcodedSecrets_of
    ("  JWT_SECRET=0123456789abcdefghijklmnopqrstuvwxyzABCD  " +:+ nl +:+
     "API_KEY=sk-0123456789abcdefghij" +:+ nl +:+
     "JWT_SECRET=0123456789abcdefghijklmnopqrstuvwxyzABCD==" +:+ nl)
  = ["JWT_SECRET=0123456789abcdefghijklmnopqrstuvwxyzABCD";
     "API_KEY=sk-0123456789abcdefghij"].
Proof. vm_compute. reflexivity. Qed.

(* ================================================================== *)
(** ** Further properties: the orchestration audit (test-orchestration.ps1) *)
(* ================================================================== *)

(** X17: the restart-policies check passes exactly when every policy
    found in the compose file is one of the four valid ones, letters
    compared without case.  A file without any policy passes with a
    note, and a failure gives the number of invalid policies. *)
Theorem restart_policies_verdict (f : Orchestration.ComposeFile) (st : TestResults.t) :
  let policies := Orchestration.restartPolicies f in
  let invalid :=
    List.filter (fun policy => PS.notcontains Orchestration.validPolicies policy) policies in
  let check := Orchestration.Test_RestartPolicies f in
  (fst (check st) = true <->
     forall policy, In policy policies -> holds Orchestration.validPolicies policy)
  /\ (policies = [] ->
      records check st
        (Result.mk "Restart policies" "OK" true
           "No restart policies (optional for dev, recommended for production)"))
  /\ (invalid <> [] ->
      records check st
        (Result.mk "Restart policies" "FAIL" false
           (PS.show (Z.of_nat (length invalid)) +:+ " invalid policies"))).
Proof.
  intros policies invalid check. subst check.
  unfold Orchestration.Test_RestartPolicies. cbv zeta. fold policies. fold invalid.
  assert (Hinvalid : invalid = [] <->
            forall policy, In policy policies -> holds Orchestration.validPolicies policy).
  { subst invalid. induction policies as [|p ps IH]; simpl.
    - split; [intros _ p [] | reflexivity].
    - destruct (PS.notcontains Orchestration.validPolicies p) eqn:E.
      + split; [discriminate|]. intros H. exfalso.
        apply notcontains_holds in E. apply E, H. left. reflexivity.
      + rewrite IH. unfold PS.notcontains in E. apply negb_false_iff in E.
        apply contains_holds in E. split.
        * intros H q [<-|Hq]; [exact E | apply H, Hq].
        * intros H q Hq. apply H. right. exact Hq. }
  assert (Hcount : (0 <? Z.of_nat (length policies)) = negb (Z.of_nat (length policies) =? 0)).
  { destruct policies; reflexivity. }
  assert (Hicount : invalid = [] <-> (0 <? Z.of_nat (length invalid)) = false).
  { destruct invalid; simpl; split; try reflexivity; discriminate. }
  destruct (0 <? Z.of_nat (length policies)) eqn:Hpos; cbn [negb orb].
  - destruct (0 <? Z.of_nat (length invalid)) eqn:Hipos.
    + split; [|split].
      * rewrite Add_TestResult_eq. cbn [fst]. split; [discriminate|].
        intros H. apply Hinvalid, Hicount in H. discriminate.
      * intros ->. discriminate.
      * intros _. apply Add_TestResult_records.
    + split; [|split].
      * rewrite Add_TestResult_eq. cbn [fst].
        split; [intros _; apply Hinvalid, Hicount; reflexivity | reflexivity].
      * intros ->. discriminate.
      * intros H. exfalso. apply H, Hicount. reflexivity.
  - assert (Hnil : policies = []) by (destruct policies; [reflexivity | discriminate]).
    symmetry in Hcount. apply negb_false_iff in Hcount. rewrite Hcount.
    split; [|split].
    + rewrite Add_TestResult_eq. cbn [fst]. rewrite Hnil.
      split; [intros _ q [] | reflexivity].
    + intros _. apply Add_TestResult_records.
    + intros H. exfalso. apply H. subst invalid. rewrite Hnil. reflexivity.
Qed.

Lemma extends_ret {A} (a : A) : extends (ret a).
Proof. intros st. exists []. simpl. rewrite app_nil_r. reflexivity. Qed.

Lemma extends_Add_TestResult (Test : string) (Passed : bool) (Reason : string) :
  extends (Add_TestResult Test Passed Reason).
Proof. intros st. rewrite Add_TestResult_eq. eexists. reflexivity. Qed.

Lemma extends_bind {A B} (m : Runner A) (k : A -> Runner B) :
  extends m -> (forall a, extends (k a)) -> extends (bind m k).
Proof.
  intros Hm Hk st. unfold bind. destruct (Hm st) as [added1 H1].
  destruct (m st) as [a st']. cbn [snd] in H1.
  destruct (Hk a st') as [added2 H2]. exists (added1 ++ added2)%list.
  rewrite H2, H1, app_assoc. reflexivity.
Qed.

Lemma extends_Out_Null {A} (m : Runner A) : extends m -> extends (Out_Null m).
Proof. intros Hm st. apply Hm. Qed.

Ltac extends_walk :=
  repeat match goal with
         | |- extends (ret _) => apply extends_ret
         | |- extends (Add_TestResult _ _ _) => apply extends_Add_TestResult
         | |- extends (Out_Null _) => apply extends_Out_Null
         | |- extends (bind _ _) => apply extends_bind; [|intros ?]
         | |- extends (if ?b then _ else _) => destruct b
         | |- extends (match ?x with _ => _ end) => destruct x
         | |- extends _ => progress autounfold with checks
         end.

(** X18: when a compose file is found, the orchestration audit
    reports seven results, the first of which records that the file
    exists, and exits with 0 exactly when at least five of the seven
    checks passed. *)
Theorem orchestration_exit (w : Orchestration.World) :
  Orchestration.Get_ComposeFilePath w = true ->
  exists st,
    report (Orchestration.main w) = Some st
    /\ TestResults.TotalTests st = 7
    /\ hd_error (TestResults.Steps st)
       = Some (Result.mk "Compose file exists" "OK" true "")
    /\ (exit_code (Orchestration.main w) = 0 <-> 5 <= TestResults.Passed st).
Proof.
  intros Hpath. unfold Orchestration.main. rewrite Hpath. cbn [negb].
  unfold final_report. cbn [report exit_code].
  eexists. split; [reflexivity|].
  set (st := snd (Orchestration.steps (Orchestration.compose w)
                    (TestResults.init "ORCHESTRATION"))).
  assert (Hreach : reachable "ORCHESTRATION" st)
    by (apply adds_only_Orchestration_steps, reach_init).
  pose proof (reachable_accumulator_ok _ _ Hreach) as Hok.
  pose proof (Orchestration_steps_adds (Orchestration.compose w)
                (TestResults.init "ORCHESTRATION")) as Hlen.
  fold st in Hlen. cbn [TestResults.init TestResults.Steps length Nat.add] in Hlen.
  assert (Hcount : Steps_Count st = 7) by (unfold Steps_Count; rewrite Hlen; reflexivity).
  split; [rewrite (total_is_count st Hok); exact Hcount|].
  split.
  - subst st. unfold Orchestration.steps.
    unfold bind at 1. unfold Out_Null at 1, Orchestration.Test_ComposeFileExists.
    rewrite Add_TestResult_eq. cbn [snd].
    match goal with
    | |- hd_error (TestResults.Steps (snd (?rest ?st1))) = _ =>
      assert (Hrest : extends rest) by (cbv beta; extends_walk);
      destruct (Hrest st1) as [added Hadded]; rewrite Hadded
    end.
    reflexivity.
  - assert (Hpassed : 0 <= TestResults.Passed st <= 7).
    { rewrite (passed_is_passes st Hok).
      pose proof (passes_fails (TestResults.Steps st)) as H. rewrite Hlen in H.
      unfold passes, fails in *. lia. }
    rewrite totalPercentage_eq by (intros E; rewrite E in Hlen; discriminate).
    rewrite Hcount.
    assert (Hcases : TestResults.Passed st = 0 \/ TestResults.Passed st = 1
                     \/ TestResults.Passed st = 2 \/ TestResults.Passed st = 3
                     \/ TestResults.Passed st = 4 \/ TestResults.Passed st = 5
                     \/ TestResults.Passed st = 6 \/ TestResults.Passed st = 7) by lia.
    clear Hpassed.
    destruct Hcases as [H|[H|[H|[H|[H|[H|[H|H]]]]]]]; rewrite H;
      (split; [intros Hexit; vm_compute in Hexit; try discriminate Hexit; lia
              | intros Hge; try lia; vm_compute; reflexivity]).
Qed.

Lemma orchestration_exit_witness :
  exists st,
    report (Orchestration.main three_services) = Some st
    /\ TestResults.TotalTests st = 7
    /\ hd_error (TestResults.Steps st)
       = Some (Result.mk "Compose file exists" "OK" true "")
    /\ (exit_code (Orchestration.main three_services) = 0 <-> 5 <= TestResults.Passed st).
Proof. apply (orchestration_exit three_services). reflexivity. Defined.

(* ================================================================== *)
(** ** Further properties: the items API (api/src) *)
(* ================================================================== *)

Lemma LOG_LEVELS_lookup (levelName : string) (level : Z) :
  Items.LOG_LEVELS !! levelName = Some level <->
  In (levelName, level)
     [("ERROR", Items.ERROR); ("WARN", Items.WARN); ("INFO", Items.INFO);
      ("DEBUG", Items.DEBUG)].
Proof.
  unfold Items.LOG_LEVELS. split.
  - intros Hk.
    repeat (apply lookup_insert_Some in Hk as [[<- <-]|[_ Hk]]; [simpl; tauto|]).
    apply lookup_singleton_Some in Hk as [<- <-]. simpl. tauto.
  - simpl. intros [H|[H|[H|[H|[]]]]]; injection H as <- <-; vm_compute; reflexivity.
Qed.

Lemma Logger_level_range (env : Items.Env) : 0 <= Items.Logger_level env <= 3.
Proof.
  unfold Items.Logger_level. cbv zeta.
  destruct (Items.LOG_LEVELS !! _) as [level|] eqn:E; [|unfold Items.INFO; lia].
  apply LOG_LEVELS_lookup in E. simpl in E.
  destruct E as [H|[H|[H|[H|[]]]]]; injection H as _ <-;
    unfold Items.ERROR, Items.WARN, Items.INFO, Items.DEBUG; lia.
Qed.

Lemma shouldLog_ERROR (env : Items.Env) : Items.shouldLog env Items.ERROR = true.
Proof.
  unfold Items.shouldLog, Items.ERROR. apply Z.leb_le.
  apply (Logger_level_range env).
Qed.

Lemma write_ERROR (env : Items.Env) (text : string)
  (meta : list (string * Items.Json)) (log : list Items.LogLine) :
  Items.write env Items.ERROR text meta log
  = (log ++ [Items.mkLogLine Items.ERROR text meta])%list.
Proof. unfold Items.write. rewrite shouldLog_ERROR. reflexivity. Qed.

(** X19: the answer to a request for one item.  When the query yields
    a row, the status is 200 and the body is the item of the first row
    with the column [created_at] under the key [createdAt], and nothing
    is logged.  When it yields no row the status is 404 with the message
    [Item not found]; when it fails the status is 500 with the message
    [Failed to retrieve item], the cause being written to the log and
    not to the answer.  No other status is sent. *)
Theorem get_item_by_id (w : Items.World) (req : Items.Request) (id_param : string) :
  let id := Items.parseInt id_param in
  let response := fst (Items.getById w req id_param) in
  let log := snd (Items.getById w req id_param) in
  (forall row rows,
      Items.select_by_id w id = Items.Fulfilled (row :: rows) ->
      response = Items.mkResponse 200
                   (Items.JObject [ ("id", Items.id row); ("title", Items.title row);
                                    ("body", Items.body row);
                                    ("createdAt", Items.created_at row) ])
      /\ log = [])
  /\ (Items.select_by_id w id = Items.Fulfilled [] ->
      response = Items.mkResponse 404 (Items.error_body "Item not found" 404)
      /\ log = [ Items.mkLogLine Items.ERROR "Error occurred"
                   [ ("message", Items.JString "Item not found");
                     ("path", Items.JString (Items.path req));
                     ("method", Items.JString (Items.method req)) ] ])
  /\ (forall err,
         Items.select_by_id w id = Items.Rejected err ->
         response = Items.mkResponse 500 (Items.error_body "Failed to retrieve item" 500)
         /\ log = [ Items.mkLogLine Items.ERROR "Failed to fetch item by ID"
                      [ ("id", Items.id_json id);
                        ("error", Items.JString (Items.message_of err)) ];
                    Items.mkLogLine Items.ERROR "Error occurred"
                      [ ("message", Items.JString "Failed to retrieve item");
                        ("path", Items.JString (Items.path req));
                        ("method", Items.JString (Items.method req)) ] ])
  /\ (Items.status response = 200 \/ Items.status response = 404
      \/ Items.status response = 500).
Proof.
  intros id response log. subst response log.
  unfold Items.getById, Items.handle, Items.getItemById, Items.findById,
    Items.await, Items.try_catch, Items.resolve, Items.throw, Items.logger.
  cbv zeta. fold id. unfold Items.errorHandler. cbv zeta.
  split; [|split; [|split]].
  - intros row rows ->. cbn. split; reflexivity.
  - intros ->. cbn [head fst snd]. rewrite write_ERROR. cbn. split; reflexivity.
  - intros err ->. cbn [head fst snd]. rewrite !write_ERROR. cbn. split; reflexivity.
  - destruct (Items.select_by_id w id) as [[|row rows]|err]; cbn; auto.
Qed.

(** X20: the answer to a request for all items.  When the query
    succeeds the status is 200 and the body is the array of the items in
    the order of the rows, an empty table giving an empty array; when it
    fails the status is 500 with the message [Failed to retrieve items]
    and two lines are written to the log. *)
Theorem get_all_items (w : Items.World) (req : Items.Request) :
  let response := fst (Items.getAll w req) in
  let log := snd (Items.getAll w req) in
  (forall rows,
      Items.select_all w = Items.Fulfilled rows ->
      response
      = Items.mkResponse 200
          (Items.JArray
             (map (fun row =>
                     Items.JObject [ ("id", Items.id row); ("title", Items.title row);
                                     ("body", Items.body row);
                                     ("createdAt", Items.created_at row) ]) rows))
      /\ log = if Items.shouldLog (Items.env w) Items.DEBUG
               then [ Items.mkLogLine Items.DEBUG
                        ("Found " +:+ PS.show (Z.of_nat (length rows)) +:+ " items") [] ]
               else [])
  /\ (forall err,
         Items.select_all w = Items.Rejected err ->
         response = Items.mkResponse 500 (Items.error_body "Failed to retrieve items" 500)
         /\ log = [ Items.mkLogLine Items.ERROR "Failed to fetch items from database"
                      [ ("error", Items.JString (Items.message_of err)) ];
                    Items.mkLogLine Items.ERROR "Error occurred"
                      [ ("message", Items.JString "Failed to retrieve items");
                        ("path", Items.JString (Items.path req));
                        ("method", Items.JString (Items.method req)) ] ]).
Proof.
  intros response log. subst response log.
  unfold Items.getAll, Items.handle, Items.getAllItems, Items.findAll,
    Items.await, Items.try_catch, Items.resolve, Items.throw, Items.logger.
  unfold Items.errorHandler. cbv zeta.
  split.
  - intros rows ->. cbn [fst snd]. unfold Items.write.
    destruct (Items.shouldLog (Items.env w) Items.DEBUG); cbn [fst snd app];
      (split; [|reflexivity]); unfold Items.fromDatabaseArray;
      rewrite map_map; reflexivity.
  - intros err ->. cbn [fst snd]. rewrite !write_ERROR. cbn. split; reflexivity.
Qed.

(** X21: the answer of the error handler.  An operational error is
    answered with its own status code and message.  Any other error is
    answered with status 500, and with the message
    [Internal server error] in production or its own message elsewhere.
    The body always holds the message and the status that is sent, and
    one line is written to the log whatever the log level. *)
Theorem error_handler_response (w : Items.World) (req : Items.Request)
  (err : Items.Thrown) (log : list Items.LogLine) :
  let response := fst (Items.errorHandler w req err log) in
  let operational :=
    exists e, err = Items.App e /\ Items.isOperational e = true in
  let production := Items.env w !! "NODE_ENV" = Some "production" in
  (forall e, err = Items.App e -> Items.isOperational e = true ->
             response = Items.mkResponse (Items.statusCode e)
                          (Items.error_body (Items.message e) (Items.statusCode e)))
  /\ (~ operational -> production ->
       response = Items.mkResponse 500 (Items.error_body "Internal server error" 500))
  /\ (~ operational -> ~ production ->
       response = Items.mkResponse 500 (Items.error_body (Items.message_of err) 500))
  /\ (exists message,
         Items.sent response = Items.error_body message (Items.status response))
  /\ snd (Items.errorHandler w req err log)
      = (log ++ [ Items.mkLogLine Items.ERROR "Error occurred"
                    [ ("message", Items.JString (Items.message_of err));
                      ("path", Items.JString (Items.path req));
                      ("method", Items.JString (Items.method req)) ] ])%list.
Proof.
  intros response operational production. subst response operational production.
  unfold Items.errorHandler. cbv zeta. rewrite write_ERROR.
  assert (Hprod : Items.env_is (Items.env w) "NODE_ENV" "production" = true
                  <-> Items.env w !! "NODE_ENV" = Some "production").
  { unfold Items.env_is. destruct (Items.env w !! "NODE_ENV") as [value|].
    - rewrite String.eqb_eq. split; [intros ->; reflexivity | intros [= ->]; reflexivity].
    - split; discriminate. }
  destruct err as [e|message].
  - destruct (Items.isOperational e) eqn:Hop; cbn [fst snd].
    + split; [intros e' [= <-] _; reflexivity|].
      split; [intros Hn; exfalso; apply Hn; eauto|].
      split; [intros Hn; exfalso; apply Hn; eauto|].
      split; [eexists; reflexivity | reflexivity].
    + split; [intros e' [= <-] H; congruence|].
      split; [intros _ Hp; apply Hprod in Hp; rewrite Hp; reflexivity|].
      split.
      { intros _ Hp. destruct (Items.env_is _ _ _); [|reflexivity].
        exfalso. apply Hp, Hprod. reflexivity. }
      split; [eexists; reflexivity | reflexivity].
  - cbn [fst snd].
    split; [intros e' [=]|].
    split; [intros _ Hp; apply Hprod in Hp; rewrite Hp; reflexivity|].
    split.
    { intros _ Hp. destruct (Items.env_is _ _ _); [|reflexivity].
      exfalso. apply Hp, Hprod. reflexivity. }
    split; [eexists; reflexivity | reflexivity].
Qed.

Lemma lower_toUpperCase (s : string) : lower (Items.toUpperCase s) = lower s.
Proof.
  induction s as [|c s IH]; [reflexivity|]. simpl. rewrite IH. f_equal.
  destruct c as [[] [] [] [] [] [] [] []]; reflexivity.
Qed.

Lemma toUpperCase_lower (s : string) : Items.toUpperCase (lower s) = Items.toUpperCase s.
Proof.
  induction s as [|c s IH]; [reflexivity|]. simpl. rewrite IH. f_equal.
  destruct c as [[] [] [] [] [] [] [] []]; reflexivity.
Qed.

Lemma toUpperCase_is (s upper_ : string) :
  Items.toUpperCase upper_ = upper_ ->
  Items.toUpperCase s = upper_ <-> lower s = lower upper_.
Proof.
  intros Hup. split.
  - intros <-. symmetry. apply lower_toUpperCase.
  - intros H. rewrite <- toUpperCase_lower, H, toUpperCase_lower. exact Hup.
Qed.

Lemma Logger_level_of (env : Items.Env) (level : Z) :
  Items.Logger_level env = level <->
  (LOG_LEVEL_is env "error" /\ level = Items.ERROR)
  \/ (LOG_LEVEL_is env "warn" /\ level = Items.WARN)
  \/ (LOG_LEVEL_is env "debug" /\ level = Items.DEBUG)
  \/ (~ LOG_LEVEL_is env "error" /\ ~ LOG_LEVEL_is env "warn"
      /\ ~ LOG_LEVEL_is env "debug" /\ level = Items.INFO).
Proof.
  unfold Items.Logger_level. cbv zeta.
  set (value := Items.env_or env "LOG_LEVEL" "info").
  assert (Hvalue : forall text, text <> "info" -> text <> "" ->
            (LOG_LEVEL_is env text <-> lower value = text)).
  { intros text Htext Hne. subst value. unfold Items.env_or, LOG_LEVEL_is.
    destruct (env !! "LOG_LEVEL") as [[|c v]|].
    - split.
      + intros [v [[= <-] H]]. exfalso. apply Hne. rewrite <- H. reflexivity.
      + intros H. exfalso. apply Htext. rewrite <- H. reflexivity.
    - split; [intros [v' [[= <-] H]]; exact H | intros H; eauto].
    - split; [intros [v [[=] _]]|].
      intros H. exfalso. apply Htext. rewrite <- H. reflexivity. }
  pose proof (Hvalue "error" ltac:(discriminate) ltac:(discriminate)) as Herror.
  pose proof (Hvalue "warn" ltac:(discriminate) ltac:(discriminate)) as Hwarn.
  pose proof (Hvalue "debug" ltac:(discriminate) ltac:(discriminate)) as Hdebug.
  pose proof (toUpperCase_is value "ERROR" eq_refl) as Uerror.
  pose proof (toUpperCase_is value "WARN" eq_refl) as Uwarn.
  pose proof (toUpperCase_is value "INFO" eq_refl) as Uinfo.
  pose proof (toUpperCase_is value "DEBUG" eq_refl) as Udebug.
  change (lower "ERROR") with "error" in Uerror.
  change (lower "WARN") with "warn" in Uwarn.
  change (lower "INFO") with "info" in Uinfo.
  change (lower "DEBUG") with "debug" in Udebug.
  rewrite Herror, Hwarn, Hdebug. clear Hvalue Herror Hwarn Hdebug.
  destruct (Items.LOG_LEVELS !! Items.toUpperCase value) as [l|] eqn:E.
  - apply LOG_LEVELS_lookup in E. simpl in E.
    destruct E as [H|[H|[H|[H|[]]]]]; injection H as Hname <-; symmetry in Hname.
    + apply Uerror in Hname. split; [intros <-; auto|].
      intros [[_ ->]|[[H _]|[[H _]|[H _]]]]; try reflexivity; congruence.
    + apply Uwarn in Hname. split; [intros <-; auto|].
      intros [[H _]|[[_ ->]|[[H _]|[_ [H _]]]]]; try reflexivity; congruence.
    + apply Uinfo in Hname. split.
      * intros <-. right. right. right. repeat split; congruence.
      * intros [[H _]|[[H _]|[[H _]|[_ [_ [_ ->]]]]]]; try reflexivity; congruence.
    + apply Udebug in Hname. split; [intros <-; auto|].
      intros [[H _]|[[H _]|[[_ ->]|[_ [_ [H _]]]]]]; try reflexivity; congruence.
  - assert (Hnot : forall name l, In (name, l)
               [("ERROR", Items.ERROR); ("WARN", Items.WARN); ("INFO", Items.INFO);
                ("DEBUG", Items.DEBUG)] -> Items.toUpperCase value <> name).
    { intros name l Hin Heq. apply LOG_LEVELS_lookup in Hin. congruence. }
    split.
    + intros <-. right. right. right.
      split; [intros H; apply Uerror in H; revert H; apply (Hnot _ Items.ERROR); simpl; auto|].
      split; [intros H; apply Uwarn in H; revert H; apply (Hnot _ Items.WARN); simpl; auto|].
      split; [intros H; apply Udebug in H; revert H; apply (Hnot _ Items.DEBUG); simpl; auto|].
      reflexivity.
    + intros [[H _]|[[H _]|[[H _]|[_ [_ [_ ->]]]]]]; try reflexivity; exfalso.
      * apply Uerror in H; revert H; apply (Hnot _ Items.ERROR); simpl; auto.
      * apply Uwarn in H; revert H; apply (Hnot _ Items.WARN); simpl; auto.
      * apply Udebug in H; revert H; apply (Hnot _ Items.DEBUG); simpl; auto.
Qed.

(** X22: the level of the logger is read from [LOG_LEVEL] without
    regard to case; a variable that is unset, empty or none of the four
    names gives the level [info].  Errors are always written, warnings
    unless the level is [error], and debug lines only at the level
    [debug]. *)
Theorem logger_levels (env : Items.Env) :
  (Items.Logger_level env = Items.ERROR <-> LOG_LEVEL_is env "error")
  /\ (Items.Logger_level env = Items.WARN <-> LOG_LEVEL_is env "warn")
  /\ (Items.Logger_level env = Items.DEBUG <-> LOG_LEVEL_is env "debug")
  /\ (Items.Logger_level env = Items.INFO <->
      ~ LOG_LEVEL_is env "error" /\ ~ LOG_LEVEL_is env "warn"
      /\ ~ LOG_LEVEL_is env "debug")
  /\ Items.shouldLog env Items.ERROR = true
  /\ (Items.shouldLog env Items.WARN = true <-> ~ LOG_LEVEL_is env "error")
  /\ (Items.shouldLog env Items.DEBUG = true <-> LOG_LEVEL_is env "debug").
Proof.
  pose proof (Logger_level_range env) as Hrange.
  pose proof (Logger_level_of env 0) as H0.
  pose proof (Logger_level_of env 1) as H1.
  pose proof (Logger_level_of env 2) as H2.
  pose proof (Logger_level_of env 3) as H3.
  unfold Items.shouldLog, Items.ERROR, Items.WARN, Items.INFO, Items.DEBUG in *.
  assert (E0 : Items.Logger_level env = 0 <-> LOG_LEVEL_is env "error").
  { rewrite H0. split; [|auto]. intros [[H _]|[[_ H]|[[_ H]|[_ [_ [_ H]]]]]];
      [exact H | discriminate H..]. }
  assert (E1 : Items.Logger_level env = 1 <-> LOG_LEVEL_is env "warn").
  { rewrite H1. split; [|auto]. intros [[_ H]|[[H _]|[[_ H]|[_ [_ [_ H]]]]]];
      [discriminate H | exact H | discriminate H..]. }
  assert (E3 : Items.Logger_level env = 3 <-> LOG_LEVEL_is env "debug").
  { rewrite H3. split; [|auto]. intros [[_ H]|[[_ H]|[[H _]|[_ [_ [_ H]]]]]];
      [discriminate H.. | exact H | discriminate H]. }
  assert (E2 : Items.Logger_level env = 2 <->
               ~ LOG_LEVEL_is env "error" /\ ~ LOG_LEVEL_is env "warn"
               /\ ~ LOG_LEVEL_is env "debug").
  { rewrite <- E0, <- E1, <- E3. lia. }
  split; [exact E0|]. split; [exact E1|]. split; [exact E3|]. split; [exact E2|].
  split; [apply Z.leb_le; lia|].
  split.
  - rewrite <- E0, Z.leb_le. lia.
  - rewrite <- E3, Z.leb_le. lia.
Qed.

Lemma getEnv_required (env : Items.Env) (key : string) :
  (is_set env key ->
   exists value, env !! key = Some value /\ Items.getEnv env key None = Items.Fulfilled value)
  /\ (~ is_set env key ->
      Items.getEnv env key None
      = Items.Rejected (Items.Other ("Missing required environment variable: " +:+ key))).
Proof.
  unfold Items.getEnv, is_set. destruct (env !! key) as [[|c value]|]; split.
  - intros [v [[= <-] H]]. congruence.
  - reflexivity.
  - intros _. eauto.
  - intros H. exfalso. apply H. eexists. split; [reflexivity | discriminate].
  - intros [v [[=] _]].
  - reflexivity.
Qed.

(** X23: the configuration of the database is built exactly when
    [DB_USER], [DB_PASSWORD] and [DB_NAME] are set to texts that are not
    empty.  Otherwise building it raises an error that names the first
    of the three that is missing, in this order.  A configuration that is
    built holds the values of the three variables, the host [localhost],
    the port 5432 and a pool of 10 where these are not set. *)
Theorem database_configuration (env : Items.Env) :
  let missing key :=
    Items.Rejected (Items.Other ("Missing required environment variable: " +:+ key)) in
  ((exists cfg, Items.dbConfig env = Items.Fulfilled cfg)
   <-> is_set env "DB_USER" /\ is_set env "DB_PASSWORD" /\ is_set env "DB_NAME")
  /\ (~ is_set env "DB_USER" -> Items.dbConfig env = missing "DB_USER")
  /\ (is_set env "DB_USER" -> ~ is_set env "DB_PASSWORD" ->
      Items.dbConfig env = missing "DB_PASSWORD")
  /\ (is_set env "DB_USER" -> is_set env "DB_PASSWORD" -> ~ is_set env "DB_NAME" ->
      Items.dbConfig env = missing "DB_NAME")
  /\ (forall cfg,
         Items.dbConfig env = Items.Fulfilled cfg ->
         env !! "DB_USER" = Some (Items.user cfg)
         /\ env !! "DB_PASSWORD" = Some (Items.password cfg)
         /\ env !! "DB_NAME" = Some (Items.database cfg)
         /\ Items.host cfg = Items.env_or env "DB_HOST" "localhost"
         /\ (~ is_set env "DB_PORT" -> Items.port cfg = Double.of_Z 5432)
         /\ (~ is_set env "DB_POOL_MAX" -> Items.max cfg = Double.of_Z 10)).
Proof.
  intros missing. subst missing. cbv beta.
  unfold Items.dbConfig.
  assert (Hhost : Items.getEnv env "DB_HOST" (Some "localhost")
                  = Items.Fulfilled (Items.env_or env "DB_HOST" "localhost")).
  { unfold Items.getEnv, Items.env_or. destruct (env !! "DB_HOST") as [[|c v]|]; reflexivity. }
  assert (Hint : forall key d, ~ is_set env key ->
                               Items.getEnvInt env key d = Double.of_Z d).
  { intros key d Hn. unfold Items.getEnvInt. destruct (env !! key) as [[|c v]|] eqn:E;
      try reflexivity.
    exfalso. apply Hn. exists (String c v). split; [exact E | discriminate]. }
  rewrite Hhost. cbv zeta.
  destruct (getEnv_required env "DB_USER") as [Hu Hnu].
  destruct (getEnv_required env "DB_PASSWORD") as [Hp Hnp].
  destruct (getEnv_required env "DB_NAME") as [Hd Hnd].
  assert (Dec : forall key, is_set env key \/ ~ is_set env key).
  { intros key. unfold is_set. destruct (env !! key) as [[|c v]|].
    - right. intros [v [[= <-] H]]. congruence.
    - left. eexists. split; [reflexivity | discriminate].
    - right. intros [v [[=] _]]. }
  assert (Hrejected : forall err P Q1 Q2 Q3 (R : Items.DbConfig -> Prop),
            ~ P -> Q1 -> Q2 -> Q3 ->
            ((exists cfg, @Items.Rejected Items.DbConfig err = Items.Fulfilled cfg) <-> P)
            /\ Q1 /\ Q2 /\ Q3
            /\ (forall cfg, @Items.Rejected Items.DbConfig err = Items.Fulfilled cfg -> R cfg)).
  { intros err P Q1 Q2 Q3 R HP H1 H2 H3.
    split; [split; [intros [cfg Hcfg]; discriminate Hcfg | intros HP'; contradiction]|].
    split; [exact H1|]. split; [exact H2|]. split; [exact H3|].
    intros cfg Hcfg. discriminate Hcfg. }
  destruct (Dec "DB_USER") as [Su|Su].
  2: { rewrite (Hnu Su). apply Hrejected; tauto. }
  destruct (Hu Su) as [u [Eu ->]].
  destruct (Dec "DB_PASSWORD") as [Sp|Sp].
  2: { rewrite (Hnp Sp). apply Hrejected; tauto. }
  destruct (Hp Sp) as [p [Ep ->]].
  destruct (Dec "DB_NAME") as [Sd|Sd].
  2: { rewrite (Hnd Sd). apply Hrejected; tauto. }
  destruct (Hd Sd) as [d [Ed ->]].
  split; [split; [tauto | eauto]|].
  split; [tauto|]. split; [tauto|]. split; [tauto|].
  intros cfg [= <-]. cbn. repeat split; auto.
Qed.

Lemma digits_value_ignores (digits : string) (c : ascii) (rest : string) (acc : Z) :
  digits_only digits -> Items.is_digit c = false ->
  Items.digits_value acc (digits +:+ String c rest) = Items.digits_value acc digits.
Proof.
  unfold digits_only. revert acc. induction digits as [|d digits IH]; intros acc Hd Hc.
  - simpl. rewrite Hc. reflexivity.
  - simpl in Hd. apply andb_true_iff in Hd as [Hd1 Hd].
    change (String d digits +:+ String c rest) with (String d (digits +:+ String c rest)).
    cbn [Items.digits_value]. rewrite Hd1. apply IH; assumption.
Qed.

Lemma is_digit_plain (c : ascii) :
  Items.is_digit c = true ->
  Items.is_js_space c = false /\ Ascii.eqb c "-" = false /\ Ascii.eqb c "+" = false.
Proof.
  destruct c as [[] [] [] [] [] [] [] []]; intros H; try discriminate H;
    repeat split; reflexivity.
Qed.

Lemma parseInt_digits (d : ascii) (s : string) :
  Items.is_digit d = true ->
  Items.parseInt (String d s) = Double.of_integer (Items.digits_value 0 (String d s)).
Proof.
  intros Hd. destruct (is_digit_plain d Hd) as (Hs & Hm & Hp).
  unfold Items.parseInt. cbn [Items.skip_blanks]. rewrite Hs, Hm, Hp, Hd.
  reflexivity.
Qed.

Lemma parseInt_skips_blanks (lead text : string) :
  SecretScan.all_of Items.is_js_space lead = true ->
  Items.parseInt (lead +:+ text) = Items.parseInt text.
Proof.
  intros Hlead. unfold Items.parseInt.
  replace (Items.skip_blanks (lead +:+ text)) with (Items.skip_blanks text);
    [reflexivity|].
  induction lead as [|b lead IH]; [reflexivity|].
  simpl in Hlead. apply andb_true_iff in Hlead as [Hb Hlead].
  change (String b lead +:+ text) with (String b (lead +:+ text)).
  cbn [Items.skip_blanks]. rewrite Hb. apply IH, Hlead.
Qed.

(** X24: the id of a request is read by its leading digits.  In a
    parameter that starts with decimal digits, after blanks or not,
    whatever follows the digits is ignored: the parameter is read as the
    digits alone are, and the request is answered as the request for the
    digits alone. *)
Theorem item_id_is_read_leniently (w : Items.World) (req : Items.Request)
  (digits : string) (c : ascii) (rest : string) :
  digits <> "" -> digits_only digits -> Items.is_digit c = false ->
  Items.parseInt (digits +:+ String c rest) = Items.parseInt digits
  /\ Items.getById w req (digits +:+ String c rest) = Items.getById w req digits
  /\ (forall lead,
         SecretScan.all_of Items.is_js_space lead = true ->
         Items.parseInt (lead +:+ digits +:+ String c rest) = Items.parseInt digits).
Proof.
  intros Hne Hdigits Hc.
  destruct digits as [|d digits]; [congruence|].
  pose proof Hdigits as Hd. unfold digits_only in Hd. simpl in Hd.
  apply andb_true_iff in Hd as [Hd _].
  assert (Hparse : Items.parseInt (String d digits +:+ String c rest)
                   = Items.parseInt (String d digits)).
  { change (String d digits +:+ String c rest)
      with (String d (digits +:+ String c rest)).
    rewrite !parseInt_digits by exact Hd.
    change (String d (digits +:+ String c rest))
      with (String d digits +:+ String c rest).
    rewrite digits_value_ignores by assumption. reflexivity. }
  split; [exact Hparse|]. split.
  - unfold Items.getById. rewrite Hparse. reflexivity.
  - intros lead Hlead. rewrite parseInt_skips_blanks by exact Hlead. exact Hparse.
Qed.

Lemma item_id_is_read_leniently_witness :
  Items.parseInt "12abc" = Double.of_Z 12
  /\ Items.getById empty_table get_item_12abc "12abc"
     = Items.getById empty_table get_item_12abc "12".
Proof.
  destruct (item_id_is_read_leniently empty_table get_item_12abc "12" "a" "bc")
    as (Hparse & Hget & _); [discriminate | reflexivity | reflexivity |].
  split; [exact (eq_trans Hparse eq_refl) | exact Hget].
Defined.

(** The id is a double: beyond 2^53 the digits are rounded to the
    nearest double, a text without digit in front gives [NaN], and the
    log writes [NaN] as [null]. *)
Lemma parseInt_is_a_double :
  Items.parseInt "9007199254740993" = Double.of_Z 9007199254740992
  /\ Items.parseInt "-7" = PrimFloat.opp (Double.of_Z 7)
  /\ Items.parseInt "abc" = PrimFloat.nan
  /\ Items.id_json (Items.parseInt "9007199254740993") = Items.JNumber 9007199254740992
  /\ Items.id_json (Items.parseInt "abc") = Items.JNull.
Proof. repeat split; vm_compute; reflexivity. Qed.

(* ================================================================== *)
(** ** Further properties: the vulnerability scan (tests/test-security-scan.ps1) *)
(* ================================================================== *)

Lemma fold_left_add (f : SecurityScan.ScanResult -> Z)
  (l : list SecurityScan.ScanResult) (acc : Z) :
  fold_left (fun a r => a + f r) l acc = acc + fold_left (fun a r => a + f r) l 0.
Proof.
  revert acc. induction l as [|r l IH]; intros acc; simpl; [lia|].
  rewrite (IH (acc + f r)), (IH (0 + f r)). lia.
Qed.

Lemma total_cons (f : SecurityScan.ScanResult -> Z) (r : SecurityScan.ScanResult)
  (results : list SecurityScan.ScanResult) :
  SecurityScan.total f (r :: results)
  = (if SecurityScan.Success r then f r else 0) + SecurityScan.total f results.
Proof.
  unfold SecurityScan.total. simpl. destruct (SecurityScan.Success r); simpl.
  - apply fold_left_add.
  - lia.
Qed.

Lemma count_severity_pos (severity : string) (Results : list (list string)) :
  0 <= SecurityScan.count_severity severity Results
  /\ (0 < SecurityScan.count_severity severity Results <->
      exists severities s, In severities Results /\ In s severities
                           /\ lower s = lower severity).
Proof.
  unfold SecurityScan.count_severity. split; [lia|]. split.
  - intros H.
    destruct (List.filter _ (concat Results)) as [|s l] eqn:E; [simpl in H; lia|].
    assert (Hin : In s (List.filter (fun s => PS.ieq s severity) (concat Results)))
      by (rewrite E; left; reflexivity).
    apply filter_In in Hin as [Hin Hs]. apply in_concat in Hin as [severities [H1 H2]].
    exists severities, s. split; [exact H1|]. split; [exact H2|].
    apply ieq_lower, Hs.
  - intros [severities [s [H1 [H2 Hs]]]].
    assert (Hin : In s (List.filter (fun s => PS.ieq s severity) (concat Results))).
    { apply filter_In. split; [apply in_concat; eauto | apply ieq_lower, Hs]. }
    destruct (List.filter _ (concat Results)); [destruct Hin | simpl; lia].
Qed.

Lemma total_Critical_pos (scan : string -> SecurityScan.Scan) (tags : list string) :
  0 <= SecurityScan.total SecurityScan.Critical
         (map (fun tag => SecurityScan.Invoke_TrivyScan tag (scan tag)) tags)
  /\ (0 < SecurityScan.total SecurityScan.Critical
            (map (fun tag => SecurityScan.Invoke_TrivyScan tag (scan tag)) tags)
      <-> exists tag, In tag tags /\ critical_found scan tag).
Proof.
  induction tags as [|tag tags [IHnn IH]].
  - split; [reflexivity|]. split; [intros H; discriminate H | intros [tag [[] _]]].
  - cbn [map]. rewrite total_cons.
    destruct (scan tag) as [message|Results] eqn:E; cbn [SecurityScan.Invoke_TrivyScan
      SecurityScan.Success SecurityScan.Critical].
    + split; [lia|]. rewrite Z.add_0_l, IH. split.
      * intros [t [Ht Hc]]. exists t. split; [right; exact Ht | exact Hc].
      * intros [t [[<-|Ht] Hc]]; [|eauto].
        destruct Hc as (Rs & ? & ? & Hs & _). congruence.
    + destruct (count_severity_pos "CRITICAL" Results) as [Hnn Hpos].
      split; [lia|]. split.
      * intros H.
        destruct (Z.ltb_spec 0 (SecurityScan.count_severity "CRITICAL" Results)) as [Hc|Hc].
        -- apply Hpos in Hc as [severities [s [H1 [H2 Hs]]]].
           exists tag. split; [left; reflexivity|].
           exists Results, severities, s. auto.
        -- assert (Hrest : 0 < SecurityScan.total SecurityScan.Critical
                             (map (fun tag => SecurityScan.Invoke_TrivyScan tag (scan tag)) tags))
             by lia.
           apply IH in Hrest as [t [Ht Hc']]. exists t. split; [right; exact Ht | exact Hc'].
      * intros [t [[<-|Ht] Hc]].
        -- destruct Hc as (Rs & severities & s & Hs & H1 & H2 & H3).
           rewrite E in Hs. injection Hs as <-.
           assert (0 < SecurityScan.count_severity "CRITICAL" Results)
             by (apply Hpos; eauto).
           lia.
        -- assert (0 < SecurityScan.total SecurityScan.Critical
                         (map (fun tag => SecurityScan.Invoke_TrivyScan tag (scan tag)) tags))
             by (apply IH; eauto).
           lia.
Qed.

(** X25: run as a script, the vulnerability scan exits with 0 or 1.
    It exits with 1 exactly when Trivy is not available or the scan of
    one of the images reported a vulnerability of critical severity; the
    images are those of [-ImageTags] or, without it, the three images of
    the project.  Vulnerabilities of high severity do not change the
    status, and neither do scans that fail: when every scan fails the
    status is 0. *)
Theorem security_scan_exit (ImageTags : PS.strings) (trivy : bool)
  (scan : string -> SecurityScan.Scan) :
  let scanned :=
    if PS.truthy ImageTags then PS.items ImageTags else SecurityScan.defaultImageTags in
  let outcome := SecurityScan.main ImageTags false trivy scan in
  (outcome = SecurityScan.Exit 0 \/ outcome = SecurityScan.Exit 1)
  /\ (outcome = SecurityScan.Exit 1 <->
      trivy = false \/ exists imageTag, In imageTag scanned /\ critical_found scan imageTag)
  /\ (trivy = true ->
      (forall imageTag, In imageTag scanned ->
                        exists message, scan imageTag = SecurityScan.ScanThrew message) ->
      outcome = SecurityScan.Exit 0).
Proof.
  intros scanned outcome. subst outcome. unfold SecurityScan.main. cbv zeta.
  replace (if negb (PS.truthy ImageTags) then SecurityScan.defaultImageTags
           else PS.items ImageTags) with scanned
    by (subst scanned; destruct (PS.truthy ImageTags); reflexivity).
  destruct (total_Critical_pos scan scanned) as [Hnn Hpos].
  destruct trivy; cbn [negb].
  - destruct (Z.ltb_spec 0 (SecurityScan.total SecurityScan.Critical
              (map (fun imageTag => SecurityScan.Invoke_TrivyScan imageTag (scan imageTag))
                   scanned))) as [Hc|Hc].
    + split; [auto|]. split.
      * split; [intros _; right; apply Hpos, Hc | reflexivity].
      * intros _ Hall. exfalso. apply Hpos in Hc as [tag [Hin (Rs & ? & ? & Hs & _)]].
        destruct (Hall tag Hin) as [message Hm]. congruence.
    + split; [auto|]. split.
      * split; [discriminate|]. intros [H|H]; [discriminate|].
        apply Hpos in H. lia.
      * reflexivity.
  - split; [auto|]. split; [split; auto|]. discriminate.
Qed.
